(** * Smart Maintenance: ingestion buffer and ETL cycle orchestrator

    A shallow embedding of [data_ingestion_service.py] and
    [etl_pipeline.py].  Python objects become records, mutation becomes
    explicit state passing, exceptions become a [result] type, and calls
    into libraries whose code is not part of the repository (the date
    parsers, the epoch conversion, the square root) are fields of the
    [PyLib] class; readings of the clock are arguments.  The definitions
    come first, then the vocabulary of the properties, then the proofs. *)

From Stdlib Require Import ZArith QArith Qround Qminmax List String Ascii Bool.
From Stdlib Require Import Lia Lqa Permutation Sorted.
Import ListNotations.

Set Implicit Arguments.

(* ================================================================= *)
(** ** Python values *)

(** Exceptions the modelled code can raise and catch. *)
Inductive exn : Type :=
| JSONDecodeError | TypeError | ValueError | KeyError
| AttributeError | OverflowError | DatabaseError.

Inductive result (A : Type) : Type :=
| Ok (a : A)
| Raise (e : exn).
Arguments Ok {A} a.
Arguments Raise {A} e.

Definition bind {A B : Type} (r : result A) (k : A -> result B) : result B :=
  match r with
  | Ok a => k a
  | Raise e => Raise e
  end.

Declare Scope py_scope.
Delimit Scope py_scope with py.
Notation "x <- c ;; k" := (bind c (fun x => k))
  (at level 61, c at next level, right associativity) : py_scope.

(** Logging levels. *)
Inductive level : Type := DEBUG | INFO | WARNING | ERROR.

(** [datetime] values are instants on the time line. *)
Definition datetime : Type := Z.
Bind Scope Z_scope with datetime.

(** What [json.loads] returns.  An object is the decoded [dict], one
    binding per key. *)
#[warnings="-register-all"]
Inductive json : Type :=
| JNull
| JBool (b : bool)
| JNum (q : Q)
| JStr (s : string)
| JArr (l : list json)
| JObj (kv : list (string * json)).

(** Library calls made by the code. *)
Class PyLib : Type := {
  (** [datetime.fromisoformat]; [None] is [ValueError]. *)
  fromisoformat : string -> option datetime;
  (** [datetime.fromtimestamp] on seconds; [None] is an out-of-range error. *)
  fromtimestamp : Q -> option datetime;
  (** [x ** 0.5] and [np.sqrt] on a non-negative number. *)
  sqrt : Q -> Q;
  (** The scalar conversions of [pd.to_datetime]: a string (None when it
      is not a date, which raises) and an epoch number. *)
  parse_datetime : string -> option datetime;
  datetime_of_number : Q -> datetime
}.

(* ----------------------------------------------------------------- *)
(** *** Strings *)

Fixpoint str_drop (n : nat) (s : string) : string :=
  match n, s with
  | O, _ => s
  | S n', String _ s' => str_drop n' s'
  | S _, EmptyString => EmptyString
  end.

(** [pat in s] for two strings. *)
Fixpoint str_contains (pat s : string) : bool :=
  if String.prefix pat s then true
  else match s with
       | EmptyString => false
       | String _ s' => str_contains pat s'
       end.

(** [s.replace(old, new)] for a non-empty [old]; [fuel] bounds the scan,
    [String.length s] is always enough. *)
Fixpoint replace_fuel (fuel : nat) (old new s : string) : string :=
  match fuel with
  | O => s
  | S fuel' =>
      match s with
      | EmptyString => EmptyString
      | String c s' =>
          if String.prefix old s
          then new ++ replace_fuel fuel' old new (str_drop (String.length old) s)
          else String c (replace_fuel fuel' old new s')
      end
  end.

Definition replace (old new s : string) : string :=
  replace_fuel (String.length s) old new s.

(** [s[:n]]. *)
Definition str_take (n : nat) (s : string) : string := String.substring 0 n s.

(* ----------------------------------------------------------------- *)
(** *** Dictionaries and dynamic typing *)

Fixpoint dict_get (k : string) (kv : list (string * json)) : option json :=
  match kv with
  | [] => None
  | (k', v) :: rest => if String.eqb k k' then Some v else dict_get k rest
  end.

Definition dict_in (k : string) (kv : list (string * json)) : bool :=
  match dict_get k kv with Some _ => true | None => false end.

(** [d.get(k, default)]. *)
Definition dict_get_default (k : string) (default : json)
  (kv : list (string * json)) : json :=
  match dict_get k kv with Some v => v | None => default end.

Definition is_jstr (s : string) (j : json) : bool :=
  match j with JStr s' => String.eqb s s' | _ => false end.

(** [field in data]: key membership for a dict, element membership for a
    list, substring test for a string, [TypeError] otherwise. *)
Definition py_in (field : string) (data : json) : result bool :=
  match data with
  | JObj kv => Ok (dict_in field kv)
  | JArr l => Ok (existsb (is_jstr field) l)
  | JStr s => Ok (str_contains field s)
  | _ => Raise TypeError
  end.

(** [all(field in data for field in fields)], left to right, stopping at
    the first [False]. *)
Fixpoint all_in (fields : list string) (data : json) : result bool :=
  match fields with
  | [] => Ok true
  | f :: fs =>
      (b <- py_in f data ;;
       if b then all_in fs data else Ok false)%py
  end.

(** [data[key]] with a string key. *)
Definition subscript (data : json) (key : string) : result json :=
  match data with
  | JObj kv => match dict_get key kv with Some v => Ok v | None => Raise KeyError end
  | _ => Raise TypeError
  end.

(** [data.get(key, default)]; only a dict has the method. *)
Definition get_method (data : json) (key : string) (default : json) : result json :=
  match data with
  | JObj kv => Ok (dict_get_default key default kv)
  | _ => Raise AttributeError
  end.

(** Truth value of a decoded JSON value. *)
Definition truthy (j : json) : bool :=
  match j with
  | JNull => false
  | JBool b => b
  | JNum q => negb (Qeq_bool q 0)
  | JStr s => negb (String.eqb s "")
  | JArr l => match l with [] => false | _ => true end
  | JObj kv => match kv with [] => false | _ => true end
  end.

(** The number a value stands for in arithmetic ([bool] is an [int]);
    anything else raises [TypeError]. *)
Definition as_number (j : json) : result Q :=
  match j with
  | JNum q => Ok q
  | JBool true => Ok 1%Q
  | JBool false => Ok 0%Q
  | _ => Raise TypeError
  end.

(** A value used through a [str] method or slice. *)
Definition as_str (j : json) : result string :=
  match j with
  | JStr s => Ok s
  | _ => Raise AttributeError
  end.

(* ================================================================= *)
(** ** data_ingestion_service.py *)

Module Ingestion.

(** [SYSTEM_CONFIG]. *)
Definition buffer_size : Z := 1000.
Definition batch_insert_size : nat := 50.
Definition processing_interval : Z := 5.
Definition heartbeat_interval : Z := 30.
Definition max_retries : Z := 3.

(** The dataclass is not type checked at run time: the fields hold
    whatever the payload held. *)
Record SensorReading : Type := {
  device_id : json;
  timestamp : datetime;
  location : json;
  equipment_type : json;
  sensors : json;
  fault_detected : json;
  source : string
}.

Record DatabaseStats : Type := {
  total_records : Z;
  records_today : Z;
  last_insert : option datetime;
  failed_inserts : Z;
  active_devices : Z
}.

(** [queue.Queue(maxsize)]: unbounded when [maxsize <= 0]. *)
Record Queue : Type := {
  maxsize : Z;
  items : list SensorReading
}.

Definition qsize (q : Queue) : Z := Z.of_nat (List.length (items q)).
Definition full (q : Queue) : bool := (0 <? maxsize q)%Z && (maxsize q <=? qsize q)%Z.
Definition empty (q : Queue) : bool := match items q with [] => true | _ => false end.

(** [put] on a queue that is not full (on a full one it would block; the
    only caller tests [full] first). *)
Definition put (x : SensorReading) (q : Queue) : Queue :=
  {| maxsize := maxsize q; items := items q ++ [x] |}.

(** [get]: the oldest item, [None] when the queue is empty. *)
Definition get (q : Queue) : option (SensorReading * Queue) :=
  match items q with
  | [] => None
  | x :: rest => Some (x, {| maxsize := maxsize q; items := rest |})
  end.

(* ----------------------------------------------------------------- *)
(** *** The store behind [db_connection] *)

(** A row handed to [SP_INSERT_MEDICAO]. *)
Record Medicao : Type := {
  p_id_sensor : string;
  p_id_maquina : string;
  p_temperatura : option json;
  p_pressao : option json;
  p_vibracao : option Q;
  p_humidade : option json;
  p_vibr_x : option json;
  p_vibr_y : option json;
  p_vibr_z : option json;
  p_gyro_x : option json;
  p_gyro_y : option json;
  p_gyro_z : option json;
  p_flag_falha : string;
  p_fonte : string
}.

Record Tables : Type := {
  t_equipamento : list (string * string * string);
  t_sensor : list (string * string * string);
  t_medicao : list Medicao
}.

(** The connection: what is committed, what the open transaction sees,
    how many times the persistence call was attempted, and which of the
    coming round trips to the store fail ([true] fails; past the end of
    the list every round trip succeeds). *)
Record Connection : Type := {
  committed : Tables;
  working : Tables;
  sp_calls : nat;
  faults : list bool
}.

Record Service : Type := {
  db_connection : Connection;
  data_queue : Queue;
  stats : DatabaseStats;
  is_running : bool;
  log : list (level * string)
}.

(** Store operations run in a state-and-exception monad: the state
    survives a raise, as the connection does in Python. *)
Definition db (A : Type) : Type := Connection -> result A * Connection.

Definition db_ret {A : Type} (a : A) : db A := fun c => (Ok a, c).
Definition db_raise {A : Type} (e : exn) : db A := fun c => (Raise e, c).
Definition db_bind {A B : Type} (m : db A) (k : A -> db B) : db B :=
  fun c => match m c with
           | (Ok a, c') => k a c'
           | (Raise e, c') => (Raise e, c')
           end.
Definition db_lift {A : Type} (r : result A) : db A := fun c => (r, c).

Declare Scope db_scope.
Delimit Scope db_scope with db.
Notation "x <~ c ;; k" := (db_bind c (fun x => k))
  (at level 61, c at next level, right associativity) : db_scope.
Notation "c ;;; k" := (db_bind c (fun _ => k))
  (at level 61, right associativity) : db_scope.

(** One round trip to the store: fails when the schedule says so. *)
Definition round_trip : db unit :=
  fun c =>
    match faults c with
    | true :: fs =>
        (Raise DatabaseError,
         {| committed := committed c; working := working c;
            sp_calls := sp_calls c; faults := fs |})
    | false :: fs =>
        (Ok tt,
         {| committed := committed c; working := working c;
            sp_calls := sp_calls c; faults := fs |})
    | [] => (Ok tt, c)
    end.

Definition with_working (f : Tables -> Tables) : db unit :=
  fun c => (Ok tt, {| committed := committed c; working := f (working c);
                      sp_calls := sp_calls c; faults := faults c |}).

Definition read_working {A : Type} (f : Tables -> A) : db A :=
  fun c => (Ok (f (working c)), c).

Definition count_key (k : string) (rows : list (string * string * string)) : nat :=
  List.length (filter (fun r => String.eqb (fst (fst r)) k) rows).

(** [SELECT COUNT( * ) FROM T_EQUIPAMENTO WHERE id_maquina = :1]. *)
Definition select_count_equipamento (k : string) : db nat :=
  (round_trip ;;; read_working (fun t => count_key k (t_equipamento t)))%db.

Definition select_count_sensor (k : string) : db nat :=
  (round_trip ;;; read_working (fun t => count_key k (t_sensor t)))%db.

Definition insert_equipamento (row : string * string * string) : db unit :=
  (round_trip ;;;
   with_working (fun t => {| t_equipamento := t_equipamento t ++ [row];
                             t_sensor := t_sensor t;
                             t_medicao := t_medicao t |}))%db.

Definition insert_sensor (row : string * string * string) : db unit :=
  (round_trip ;;;
   with_working (fun t => {| t_equipamento := t_equipamento t;
                             t_sensor := t_sensor t ++ [row];
                             t_medicao := t_medicao t |}))%db.

(** [cursor.callproc('SP_INSERT_MEDICAO', ...)]: the persistence call.
    Every attempt is counted, whether it succeeds or not. *)
Definition callproc_sp_insert_medicao (m : Medicao) : db unit :=
  fun c =>
    let c1 := {| committed := committed c; working := working c;
                 sp_calls := S (sp_calls c); faults := faults c |} in
    (round_trip ;;;
     with_working (fun t => {| t_equipamento := t_equipamento t;
                               t_sensor := t_sensor t;
                               t_medicao := t_medicao t ++ [m] |}))%db c1.

Definition commit : db unit :=
  (round_trip ;;;
   fun c => (Ok tt, {| committed := working c; working := working c;
                       sp_calls := sp_calls c; faults := faults c |}))%db.

Definition rollback : db unit :=
  (round_trip ;;;
   fun c => (Ok tt, {| committed := committed c; working := committed c;
                       sp_calls := sp_calls c; faults := faults c |}))%db.

(* ----------------------------------------------------------------- *)
(** *** The service *)

Definition add_log (lv : level) (msg : string) (s : Service) : Service :=
  {| db_connection := db_connection s; data_queue := data_queue s;
     stats := stats s; is_running := is_running s;
     log := log s ++ [(lv, msg)] |}.

Definition set_data_queue (q : Queue) (s : Service) : Service :=
  {| db_connection := db_connection s; data_queue := q;
     stats := stats s; is_running := is_running s; log := log s |}.

Definition set_stats (st : DatabaseStats) (s : Service) : Service :=
  {| db_connection := db_connection s; data_queue := data_queue s;
     stats := st; is_running := is_running s; log := log s |}.

Definition set_db_connection (c : Connection) (s : Service) : Service :=
  {| db_connection := c; data_queue := data_queue s;
     stats := stats s; is_running := is_running s; log := log s |}.

(** Methods that can raise run in a state-and-exception monad over the
    service. *)
Definition M (A : Type) : Type := Service -> result A * Service.

Definition ret {A : Type} (a : A) : M A := fun s => (Ok a, s).
Definition mbind {A B : Type} (m : M A) (k : A -> M B) : M B :=
  fun s => match m s with
           | (Ok a, s') => k a s'
           | (Raise e, s') => (Raise e, s')
           end.
Definition lift {A : Type} (r : result A) : M A := fun s => (r, s).
Definition lift_db {A : Type} (m : db A) : M A :=
  fun s => let (r, c) := m (db_connection s) in (r, set_db_connection c s).
Definition logm (lv : level) (msg : string) : M unit :=
  fun s => (Ok tt, add_log lv msg s).

Declare Scope m_scope.
Delimit Scope m_scope with M.
Notation "x <~ c ;; k" := (mbind c (fun x => k))
  (at level 61, c at next level, right associativity) : m_scope.
Notation "c ;;; k" := (mbind c (fun _ => k))
  (at level 61, right associativity) : m_scope.

Section WithLib.
Context {L : PyLib}.

Definition required_fields : list string := ["device_id"; "timestamp"; "sensors"]%string.

(** Lines 243-246: an ISO string or epoch milliseconds. *)
Definition convert_timestamp (ts : json) : result datetime :=
  match ts with
  | JStr s =>
      match fromisoformat (replace "Z" "+00:00" s) with
      | Some t => Ok t
      | None => Raise ValueError
      end
  | _ =>
      (q <- as_number ts ;;
       match fromtimestamp (q / 1000) with
       | Some t => Ok t
       | None => Raise OverflowError
       end)%py
  end.

(** Lines 243-256: the reading built from a payload that passed the
    field test. *)
Definition build_reading (data : json) : result SensorReading :=
  (ts <- subscript data "timestamp" ;;
   t <- convert_timestamp ts ;;
   dev <- subscript data "device_id" ;;
   loc <- get_method data "location" (JStr "Unknown") ;;
   ty <- get_method data "equipment_type" (JStr "Unknown") ;;
   sens <- subscript data "sensors" ;;
   fault <- get_method data "fault_detected" (JBool false) ;;
   Ok {| device_id := dev; timestamp := t; location := loc;
         equipment_type := ty; sensors := sens; fault_detected := fault;
         source := "MQTT" |})%py.

(** [process_sensor_data].  The payload is given by what [json.loads]
    makes of it: a decoded value, or the exception it raised. *)
Definition process_sensor_data (payload : result json) (s : Service) : Service :=
  match payload with
  | Raise JSONDecodeError => add_log ERROR "Erro ao decodificar JSON" s
  | Raise _ => add_log ERROR "Erro ao processar dados de sensor" s
  | Ok data =>
      match all_in required_fields data with
      | Raise _ => add_log ERROR "Erro ao processar dados de sensor" s
      | Ok false => add_log WARNING "Dados incompletos recebidos" s
      | Ok true =>
          match build_reading data with
          | Raise _ => add_log ERROR "Erro ao processar dados de sensor" s
          | Ok sensor_reading =>
              if negb (full (data_queue s))
              then add_log DEBUG "Dados adicionados a fila"
                     (set_data_queue (put sensor_reading (data_queue s)) s)
              else add_log WARNING "Fila de dados cheia! Dados podem ser perdidos" s
          end
      end
  end.

(** [get_or_create_equipment]. *)
Definition get_or_create_equipment (reading : SensorReading) : M string :=
  (dev <~ lift (as_str (device_id reading)) ;;
   let equipment_id := (replace "_" "" (replace "ESP32_" "" dev) ++ "_EQ")%string in
   n <~ lift_db (select_count_equipamento equipment_id) ;;
   (if Nat.eqb n 0
    then (ty <~ lift (as_str (equipment_type reading)) ;;
          loc <~ lift (as_str (location reading)) ;;
          lift_db (insert_equipamento (equipment_id, str_take 16 ty, str_take 50 loc)) ;;;
          logm INFO "Novo equipamento criado")
    else ret tt) ;;;
   ret equipment_id)%M.

(** [get_or_create_sensor]. *)
Definition get_or_create_sensor (reading : SensorReading) : M string :=
  (dev <~ lift (as_str (device_id reading)) ;;
   let sensor_id := replace "ESP32_" "SENS_" dev in
   n <~ lift_db (select_count_sensor sensor_id) ;;
   (if Nat.eqb n 0
    then (lift_db (insert_sensor (sensor_id, "ESP32_Multi", "Mixed")%string) ;;;
          logm INFO "Novo sensor criado")
    else ret tt) ;;;
   ret sensor_id)%M.

(** [sensors.get(key, None)]: a JSON [null] is Python's [None]. *)
Definition denull (v : json) : option json :=
  match v with JNull => None | _ => Some v end.

Definition sensor_get (sens : json) (key : string) : result (option json) :=
  match sens with
  | JObj kv => Ok (match dict_get key kv with Some v => denull v | None => None end)
  | _ => Raise AttributeError
  end.

(** [sensors.get(key, sensors.get(alt, None))]. *)
Definition sensor_get2 (sens : json) (key alt : string) : result (option json) :=
  match sens with
  | JObj kv =>
      Ok (match dict_get key kv with
          | Some v => denull v
          | None => match dict_get alt kv with Some v => denull v | None => None end
          end)
  | _ => Raise AttributeError
  end.

(** The least number that does not round to a float: halfway between
    the largest float and [2 ** 1024]. *)
Definition float_limit : Q := inject_Z (2 ^ 1024 - 2 ^ 970).

(** [v ** 2] on a number: [OverflowError] when the square is too large
    for a float.  (The square of an [int] is exact, and the error then
    comes when the sum is converted for [** 0.5].) *)
Definition square (q : Q) : result Q :=
  if Qle_bool float_limit (q * q) then Raise OverflowError else Ok (q * q).

(** Lines 311-313.  The three squares are floats when the sum is
    formed; a sum of floats does not raise. *)
Definition vibration_total (x y z : option json) : result (option Q) :=
  match x, y, z with
  | Some vx, Some vy, Some vz =>
      (qx <- as_number vx ;;
       sx <- square qx ;;
       qy <- as_number vy ;;
       sy <- square qy ;;
       qz <- as_number vz ;;
       sz <- square qz ;;
       Ok (Some (sqrt (sx + sy + sz))))%py
  | _, _, _ => Ok None
  end.

Definition record_insert (now : datetime) (st : DatabaseStats) : DatabaseStats :=
  {| total_records := total_records st + 1; records_today := records_today st;
     last_insert := Some now; failed_inserts := failed_inserts st;
     active_devices := active_devices st |}.

Definition record_failure (st : DatabaseStats) : DatabaseStats :=
  {| total_records := total_records st; records_today := records_today st;
     last_insert := last_insert st; failed_inserts := failed_inserts st + 1;
     active_devices := active_devices st |}.

(** Lines 294-313: the row for the persistence call. *)
Definition prepare_medicao (reading : SensorReading) : M Medicao :=
  (equipment_id <~ get_or_create_equipment reading ;;
   sensor_id <~ get_or_create_sensor reading ;;
   let sens := sensors reading in
   temperature <~ lift (sensor_get sens "temperature") ;;
   _temperature_dht <~ lift (sensor_get sens "temperature_dht") ;;
   humidity <~ lift (sensor_get sens "humidity") ;;
   pressure <~ lift (sensor_get sens "pressure") ;;
   vibr_x <~ lift (sensor_get2 sens "vibration_x" "vibr_x") ;;
   vibr_y <~ lift (sensor_get2 sens "vibration_y" "vibr_y") ;;
   vibr_z <~ lift (sensor_get2 sens "vibration_z" "vibr_z") ;;
   gyro_x <~ lift (sensor_get sens "gyro_x") ;;
   gyro_y <~ lift (sensor_get sens "gyro_y") ;;
   gyro_z <~ lift (sensor_get sens "gyro_z") ;;
   total <~ lift (vibration_total vibr_x vibr_y vibr_z) ;;
   ret {| p_id_sensor := sensor_id; p_id_maquina := equipment_id;
          p_temperatura := temperature; p_pressao := pressure;
          p_vibracao := total; p_humidade := humidity;
          p_vibr_x := vibr_x; p_vibr_y := vibr_y; p_vibr_z := vibr_z;
          p_gyro_x := gyro_x; p_gyro_y := gyro_y; p_gyro_z := gyro_z;
          p_flag_falha := if truthy (fault_detected reading) then "S" else "N";
          p_fonte := source reading |})%M.

Definition note_insert (now : datetime) : M unit :=
  fun s => (Ok tt, set_stats (record_insert now (stats s)) s).

Definition note_failure : M unit :=
  fun s => (Ok tt, set_stats (record_failure (stats s)) s).

(** The [try] block of [insert_sensor_data] (lines 291-338): one
    persistence call, one commit. *)
Definition insert_body (now : datetime) (reading : SensorReading) : M bool :=
  (row <~ prepare_medicao reading ;;
   lift_db (callproc_sp_insert_medicao row) ;;;
   lift_db commit ;;;
   note_insert now ;;;
   logm DEBUG "Dados inseridos com sucesso" ;;;
   ret true)%M.

(** [insert_sensor_data]: the [try] block and its [except] handler.  The
    handler's own [rollback] is a round trip and can raise; that
    exception leaves the method. *)
Definition insert_sensor_data (now : datetime) (reading : SensorReading) : M bool :=
  fun s =>
    match insert_body now reading s with
    | (Ok b, s1) => (Ok b, s1)
    | (Raise _, s1) =>
        (logm ERROR "Erro ao inserir dados no banco" ;;;
         lift_db rollback ;;;
         note_failure ;;;
         ret false)%M s1
    end.

(** Lines 407-412: take readings off the queue while the batch is short
    and the queue is not empty. *)
Fixpoint collect_batch (room : nat) (batch : list SensorReading) (q : Queue)
  : list SensorReading * Queue :=
  match room with
  | O => (batch, q)
  | S room' =>
      match get q with
      | None => (batch, q)
      | Some (reading, q') => collect_batch room' (batch ++ [reading]) q'
      end
  end.

(** Lines 416-419. *)
Fixpoint insert_batch (now : datetime) (batch : list SensorReading)
  (successful_inserts : nat) : M nat :=
  match batch with
  | [] => ret successful_inserts
  | reading :: rest =>
      (ok <~ insert_sensor_data now reading ;;
       insert_batch now rest (if ok then S successful_inserts else successful_inserts))%M
  end.

(** One turn of the [while] loop of [data_processing_loop]. *)
Definition processing_iteration (now : datetime) (s : Service) : Service :=
  let (batch, q) := collect_batch batch_insert_size [] (data_queue s) in
  let s1 := set_data_queue q s in
  match batch with
  | [] => s1
  | _ :: _ =>
      match insert_batch now batch 0 s1 with
      | (Ok _, s2) => add_log INFO "Lote processado" s2
      | (Raise _, s2) => add_log ERROR "Erro no loop de processamento" s2
      end
  end.

(** [__init__]. *)
Definition init (c : Connection) : Service :=
  {| db_connection := c;
     data_queue := {| maxsize := buffer_size; items := [] |};
     stats := {| total_records := 0; records_today := 0; last_insert := None;
                 failed_inserts := 0; active_devices := 0 |};
     is_running := false;
     log := [(INFO, "Data Ingestion Service inicializado")%string] |}.

(** [process_heartbeat]; the payload is given as for
    [process_sensor_data]. *)
Definition process_heartbeat (payload : result json) (s : Service) : Service :=
  match payload with
  | Raise _ => add_log ERROR "Erro ao processar heartbeat" s
  | Ok data =>
      match get_method data "device_id" (JStr "Unknown") with
      | Ok _ => add_log DEBUG "Heartbeat recebido" s
      | Raise _ => add_log ERROR "Erro ao processar heartbeat" s
      end
  end.

(** [process_status_message]. *)
Definition process_status_message (payload : result json) (s : Service) : Service :=
  match payload with
  | Raise _ => add_log ERROR "Erro ao processar status" s
  | Ok _ => add_log INFO "Status recebido" s
  end.

(** [on_mqtt_message].  The payload bytes are given by what
    [decode('utf-8')] and then [json.loads] make of them: [None] when
    they are not UTF-8. *)
Definition on_mqtt_message (topic : string) (payload : option (result json))
  (s : Service) : Service :=
  match payload with
  | None => add_log ERROR "Erro ao processar mensagem MQTT" s
  | Some text =>
      let s := add_log DEBUG "Mensagem recebida" s in
      if str_contains "sensors/data" topic then process_sensor_data text s
      else if str_contains "heartbeat" topic then process_heartbeat text s
      else if str_contains "status" topic then process_status_message text s
      else s
  end.

End WithLib.

(* ----------------------------------------------------------------- *)
(** *** Statistics *)

Section Statistics.

(** Two of the counts of [update_stats] depend on the time stamps the
    store gave the rows; they are taken as functions of the tables. *)
Variable records_today_query : Tables -> Z.
Variable active_devices_query : Tables -> Z.

(** [SELECT COUNT( * ) FROM T_MEDICAO]. *)
Definition select_count_medicao : db Z :=
  (round_trip ;;; read_working (fun t => Z.of_nat (List.length (t_medicao t))))%db.

Definition set_total_records (n : Z) : M unit :=
  fun s => (Ok tt,
            set_stats {| total_records := n; records_today := records_today (stats s);
                         last_insert := last_insert (stats s);
                         failed_inserts := failed_inserts (stats s);
                         active_devices := active_devices (stats s) |} s).

Definition set_records_today (n : Z) : M unit :=
  fun s => (Ok tt,
            set_stats {| total_records := total_records (stats s); records_today := n;
                         last_insert := last_insert (stats s);
                         failed_inserts := failed_inserts (stats s);
                         active_devices := active_devices (stats s) |} s).

Definition set_active_devices (n : Z) : M unit :=
  fun s => (Ok tt,
            set_stats {| total_records := total_records (stats s);
                         records_today := records_today (stats s);
                         last_insert := last_insert (stats s);
                         failed_inserts := failed_inserts (stats s);
                         active_devices := n |} s).

(** [update_stats] of a connected service: three queries, each counter
    assigned as soon as its query has answered. *)
Definition update_stats (s : Service) : Service :=
  match (total <~ lift_db select_count_medicao ;;
         set_total_records total ;;;
         today <~ lift_db (round_trip ;;; read_working records_today_query)%db ;;
         set_records_today today ;;;
         active <~ lift_db (round_trip ;;; read_working active_devices_query)%db ;;
         set_active_devices active)%M s with
  | (Ok _, s') => s'
  | (Raise _, s') => add_log ERROR "Erro ao atualizar estatisticas" s'
  end.

(** One turn of the [while] loop of [heartbeat_loop]. *)
Definition heartbeat_iteration (s : Service) : Service :=
  add_log INFO "Status" (update_stats s).

End Statistics.

End Ingestion.

(* ================================================================= *)
(** ** pandas: the part of it the pipeline uses *)

(** A column by dtype.  A missing cell (NaN, None, NaT) is [None].
    Floating-point cells are modelled by exact rationals. *)
Inductive column : Type :=
| ColNum (xs : list (option Q))
| ColObj (xs : list (option string))
| ColTime (xs : list (option datetime)).

(** A frame: the number of rows of its index and its named columns, in
    order. *)
Record DataFrame : Type := {
  nrows : nat;
  columns : list (string * column)
}.

Definition col_len (c : column) : nat :=
  match c with
  | ColNum xs => List.length xs
  | ColObj xs => List.length xs
  | ColTime xs => List.length xs
  end.

(** Every column has one cell per row. *)
Definition well_formed (df : DataFrame) : Prop :=
  Forall (fun nc => col_len (snd nc) = nrows df) (columns df).

(** [len(df)] and [df.empty]. *)
Definition len (df : DataFrame) : Z := Z.of_nat (nrows df).
Definition df_empty (df : DataFrame) : bool :=
  Nat.eqb (nrows df) 0 || match columns df with [] => true | _ => false end.

Fixpoint get_col (name : string) (cols : list (string * column)) : option column :=
  match cols with
  | [] => None
  | (n, c) :: rest => if String.eqb name n then Some c else get_col name rest
  end.

(** [name in df.columns]. *)
Definition has_col (name : string) (df : DataFrame) : bool :=
  match get_col name (columns df) with Some _ => true | None => false end.

(** [df[name] = c]: replaces the column where it stands, or adds it at
    the end. *)
Fixpoint assign (name : string) (c : column) (cols : list (string * column))
  : list (string * column) :=
  match cols with
  | [] => [(name, c)]
  | (n, c') :: rest =>
      if String.eqb name n then (n, c) :: rest else (n, c') :: assign name c rest
  end.

Definition set_col (name : string) (c : column) (df : DataFrame) : DataFrame :=
  {| nrows := nrows df; columns := assign name c (columns df) |}.

(** [df.drop(columns=names)]. *)
Definition drop_cols (names : list string) (df : DataFrame) : DataFrame :=
  {| nrows := nrows df;
     columns := filter (fun nc => negb (existsb (String.eqb (fst nc)) names))
                       (columns df) |}.

Definition is_none {A : Type} (o : option A) : bool :=
  match o with None => true | Some _ => false end.

Definition count_if {A : Type} (f : A -> bool) (xs : list A) : Z :=
  Z.of_nat (List.length (filter f xs)).

(** [s.isnull().sum()]. *)
Definition col_nulls (c : column) : Z :=
  match c with
  | ColNum xs => count_if is_none xs
  | ColObj xs => count_if is_none xs
  | ColTime xs => count_if is_none xs
  end.

(** [df.isnull().sum().sum()]: the null cells of the whole frame. *)
Definition isnull_sum_sum (df : DataFrame) : Z :=
  fold_right (fun nc acc => col_nulls (snd nc) + acc)%Z 0%Z (columns df).

Definition Qltb (a b : Q) : bool := negb (Qle_bool b a).

(** A comparison of a cell with a number: false on a missing cell. *)
Definition cell_test (f : Q -> bool) (o : option Q) : bool :=
  match o with Some v => f v | None => false end.

Definition opt_eqb {A : Type} (eqb : A -> A -> bool) (a b : option A) : bool :=
  match a, b with
  | Some x, Some y => eqb x y
  | None, None => true
  | _, _ => false
  end.

(** [s.duplicated().sum()]: the cells equal to an earlier cell. *)
Fixpoint duplicated_sum {A : Type} (eqb : A -> A -> bool) (seen xs : list A) : Z :=
  match xs with
  | [] => 0
  | x :: rest =>
      ((if existsb (eqb x) seen then 1 else 0)
       + duplicated_sum eqb (x :: seen) rest)%Z
  end.

Definition col_duplicated_sum (c : column) : Z :=
  match c with
  | ColNum xs => duplicated_sum (opt_eqb Qeq_bool) [] xs
  | ColObj xs => duplicated_sum (opt_eqb String.eqb) [] xs
  | ColTime xs => duplicated_sum (opt_eqb Z.eqb) [] xs
  end.

Definition dropna {A : Type} (xs : list (option A)) : list A :=
  flat_map (fun o => match o with Some x => [x] | None => [] end) xs.

(** [s.fillna(v)]; filling with NaN changes nothing. *)
Definition fillna {A : Type} (v : option A) (xs : list (option A)) : list (option A) :=
  map (fun o => match o with Some x => Some x | None => v end) xs.

(** A stable sort by insertion. *)
Fixpoint insert_by {A : Type} (leb : A -> A -> bool) (x : A) (l : list A) : list A :=
  match l with
  | [] => [x]
  | y :: rest => if leb x y then x :: l else y :: insert_by leb x rest
  end.

Fixpoint isort {A : Type} (leb : A -> A -> bool) (l : list A) : list A :=
  match l with
  | [] => []
  | x :: rest => insert_by leb x (isort leb rest)
  end.

(** The cells present, in ascending order. *)
Definition order_statistics (xs : list (option Q)) : list Q :=
  isort Qle_bool (dropna xs).

(** Linear interpolation between the two cells around position [pos];
    past the last cell the weight is zero. *)
Definition interpolate (v : list Q) (d : Q) (pos : Q) : Q :=
  let lo := Qfloor pos in
  let frac := pos - inject_Z lo in
  let a := nth (Z.to_nat lo) v d in
  let b := nth (Z.to_nat (lo + 1)) v a in
  a + (b - a) * frac.

(** [s.quantile(q)] with linear interpolation over the cells present;
    NaN when there is none. *)
Definition quantile (q : Q) (xs : list (option Q)) : option Q :=
  let v := order_statistics xs in
  match v with
  | [] => None
  | d :: _ => Some (interpolate v d (q * inject_Z (Z.of_nat (List.length v) - 1)))
  end.

(** [s.median()]: the middle cell, or the mean of the two middle cells. *)
Definition median (xs : list (option Q)) : option Q :=
  let v := order_statistics xs in
  let n := List.length v in
  match v with
  | [] => None
  | d :: _ =>
      if Nat.even n
      then Some ((nth (n / 2 - 1) v d + nth (n / 2) v d) / 2)
      else Some (nth (n / 2) v d)
  end.

(** [np.clip(v, lower, upper)] on one cell. *)
Definition clip (lower upper v : Q) : Q := Qmin (Qmax v lower) upper.

Section Conversions.
Context {L : PyLib}.

Fixpoint parse_cells (xs : list (option string)) : result (list (option datetime)) :=
  match xs with
  | [] => Ok []
  | None :: rest => (r <- parse_cells rest ;; Ok (None :: r))%py
  | Some s :: rest =>
      match parse_datetime s with
      | None => Raise ValueError
      | Some t => (r <- parse_cells rest ;; Ok (Some t :: r))%py
      end
  end.

(** [pd.to_datetime(s)]. *)
Definition to_datetime (c : column) : result column :=
  match c with
  | ColTime xs => Ok (ColTime xs)
  | ColNum xs => Ok (ColTime (map (option_map datetime_of_number) xs))
  | ColObj xs => (r <- parse_cells xs ;; Ok (ColTime r))%py
  end.

End Conversions.

(** The order of [sort_values]: ascending, missing keys last. *)
Definition key_leb (a b : option datetime * nat) : bool :=
  match fst a, fst b with
  | _, None => true
  | None, Some _ => false
  | Some x, Some y => (x <=? y)%Z
  end.

(** The row order that sorts the keys and leaves rows with equal keys
    in the order they had: the stable one among the sorting routines. *)
Definition argsort (keys : list (option datetime)) : list nat :=
  map snd (isort key_leb (combine keys (seq 0 (List.length keys)))).

Definition take_cells {A : Type} (perm : list nat) (xs : list (option A))
  : list (option A) :=
  map (fun i => nth i xs None) perm.

Definition take_rows (perm : list nat) (c : column) : column :=
  match c with
  | ColNum xs => ColNum (take_cells perm xs)
  | ColObj xs => ColObj (take_cells perm xs)
  | ColTime xs => ColTime (take_cells perm xs)
  end.

(** [df.sort_values(name)] on a datetime column, the only kind the
    pipeline sorts by, for the routine that leaves rows with equal keys
    in the order they had; [sort_values_by] below is the call for any
    sorting routine. *)
Definition sort_values (name : string) (df : DataFrame) : result DataFrame :=
  match get_col name (columns df) with
  | Some (ColTime keys) =>
      let perm := argsort keys in
      Ok {| nrows := List.length perm;
            columns := map (fun nc => (fst nc, take_rows perm (snd nc))) (columns df) |}
  | Some _ => Raise TypeError
  | None => Raise KeyError
  end.

(** [df.sort_values(name)] as the code calls it, with the default
    [kind='quicksort']: the routine sorts the keys and promises nothing
    on the order of rows whose keys are equal.  [order] is the sorting
    routine, from the keys to the positions of the rows in their new
    order; [argsort] is the one that leaves equal keys as they were. *)
Definition sort_values_by (order : list (option datetime) -> list nat)
  (name : string) (df : DataFrame) : result DataFrame :=
  match get_col name (columns df) with
  | Some (ColTime keys) =>
      let perm := order keys in
      Ok {| nrows := List.length perm;
            columns := map (fun nc => (fst nc, take_rows perm (snd nc))) (columns df) |}
  | Some _ => Raise TypeError
  | None => Raise KeyError
  end.

(** One cell of a row, with the dtype of its column. *)
Inductive cell : Type :=
| CellNum (v : option Q)
| CellObj (v : option string)
| CellTime (v : option datetime).

(** The cells of a column, top to bottom. *)
Definition cells (c : column) : list cell :=
  match c with
  | ColNum xs => map CellNum xs
  | ColObj xs => map CellObj xs
  | ColTime xs => map CellTime xs
  end.

(** [a == b] on two cells: a missing value equals nothing. *)
Definition cell_eqb (a b : cell) : bool :=
  match a, b with
  | CellNum (Some x), CellNum (Some y) => Qeq_bool x y
  | CellObj (Some x), CellObj (Some y) => String.eqb x y
  | CellTime (Some x), CellTime (Some y) => Z.eqb x y
  | _, _ => false
  end.

Definition cell_missing (a : cell) : bool :=
  match a with
  | CellNum None | CellObj None | CellTime None => true
  | _ => false
  end.

(** The same value for [unique] and [duplicated]: there a missing value
    is the same as another missing value. *)
Definition cell_same (a b : cell) : bool :=
  cell_eqb a b || (cell_missing a && cell_missing b).

(** [s.unique()]: the values in the order they first appear, the missing
    value once. *)
Fixpoint unique_from (seen xs : list cell) : list cell :=
  match xs with
  | [] => []
  | x :: rest =>
      if existsb (cell_same x) seen
      then unique_from seen rest
      else x :: unique_from (x :: seen) rest
  end.

Definition unique (c : column) : list cell := unique_from [] (cells c).

(** The labels of [df[df[name] == v].tail(1)]: the last row whose cell
    equals [v], if there is one. *)
Fixpoint last_match (v : cell) (xs : list cell) (i : nat) : option nat :=
  match xs with
  | [] => None
  | x :: rest =>
      match last_match v rest (S i) with
      | Some j => Some j
      | None => if cell_eqb x v then Some i else None
      end
  end.

(** [row.get(name, 0)] and [row[name]] on row [i] of a frame. *)
Definition row_get (df : DataFrame) (i : nat) (name : string) : cell :=
  match get_col name (columns df) with
  | Some c => nth i (cells c) (CellNum None)
  | None => CellNum (Some 0)
  end.

Definition row_subscript (df : DataFrame) (i : nat) (name : string) : result cell :=
  match get_col name (columns df) with
  | Some c => Ok (nth i (cells c) (CellNum None))
  | None => Raise KeyError
  end.

(** A cell in arithmetic with a number: NaN for a missing number,
    [TypeError] for a cell that is not a number. *)
Definition cell_number (a : cell) : result (option Q) :=
  match a with
  | CellNum v => Ok v
  | _ => Raise TypeError
  end.

(** [l[-n:]]. *)
Definition last_items {A : Type} (n : nat) (l : list A) : list A :=
  skipn (List.length l - n) l.

(* ================================================================= *)
(** ** etl_pipeline.py *)

Module Etl.

(** [PIPELINE_CONFIG]. *)
Definition batch_size : Z := 1000.
Definition processing_interval : Z := 60.
Definition ml_retrain_interval : Z := 24.
Definition data_retention_days : Z := 90.
Definition max_workers : Z := 4.
Definition retry_attempts : Z := 3.
Definition retry_delay : Z := 5.

Record PipelineMetrics : Type := {
  records_processed : Z;
  records_failed : Z;
  ml_predictions : Z;
  alerts_generated : Z;
  last_run_time : option datetime;
  average_processing_time : Q;
  pipeline_status : string;
  errors_count : Z
}.

Record DataQualityCheck : Type := {
  check_name : string;
  passed : bool;
  message : string;
  timestamp : datetime;
  affected_records : Z
}.

(** What a run leaves behind besides the state: log lines, the stages
    entered, the threads started. *)
Inductive stage : Type :=
| Transform | Aggregate | Predict | Load | Export.

Inductive target : Type := processing_loop_target | monitoring_loop_target.

Inductive event : Type :=
| Log (lv : level) (msg : string)
| Enter (st : stage)
| ThreadStart (t : target).

Record Pipeline : Type := {
  data_ingestion : Ingestion.Service;
  is_running : bool;
  metrics : PipelineMetrics;
  data_quality_checks : list DataQualityCheck;
  start_time : option datetime;
  (** The threads started so far, and the two attributes that point at
      the latest of each kind. *)
  threads : list target;
  processing_thread : option nat;
  monitoring_thread : option nat;
  trace : list event
}.

Definition set_metrics (m : PipelineMetrics) (p : Pipeline) : Pipeline :=
  {| data_ingestion := data_ingestion p; is_running := is_running p;
     metrics := m; data_quality_checks := data_quality_checks p;
     start_time := start_time p; threads := threads p;
     processing_thread := processing_thread p;
     monitoring_thread := monitoring_thread p; trace := trace p |}.

Definition emit (e : event) (p : Pipeline) : Pipeline :=
  {| data_ingestion := data_ingestion p; is_running := is_running p;
     metrics := metrics p; data_quality_checks := data_quality_checks p;
     start_time := start_time p; threads := threads p;
     processing_thread := processing_thread p;
     monitoring_thread := monitoring_thread p; trace := trace p ++ [e] |}.

Definition extend_checks (cs : list DataQualityCheck) (p : Pipeline) : Pipeline :=
  {| data_ingestion := data_ingestion p; is_running := is_running p;
     metrics := metrics p; data_quality_checks := data_quality_checks p ++ cs;
     start_time := start_time p; threads := threads p;
     processing_thread := processing_thread p;
     monitoring_thread := monitoring_thread p; trace := trace p |}.

(* ----------------------------------------------------------------- *)
(** *** Quality checks *)

Section Checks.
Context {L : PyLib}.

(** Check 1 (lines 253-260). *)
Definition check_null_values (ts : datetime) (df : DataFrame) : DataQualityCheck :=
  let null_count := isnull_sum_sum df in
  {| check_name := "NULL_VALUES";
     passed := Qltb (inject_Z null_count) (inject_Z (len df) * (1 # 10));
     message := "Encontrados valores nulos";
     timestamp := ts;
     affected_records := null_count |}.

(** [df[(df[c] < -50) | (df[c] > 200)].shape[0]]; comparing a column
    that is not numeric with a number raises. *)
Definition temp_outliers (c : column) : result Z :=
  match c with
  | ColNum xs =>
      Ok (count_if (cell_test (fun v => Qltb v (-50) || Qltb 200 v)) xs)
  | _ => Raise TypeError
  end.

(** Check 2 (lines 263-274). *)
Definition check_temperature_range (ts : datetime) (df : DataFrame)
  : result (list DataQualityCheck) :=
  match get_col "VL_TEMPERATURA" (columns df) with
  | None => Ok []
  | Some c =>
      (n <- temp_outliers c ;;
       Ok [{| check_name := "TEMPERATURE_RANGE";
              passed := (n =? 0)%Z;
              message := "Temperatura fora do range";
              timestamp := ts;
              affected_records := n |}])%py
  end.

(** Check 3 (lines 277-285). *)
Definition check_duplicates (ts : datetime) (df : DataFrame) : list DataQualityCheck :=
  match get_col "ID_MEDICAO" (columns df) with
  | None => []
  | Some c =>
      let duplicates := col_duplicated_sum c in
      [{| check_name := "DUPLICATES";
          passed := (duplicates =? 0)%Z;
          message := "Registros duplicados";
          timestamp := ts;
          affected_records := duplicates |}]
  end.

Definition future_records (now : datetime) (c : column) : Z :=
  match c with
  | ColTime xs =>
      count_if (fun o => match o with Some t => (now <? t)%Z | None => false end) xs
  | _ => 0
  end.

(** Check 4 (lines 288-298): the column of the caller's frame is
    replaced before the future timestamps are counted. *)
Definition check_future_timestamps (ts now : datetime) (df : DataFrame)
  : result (list DataQualityCheck * DataFrame) :=
  match get_col "DATAHORA_MEDICAO" (columns df) with
  | None => Ok ([], df)
  | Some c =>
      (c' <- to_datetime c ;;
       let df' := set_col "DATAHORA_MEDICAO" c' df in
       let n := future_records now c' in
       Ok ([{| check_name := "FUTURE_TIMESTAMPS";
               passed := (n =? 0)%Z;
               message := "Timestamps futuros";
               timestamp := ts;
               affected_records := n |}], df'))%py
  end.

Definition quality_check_error (ts : datetime) : DataQualityCheck :=
  {| check_name := "QUALITY_CHECK_ERROR";
     passed := false;
     message := "Erro ao executar checks";
     timestamp := ts;
     affected_records := 0 |}.

(** [perform_data_quality_checks]: the checks, and the caller's frame as
    the call leaves it.  [ts] and [now] are the two readings of the
    clock. *)
Definition perform_data_quality_checks (ts now : datetime) (df : DataFrame)
  : list DataQualityCheck * DataFrame :=
  let checks1 := [check_null_values ts df] in
  match check_temperature_range ts df with
  | Raise _ => (checks1 ++ [quality_check_error ts], df)
  | Ok c2 =>
      let checks3 := checks1 ++ c2 ++ check_duplicates ts df in
      match check_future_timestamps ts now df with
      | Raise _ => (checks3 ++ [quality_check_error ts], df)
      | Ok (c4, df') => (checks3 ++ c4, df')
      end
  end.

(* ----------------------------------------------------------------- *)
(** *** Transform *)

Definition median_columns : list string :=
  ["VL_TEMPERATURA"; "VL_PRESSAO"; "VL_HUMIDADE"]%string.

Definition clipped_columns : list string :=
  ["VL_TEMPERATURA"; "VL_PRESSAO"; "VL_VIBRACAO"]%string.

(** Step 1 on one column (lines 333-339). *)
Definition fill_column (nc : string * column) : string * column :=
  match snd nc with
  | ColNum xs =>
      if (0 <? count_if is_none xs)%Z
      then if existsb (String.eqb (fst nc)) median_columns
           then (fst nc, ColNum (fillna (median xs) xs))
           else (fst nc, ColNum (fillna (Some 0) xs))
      else nc
  | _ => nc
  end.

Definition fill_nulls (df : DataFrame) : DataFrame :=
  {| nrows := nrows df; columns := map fill_column (columns df) |}.

(** The two bounds of lines 344-350. *)
Definition outlier_bounds (xs : list (option Q)) : option (Q * Q) :=
  match quantile (1 # 4) xs, quantile (3 # 4) xs with
  | Some Q1, Some Q3 =>
      let IQR := Q3 - Q1 in
      Some (Q1 - 3 * IQR, Q3 + 3 * IQR)
  | _, _ => None
  end.

(** Step 2 on one column (lines 344-358). *)
Definition clip_outliers (xs : list (option Q)) : list (option Q) :=
  match outlier_bounds xs with
  | Some (lower_bound, upper_bound) =>
      let outliers_count :=
        count_if (cell_test (fun v => Qltb v lower_bound || Qltb upper_bound v)) xs in
      if (0 <? outliers_count)%Z
      then map (option_map (clip lower_bound upper_bound)) xs
      else xs
  | None => xs
  end.

(** Step 2 (lines 342-358); the quantile of a column that is not
    numeric raises. *)
Fixpoint clip_columns (names : list string) (df : DataFrame) : result DataFrame :=
  match names with
  | [] => Ok df
  | col :: rest =>
      match get_col col (columns df) with
      | None => clip_columns rest df
      | Some (ColNum xs) => clip_columns rest (set_col col (ColNum (clip_outliers xs)) df)
      | Some _ => Raise TypeError
      end
  end.

(** Step 3 (lines 361-362). *)
Definition standardize_timestamps (df : DataFrame) : result DataFrame :=
  match get_col "DATAHORA_MEDICAO" (columns df) with
  | None => Ok df
  | Some c => (c' <- to_datetime c ;; Ok (set_col "DATAHORA_MEDICAO" c' df))%py
  end.

Definition magnitude (x y z : option Q) : option Q :=
  match x, y, z with
  | Some a, Some b, Some c => Some (sqrt (a * a + b * b + c * c))
  | _, _, _ => None
  end.

Fixpoint magnitudes (xs ys zs : list (option Q)) : list (option Q) :=
  match xs, ys, zs with
  | x :: xs', y :: ys', z :: zs' => magnitude x y z :: magnitudes xs' ys' zs'
  | _, _, _ => []
  end.

(** Step 4, first part (lines 366-371). *)
Definition add_vibration_magnitude (df : DataFrame) : result DataFrame :=
  match get_col "VL_VIBR_X" (columns df), get_col "VL_VIBR_Y" (columns df),
        get_col "VL_VIBR_Z" (columns df) with
  | Some cx, Some cy, Some cz =>
      match cx, cy, cz with
      | ColNum xs, ColNum ys, ColNum zs =>
          Ok (set_col "VIBRACAO_MAGNITUDE" (ColNum (magnitudes xs ys zs)) df)
      | _, _, _ => Raise TypeError
      end
  | _, _, _ => Ok df
  end.

(** [pd.cut] with bins (-inf, 85], (85, 95], (95, inf). *)
Definition temp_status (o : option Q) : option string :=
  match o with
  | None => None
  | Some v =>
      if Qle_bool v 85 then Some "NORMAL"%string
      else if Qle_bool v 95 then Some "WARNING"%string
      else Some "CRITICAL"%string
  end.

(** Step 4, second part (lines 374-379). *)
Definition add_temp_status (df : DataFrame) : result DataFrame :=
  match get_col "VL_TEMPERATURA" (columns df) with
  | None => Ok df
  | Some (ColNum xs) => Ok (set_col "TEMP_STATUS" (ColObj (map temp_status xs)) df)
  | Some _ => Raise TypeError
  end.

(** Step 5 (lines 382-383). *)
Definition sort_by_timestamp (df : DataFrame) : result DataFrame :=
  if has_col "DATAHORA_MEDICAO" df then sort_values "DATAHORA_MEDICAO" df else Ok df.

(** The [try] block of [clean_and_transform_data] after the copy. *)
Definition transform_steps (df_clean : DataFrame) : result DataFrame :=
  (d2 <- clip_columns clipped_columns (fill_nulls df_clean) ;;
   d3 <- standardize_timestamps d2 ;;
   d4 <- add_vibration_magnitude d3 ;;
   d5 <- add_temp_status d4 ;;
   sort_by_timestamp d5)%py.

(** [clean_and_transform_data]: on an exception the frame it was given
    comes back. *)
Definition clean_and_transform_data (df : DataFrame) : DataFrame :=
  if df_empty df then df
  else match transform_steps df with
       | Ok df_clean => df_clean
       | Raise _ => df
       end.

(** The transform with the sorting routine of step 5 named: the same
    steps, the order of the rows of the output being the routine's. *)
Definition sort_by_timestamp_by (order : list (option datetime) -> list nat)
  (df : DataFrame) : result DataFrame :=
  if has_col "DATAHORA_MEDICAO" df then sort_values_by order "DATAHORA_MEDICAO" df
  else Ok df.

Definition transform_steps_by (order : list (option datetime) -> list nat)
  (df_clean : DataFrame) : result DataFrame :=
  (d2 <- clip_columns clipped_columns (fill_nulls df_clean) ;;
   d3 <- standardize_timestamps d2 ;;
   d4 <- add_vibration_magnitude d3 ;;
   d5 <- add_temp_status d4 ;;
   sort_by_timestamp_by order d5)%py.

Definition clean_and_transform_data_by (order : list (option datetime) -> list nat)
  (df : DataFrame) : DataFrame :=
  if df_empty df then df
  else match transform_steps_by order df with
       | Ok df_clean => df_clean
       | Raise _ => df
       end.

Definition derived_columns : list string := ["VIBRACAO_MAGNITUDE"; "TEMP_STATUS"]%string.

End Checks.

(* ----------------------------------------------------------------- *)
(** *** Orchestration *)

(** What one cycle takes from outside the pipeline object: the frame
    [extract_sensor_data] returned and the readings of the clock. *)
Record CycleInput : Type := {
  df_raw : DataFrame;
  t_checks : datetime;
  t_future : datetime;
  cycle_time : Q;
  t_end : datetime
}.

Section Cycle.
Context {L : PyLib}.

(** The stages after the transform are taken as given:
    [aggregate_data_for_reporting] by the views it returns and the frame
    it leaves (it adds an [hour] column), [run_ml_predictions] by the
    number of predictions it adds to the metrics.  Each catches its own
    exceptions. *)
Variable aggregate_data_for_reporting : DataFrame -> list (string * DataFrame) * DataFrame.
Variable prediction_count : DataFrame -> Z.

Definition is_critical (window : DataFrame) (c : DataQualityCheck) : bool :=
  negb (passed c) && Qltb (inject_Z (len window) * (2 # 10)) (inject_Z (affected_records c)).

Definition add_error (m : PipelineMetrics) : PipelineMetrics :=
  {| records_processed := records_processed m; records_failed := records_failed m;
     ml_predictions := ml_predictions m; alerts_generated := alerts_generated m;
     last_run_time := last_run_time m;
     average_processing_time := average_processing_time m;
     pipeline_status := pipeline_status m; errors_count := errors_count m + 1 |}.

Definition add_predictions (n : Z) (m : PipelineMetrics) : PipelineMetrics :=
  {| records_processed := records_processed m; records_failed := records_failed m;
     ml_predictions := ml_predictions m + n; alerts_generated := alerts_generated m;
     last_run_time := last_run_time m;
     average_processing_time := average_processing_time m;
     pipeline_status := pipeline_status m; errors_count := errors_count m |}.

(** Step 8 of the cycle (lines 623-630). *)
Definition update_metrics (n : Z) (ct : Q) (now : datetime) (m : PipelineMetrics)
  : PipelineMetrics :=
  {| records_processed := records_processed m + n; records_failed := records_failed m;
     ml_predictions := ml_predictions m; alerts_generated := alerts_generated m;
     last_run_time := Some now;
     average_processing_time :=
       if Qltb 0 (average_processing_time m)
       then (average_processing_time m + ct) / 2
       else ct;
     pipeline_status := pipeline_status m; errors_count := errors_count m |}.

Definition set_status (st : string) (m : PipelineMetrics) : PipelineMetrics :=
  {| records_processed := records_processed m; records_failed := records_failed m;
     ml_predictions := ml_predictions m; alerts_generated := alerts_generated m;
     last_run_time := last_run_time m;
     average_processing_time := average_processing_time m;
     pipeline_status := st; errors_count := errors_count m |}.

(** [run_etl_cycle].  No statement of its [try] block raises in this
    model (every stage catches its own exceptions), so the handler of
    lines 635-638 is not entered. *)
Definition run_etl_cycle (i : CycleInput) (p : Pipeline) : bool * Pipeline :=
  let p := emit (Log INFO "=== Iniciando ciclo ETL ===") p in
  if df_empty (df_raw i)
  then (true, emit (Log WARNING "Nenhum dado novo para processar") p)
  else
    let (quality_checks, window) :=
      perform_data_quality_checks (t_checks i) (t_future i) (df_raw i) in
    let p := extend_checks quality_checks p in
    let critical_failures := filter (is_critical window) quality_checks in
    match critical_failures with
    | _ :: _ =>
        (false,
         set_metrics (add_error (metrics p))
           (emit (Log ERROR "Falhas criticas na qualidade dos dados. Abortando ciclo.") p))
    | [] =>
        let df_clean := clean_and_transform_data window in
        let p := emit (Enter Transform) p in
        let (aggregations, df_clean) := aggregate_data_for_reporting df_clean in
        let p := emit (Enter Aggregate) p in
        let p := set_metrics (add_predictions (prediction_count df_clean) (metrics p))
                   (emit (Enter Predict) p) in
        let p := match aggregations with
                 | [] => p
                 | _ :: _ => emit (Enter Load) p
                 end in
        let p := emit (Enter Export) p in
        let p := set_metrics
                   (update_metrics (len window) (cycle_time i) (t_end i) (metrics p)) p in
        (true, emit (Log INFO "Ciclo ETL concluido") p)
    end.

(** [processing_loop] over the cycles that come while the flag is set. *)
Fixpoint processing_loop (inputs : list CycleInput) (p : Pipeline) : Pipeline :=
  match inputs with
  | [] => p
  | i :: rest =>
      if is_running p
      then let (success, p1) := run_etl_cycle i p in
           processing_loop rest
             (if success then p1
              else emit (Log WARNING "Ciclo ETL falhado, aguardando proximo ciclo") p1)
      else p
  end.

End Cycle.

(** [__init__]. *)
Definition init (ingestion : Ingestion.Service) : Pipeline :=
  {| data_ingestion := ingestion;
     is_running := false;
     metrics := {| records_processed := 0; records_failed := 0; ml_predictions := 0;
                   alerts_generated := 0; last_run_time := None;
                   average_processing_time := 0; pipeline_status := "STOPPED";
                   errors_count := 0 |};
     data_quality_checks := [];
     start_time := None;
     threads := [];
     processing_thread := None;
     monitoring_thread := None;
     trace := [Log INFO "ETL Pipeline inicializado"] |}.

(** [start]; [connected] is what [connect_database] returns. *)
Definition start (now : datetime) (connected : bool) (p : Pipeline) : bool * Pipeline :=
  let tr := trace p ++ [Log INFO "=== Iniciando Smart Maintenance ETL Pipeline ==="] in
  if negb connected
  then (false,
        {| data_ingestion := data_ingestion p; is_running := is_running p;
           metrics := metrics p; data_quality_checks := data_quality_checks p;
           start_time := Some now; threads := threads p;
           processing_thread := processing_thread p;
           monitoring_thread := monitoring_thread p;
           trace := tr ++ [Log ERROR "Falha na conexao com banco de dados"] |})
  else (true,
        {| data_ingestion := data_ingestion p; is_running := true;
           metrics := set_status "RUNNING" (metrics p);
           data_quality_checks := data_quality_checks p;
           start_time := Some now;
           threads := threads p ++ [processing_loop_target; monitoring_loop_target];
           processing_thread := Some (List.length (threads p));
           monitoring_thread := Some (S (List.length (threads p)));
           trace := tr ++ [ThreadStart processing_loop_target;
                           ThreadStart monitoring_loop_target;
                           Log INFO "ETL Pipeline iniciado com sucesso"] |}).

(** [stop], up to the joins. *)
Definition stop (p : Pipeline) : Pipeline :=
  {| data_ingestion := data_ingestion p; is_running := false;
     metrics := set_status "STOPPED" (metrics p);
     data_quality_checks := data_quality_checks p;
     start_time := start_time p; threads := threads p;
     processing_thread := processing_thread p;
     monitoring_thread := monitoring_thread p;
     trace := trace p ++ [Log INFO "Parando ETL Pipeline..."] |}.

(** The enqueue path seen from the pipeline object, which owns the
    ingestion service. *)
Definition ingest {L : PyLib} (payload : result json) (p : Pipeline) : Pipeline :=
  {| data_ingestion := Ingestion.process_sensor_data payload (data_ingestion p);
     is_running := is_running p; metrics := metrics p;
     data_quality_checks := data_quality_checks p;
     start_time := start_time p; threads := threads p;
     processing_thread := processing_thread p;
     monitoring_thread := monitoring_thread p; trace := trace p |}.

(* ----------------------------------------------------------------- *)
(** *** Extraction and retraining *)

(** [extract_sensor_data] and [extract_historical_data]: the frame
    [pd.read_sql] returned, or an empty frame when it raised, and the
    line that is logged. *)
Definition extract_sensor_data (read_sql : result DataFrame) : DataFrame * event :=
  match read_sql with
  | Ok df => (df, Log INFO "Extraidos registros")
  | Raise _ => ({| nrows := 0; columns := [] |}, Log ERROR "Erro na extracao de dados")
  end.

Definition extract_historical_data (read_sql : result DataFrame) : DataFrame * event :=
  match read_sql with
  | Ok df => (df, Log INFO "Extraidos registros historicos")
  | Raise _ => ({| nrows := 0; columns := [] |}, Log ERROR "Erro na extracao historica")
  end.

(** [run_ml_training_cycle]; [run_full_pipeline] is what the call of
    the ML pipeline returns or raises, when it is made. *)
Definition run_ml_training_cycle (read_sql : result DataFrame)
  (run_full_pipeline : result bool) (p : Pipeline) : bool * Pipeline :=
  let p := emit (Log INFO "=== Iniciando retreinamento ML ===") p in
  let (df_historical, line) := extract_historical_data read_sql in
  let p := emit line p in
  if df_empty df_historical || (len df_historical <? 1000)%Z
  then (false, emit (Log WARNING "Dados insuficientes para retreinamento ML") p)
  else match run_full_pipeline with
       | Ok true => (true, emit (Log INFO "Retreinamento ML concluido com sucesso") p)
       | Ok false => (false, emit (Log ERROR "Falha no retreinamento ML") p)
       | Raise _ => (false, emit (Log ERROR "Erro no retreinamento ML") p)
       end.

(* ----------------------------------------------------------------- *)
(** *** Predictions *)

Module Prediction.
Record t : Type := {
  equipment_id : cell;
  timestamp : cell;
  fault_probability : Q;
  predicted_class : Z;
  alert_level : string
}.
End Prediction.

(** Lines 553-557; [noise] is the draw of [np.random.normal(0, 0.1)].
    With a NaN among the readings the sum is NaN, and
    [min(1.0, max(0.0, nan))] is [0.0]. *)
Definition risk_score (temperature vibration : option Q) (noise : Q) : Q :=
  match temperature, vibration with
  | Some t, Some v => Qmin 1 (Qmax 0 ((t - 70) / 30 + (v - 2) / 8 + noise))
  | _, _ => 0
  end.

(** Lines 536-565 for the last row [i] of one machine. *)
Definition predict_row (df : DataFrame) (id : cell) (i : nat) (noise : Q)
  : result Prediction.t :=
  (temperature <- cell_number (row_get df i "VL_TEMPERATURA") ;;
   vibration <- cell_number (row_get df i "VL_VIBRACAO") ;;
   let risk := risk_score temperature vibration noise in
   ts <- row_subscript df i "DATAHORA_MEDICAO" ;;
   Ok {| Prediction.equipment_id := id;
         Prediction.timestamp := ts;
         Prediction.fault_probability := risk;
         Prediction.predicted_class := if Qltb (5 # 10) risk then 1 else 0;
         Prediction.alert_level :=
           if Qltb (7 # 10) risk then "HIGH"
           else if Qltb (4 # 10) risk then "MEDIUM" else "LOW" |})%py.

(** The loop of lines 529-565 over the machines; [noise k] is the
    [k]-th draw. *)
Fixpoint predict_each (df : DataFrame) (machines : list cell) (ids : list cell)
  (noise : nat -> Q) (k : nat) : result (list Prediction.t) :=
  match ids with
  | [] => Ok []
  | id :: rest =>
      match last_match id machines 0 with
      | None => predict_each df machines rest noise k
      | Some i =>
          (pr <- predict_row df id i (noise k) ;;
           prs <- predict_each df machines rest noise (S k) ;;
           Ok (pr :: prs))%py
      end
  end.

(** The [try] block of [run_ml_predictions] on a frame that is not
    empty. *)
Definition predictions_of (df : DataFrame) (noise : nat -> Q)
  : result (list Prediction.t) :=
  match get_col "ID_MAQUINA" (columns df) with
  | None => Raise KeyError
  | Some c => predict_each df (cells c) (unique c) noise 0
  end.

(** [run_ml_predictions]: the rows of the frame it returns, and the
    pipeline.  [ml_connected] is what the ML pipeline's
    [connect_database] returns. *)
Definition run_ml_predictions (ml_connected : bool) (noise : nat -> Q)
  (df : DataFrame) (p : Pipeline) : list Prediction.t * Pipeline :=
  let p := emit (Log INFO "Iniciando predicoes ML") p in
  if df_empty df then ([], p)
  else
    let p := if ml_connected then p
             else emit (Log WARNING "ML pipeline sem conexao DB, usando dados do DataFrame") p in
    match predictions_of df noise with
    | Ok predictions =>
        (predictions,
         emit (Log INFO "ML predicoes concluidas")
           (set_metrics
              (add_predictions (Z.of_nat (List.length predictions)) (metrics p)) p))
    | Raise _ => ([], emit (Log ERROR "Erro nas predicoes ML") p)
    end.

(* ----------------------------------------------------------------- *)
(** *** Health report *)

Module HealthReport.
(** The dictionary of [generate_health_report]; the two dates are kept
    as instants, the report holds their ISO text. *)
Record t : Type := {
  timestamp : datetime;
  pipeline_status : string;
  database_healthy : bool;
  records_processed_total : Z;
  records_failed_total : Z;
  success_rate : Q;
  errors_count : Z;
  last_run : option datetime;
  average_processing_time : Q;
  ml_predictions_total : Z;
  quality_checks_failed : Z;
  uptime_hours : Q
}.
End HealthReport.

(** [generate_health_report]; [db_healthy] is the outcome of the probe
    of lines 695-701, [now] and [now'] are the two readings of the
    clock.  No statement of the [try] block raises. *)
Definition generate_health_report (db_healthy : bool) (now now' : datetime)
  (p : Pipeline) : HealthReport.t :=
  let m := metrics p in
  {| HealthReport.timestamp := now;
     HealthReport.pipeline_status := pipeline_status m;
     HealthReport.database_healthy := db_healthy;
     HealthReport.records_processed_total := records_processed m;
     HealthReport.records_failed_total := records_failed m;
     HealthReport.success_rate :=
       if (0 <? records_processed m + records_failed m)%Z
       then inject_Z (records_processed m)
            / inject_Z (records_processed m + records_failed m)
       else 1;
     HealthReport.errors_count := errors_count m;
     HealthReport.last_run := last_run_time m;
     HealthReport.average_processing_time := average_processing_time m;
     HealthReport.ml_predictions_total := ml_predictions m;
     HealthReport.quality_checks_failed :=
       Z.of_nat (List.length
                   (filter (fun c => negb (passed c))
                           (last_items 20 (data_quality_checks p))));
     HealthReport.uptime_hours :=
       match start_time p with
       | Some t0 => inject_Z (now' - t0) / 3600
       | None => 0
       end |}.

(* ----------------------------------------------------------------- *)
(** *** Load and export *)

(** Where results are written: the auxiliary tables of the database and
    the files of the data directory, each by name, and which of the
    coming writes fail ([true] fails; past the end of the list every
    write goes through). *)
Record Sink : Type := {
  tables : list (string * DataFrame);
  files : list (string * DataFrame);
  write_faults : list bool
}.

(** A named frame replaced where it stands, or added. *)
Fixpoint put_frame (name : string) (df : DataFrame) (l : list (string * DataFrame))
  : list (string * DataFrame) :=
  match l with
  | [] => [(name, df)]
  | (n, d) :: rest =>
      if String.eqb name n then (n, df) :: rest else (n, d) :: put_frame name df rest
  end.

Fixpoint get_frame (name : string) (l : list (string * DataFrame)) : option DataFrame :=
  match l with
  | [] => None
  | (n, d) :: rest => if String.eqb name n then Some d else get_frame name rest
  end.

(** [df.to_sql(name, engine, if_exists='replace')]: the table is
    replaced, or the call raises.  The model then leaves the table as it
    was; the call may in fact have dropped it already, and nothing below
    speaks of a table after a failed write. *)
Definition to_sql (name : string) (df : DataFrame) (s : Sink) : result unit * Sink :=
  match write_faults s with
  | true :: fs =>
      (Raise DatabaseError,
       {| tables := tables s; files := files s; write_faults := fs |})
  | false :: fs =>
      (Ok tt, {| tables := put_frame name df (tables s); files := files s;
                 write_faults := fs |})
  | [] =>
      (Ok tt, {| tables := put_frame name df (tables s); files := files s;
                 write_faults := [] |})
  end.

(** [df.to_csv(path)]: the file is written, or the call raises and
    leaves the files as they were. *)
Definition to_csv (path : string) (df : DataFrame) (s : Sink) : result unit * Sink :=
  match write_faults s with
  | true :: fs =>
      (Raise DatabaseError,
       {| tables := tables s; files := files s; write_faults := fs |})
  | false :: fs =>
      (Ok tt, {| tables := tables s; files := put_frame path df (files s);
                 write_faults := fs |})
  | [] =>
      (Ok tt, {| tables := tables s; files := put_frame path df (files s);
                 write_faults := [] |})
  end.

(** [str.upper] on ASCII text. *)
Definition upper_char (c : ascii) : ascii :=
  let n := nat_of_ascii c in
  if (Nat.leb 97 n && Nat.leb n 122)%bool then ascii_of_nat (n - 32) else c.

Fixpoint upper (s : string) : string :=
  match s with
  | EmptyString => EmptyString
  | String c rest => String (upper_char c) (upper rest)
  end.

(** [load_aggregated_data]: each table in a [try] of its own; [lines]
    are the lines logged so far. *)
Fixpoint load_tables (aggregations : list (string * DataFrame)) (success : bool)
  (s : Sink) (lines : list event) : bool * Sink * list event :=
  match aggregations with
  | [] => (success, s, lines)
  | (table_name, df) :: rest =>
      let temp_table := ("T_AGG_" ++ upper table_name)%string in
      match to_sql temp_table df s with
      | (Ok _, s') =>
          load_tables rest success s' (lines ++ [Log INFO "Agregacao carregada na tabela"])
      | (Raise _, s') =>
          load_tables rest false s' (lines ++ [Log ERROR "Erro ao carregar agregacao"])
      end
  end.

Definition load_aggregated_data (aggregations : list (string * DataFrame)) (s : Sink)
  : bool * Sink * list event :=
  load_tables aggregations true s [].

(** The files [export_data_to_files] sets out to write, in order;
    [stamp] is the time of the call as [strftime] prints it. *)
Definition export_plan (stamp : string) (df : DataFrame)
  (aggregations : list (string * DataFrame)) : list (string * DataFrame) :=
  (if negb (df_empty df) then [(("sensor_data_" ++ stamp ++ ".csv")%string, df)] else [])
  ++ flat_map (fun na => if negb (df_empty (snd na))
                         then [((fst na ++ "_" ++ stamp ++ ".csv")%string, snd na)]
                         else [])
              aggregations.

(** One [try] around all the writes: the first that raises ends them. *)
Fixpoint write_files (plan : list (string * DataFrame)) (s : Sink) (lines : list event)
  : bool * Sink * list event :=
  match plan with
  | [] => (true, s, lines)
  | (path, df) :: rest =>
      match to_csv path df s with
      | (Ok _, s') => write_files rest s' (lines ++ [Log INFO "Dados exportados"])
      | (Raise _, s') => (false, s', lines ++ [Log ERROR "Erro na exportacao de arquivos"])
      end
  end.

(** [export_data_to_files]. *)
Definition export_data_to_files (stamp : string) (df : DataFrame)
  (aggregations : list (string * DataFrame)) (s : Sink) : bool * Sink * list event :=
  write_files (export_plan stamp df aggregations) s [].

End Etl.

(* ================================================================= *)
(** ** Reference library and data for worked examples *)

Definition digit_of (c : ascii) : option Z :=
  let n := Z.of_nat (nat_of_ascii c) in
  if ((48 <=? n) && (n <=? 57))%Z then Some (n - 48)%Z else None.

Fixpoint digits_value (acc : Z) (cs : list ascii) : option Z :=
  match cs with
  | [] => Some acc
  | c :: rest =>
      match digit_of c with
      | Some d => digits_value (acc * 10 + d)%Z rest
      | None => None
      end
  end.

(** Days from 1970-01-01 to a civil date. *)
Definition days_from_civil (y m d : Z) : Z :=
  let y' := (if m <=? 2 then y - 1 else y)%Z in
  let era := (y' / 400)%Z in
  let yoe := (y' - era * 400)%Z in
  let mp := ((m + 9) mod 12)%Z in
  let doy := ((153 * mp + 2) / 5 + d - 1)%Z in
  let doe := (yoe * 365 + yoe / 4 - yoe / 100 + doy)%Z in
  (era * 146097 + doe - 719468)%Z.

(** A date parser that knows the form [YYYY-MM-DD] and nothing else. *)
Definition sample_parse_date (s : string) : option datetime :=
  match list_ascii_of_string s with
  | [y1; y2; y3; y4; "-"%char; m1; m2; "-"%char; d1; d2] =>
      match digits_value 0 [y1; y2; y3; y4], digits_value 0 [m1; m2],
            digits_value 0 [d1; d2] with
      | Some y, Some m, Some d => Some (days_from_civil y m d * 86400)%Z
      | _, _, _ => None
      end
  | _ => None
  end.

(** Seconds since the epoch, years 1 to 9999; a square root to three
    decimals; epoch nanoseconds. *)
Definition sample_lib : PyLib :=
  {| fromisoformat := sample_parse_date;
     fromtimestamp := fun q =>
       let t := Qfloor q in
       if ((-62135596800 <=? t) && (t <? 253402300800))%Z then Some t else None;
     sqrt := fun q => Z.sqrt (Qfloor (q * 1000000)) # 1000;
     parse_datetime := sample_parse_date;
     datetime_of_number := fun q => Qfloor (q / 1000000000) |}.

Definition empty_tables : Ingestion.Tables :=
  {| Ingestion.t_equipamento := []; Ingestion.t_sensor := []; Ingestion.t_medicao := [] |}.

(** A store with nothing in it whose round trips fail as [fs] says. *)
Definition fresh_connection (fs : list bool) : Ingestion.Connection :=
  {| Ingestion.committed := empty_tables; Ingestion.working := empty_tables;
     Ingestion.sp_calls := 0; Ingestion.faults := fs |}.

Definition sample_sensors : json :=
  JObj [("temperature", JNum 72.5); ("pressure", JNum 1013);
        ("vibration_x", JNum 3); ("vibration_y", JNum 4); ("vibration_z", JNum 12)]%string.

Definition sample_payload : json :=
  JObj [("device_id", JStr "ESP32_HERMES_001"); ("timestamp", JNum 1700000000000);
        ("location", JStr "Factory_A"); ("equipment_type", JStr "Pump");
        ("sensors", sample_sensors); ("fault_detected", JBool false)]%string.

Definition sample_reading : Ingestion.SensorReading :=
  {| Ingestion.device_id := JStr "ESP32_HERMES_001";
     Ingestion.timestamp := 1700000000;
     Ingestion.location := JStr "Factory_A";
     Ingestion.equipment_type := JStr "Pump";
     Ingestion.sensors := sample_sensors;
     Ingestion.fault_detected := JBool false;
     Ingestion.source := "MQTT" |}.

(** A payload with every required key and no sensor channel. *)
Definition no_channel_payload : json :=
  JObj [("device_id", JStr "ESP32_HERMES_001"); ("timestamp", JNum 1700000000000);
        ("sensors", JObj [])]%string.

(** A payload without the [sensors] key. *)
Definition no_sensors_payload : json :=
  JObj [("device_id", JStr "ESP32_HERMES_001"); ("timestamp", JNum 1700000000000)]%string.

(** A service whose queue holds [n] readings. *)
Definition service_with (n : nat) : Ingestion.Service :=
  Ingestion.set_data_queue
    {| Ingestion.maxsize := Ingestion.buffer_size;
       Ingestion.items := repeat sample_reading n |}
    (Ingestion.init (fresh_connection [])).

(** A store that fails on the fifth round trip, the persistence call of
    the first reading, and on none after it. *)
Definition transient_failure : Ingestion.Service :=
  Ingestion.init (fresh_connection [false; false; false; false; true]).

(** Stand-ins for the stages after the transform. *)
Definition sample_aggregate (df : DataFrame) : list (string * DataFrame) * DataFrame :=
  if df_empty df then ([], df) else ([("equipment_summary"%string, df)], df).

Definition sample_prediction_count (df : DataFrame) : Z := 1.

(** Five readings, every temperature far out of range. *)
Definition overheated_window : DataFrame :=
  {| nrows := 5;
     columns := [("ID_MEDICAO"%string, ColNum [Some 1; Some 2; Some 3; Some 4; Some 5]);
                 ("VL_TEMPERATURA"%string, ColNum (repeat (Some 500) 5))] |}.

Definition empty_window : DataFrame := {| nrows := 0; columns := [] |}.

(** Twenty readings; the pressure is missing in three of them. *)
Definition gappy_window : DataFrame :=
  {| nrows := 20;
     columns :=
       [("ID_MEDICAO"%string, ColNum (map (fun n => Some (inject_Z (Z.of_nat n))) (seq 1 20)));
        ("VL_TEMPERATURA"%string, ColNum (repeat (Some 70) 20));
        ("VL_PRESSAO"%string, ColNum (repeat None 3 ++ repeat (Some 1013) 17));
        ("DATAHORA_MEDICAO"%string,
         ColTime (map (fun n => Some (Z.of_nat n)) (seq 100 20)))] |}.

(** Timestamps as text, and a temperature column that holds text. *)
Definition text_dates_window : DataFrame :=
  {| nrows := 2;
     columns := [("VL_TEMPERATURA"%string, ColNum [Some 70; Some 71]);
                 ("DATAHORA_MEDICAO"%string,
                  ColObj [Some "2024-01-02"%string; Some "2024-01-01"%string])] |}.

Definition text_temperature_window : DataFrame :=
  {| nrows := 2;
     columns := [("VL_TEMPERATURA"%string, ColObj [Some "hot"%string; Some "cold"%string]);
                 ("DATAHORA_MEDICAO"%string,
                  ColObj [Some "2024-01-02"%string; Some "2024-01-01"%string])] |}.

Definition cycle_on (df : DataFrame) : Etl.CycleInput :=
  {| Etl.df_raw := df; Etl.t_checks := 2000000000; Etl.t_future := 2000000000;
     Etl.cycle_time := 1 # 2; Etl.t_end := 2000000001 |}.

(** A pipeline that was started once. *)
Definition running_pipeline : Etl.Pipeline :=
  snd (Etl.start 1999999999 true (Etl.init (service_with 0))).

(** Nine readings, newest first, one temperature far off and one
    pressure missing. *)
Definition spiky_window : DataFrame :=
  {| nrows := 9;
     columns :=
       [("VL_TEMPERATURA"%string,
         ColNum [Some 1000; Some 70; Some 71; Some 72; Some 73; Some 74; Some 75;
                 Some 76; Some 77]);
        ("VL_PRESSAO"%string,
         ColNum [Some 1013; None; Some 1013; Some 1013; Some 1013; Some 1013;
                 Some 1013; Some 1013; Some 1013]);
        ("DATAHORA_MEDICAO"%string,
         ColTime (map (fun n => Some (Z.of_nat n)) (rev (seq 100 9))))] |}.

(** Four readings out of time order, with the three vibration axes and a
    gap in each of temperature and vibration. *)
Definition vibrating_window : DataFrame :=
  {| nrows := 4;
     columns :=
       [("VL_TEMPERATURA"%string, ColNum [Some 90; None; Some 70; Some 100]);
        ("VL_VIBR_X"%string, ColNum [Some 3; Some 0; None; Some 1]);
        ("VL_VIBR_Y"%string, ColNum [Some 4; Some 0; Some 2; Some 2]);
        ("VL_VIBR_Z"%string, ColNum [Some 12; Some 5; Some 2; Some 2]);
        ("DATAHORA_MEDICAO"%string,
         ColObj [Some "2024-01-04"%string; Some "2024-01-02"%string;
                 Some "2024-01-03"%string; Some "2024-01-01"%string])] |}.

(** A store whose persistence call fails for the first reading, and the
    rollback after it. *)
Definition double_failure : Ingestion.Service :=
  Ingestion.init (fresh_connection [false; false; false; false; true; true]).

(** A reading whose device identifier is a number. *)
Definition numbered_reading : Ingestion.SensorReading :=
  {| Ingestion.device_id := JNum 7;
     Ingestion.timestamp := 1700000000;
     Ingestion.location := JStr "Factory_A";
     Ingestion.equipment_type := JStr "Pump";
     Ingestion.sensors := sample_sensors;
     Ingestion.fault_detected := JBool false;
     Ingestion.source := "MQTT" |}.

(** The fields of a payload whose time stamp is [null]. *)
Definition null_timestamp_fields : list (string * json) :=
  [("device_id", JStr "ESP32_HERMES_001"); ("timestamp", JNull);
   ("sensors", sample_sensors)]%string.

(** Four readings of two machines; the last one names no machine. *)
Definition fleet_window : DataFrame :=
  {| nrows := 4;
     columns :=
       [("ID_MAQUINA"%string,
         ColObj [Some "PUMP_A"%string; Some "PUMP_B"%string; Some "PUMP_A"%string; None]);
        ("VL_TEMPERATURA"%string, ColNum [Some 70; Some 100; Some 91; Some 60]);
        ("VL_VIBRACAO"%string, ColNum [Some 2; Some 10; Some 2; Some 2]);
        ("DATAHORA_MEDICAO"%string,
         ColTime [Some 100%Z; Some 200%Z; Some 300%Z; Some 400%Z])] |}.

(** Draws that are all zero. *)
Definition no_noise (k : nat) : Q := 0.

(** The spiky window of machines whose first vibration axis was never
    read: the column of that axis holds no number, only missing
    values. *)
Definition unread_axis_window : DataFrame :=
  {| nrows := 9;
     columns :=
       columns spiky_window
       ++ [("VL_VIBR_X"%string, ColObj (repeat None 9));
           ("VL_VIBR_Y"%string, ColNum (repeat (Some 1) 9));
           ("VL_VIBR_Z"%string, ColNum (repeat (Some 2) 9))] |}.

(** A sorting routine that is not stable: of two rows with the same
    time stamp the later one comes first. *)
Definition key_leb_later (a b : option datetime * nat) : bool :=
  match fst a, fst b with
  | _, None => true
  | None, Some _ => false
  | Some x, Some y => (x <? y)%Z || ((x =? y)%Z && (snd b <=? snd a)%nat)
  end.

Definition later_first (keys : list (option datetime)) : list nat :=
  map snd (isort key_leb_later (combine keys (seq 0 (List.length keys)))).

(** Eighteen readings taken at the same instant, the temperature rising
    from 70 by two degrees a reading. *)
Definition same_instant_window : DataFrame :=
  {| nrows := 18;
     columns :=
       [("VL_TEMPERATURA"%string,
         ColNum (map (fun n => Some (inject_Z (Z.of_nat (70 + 2 * n)))) (seq 0 18)));
        ("DATAHORA_MEDICAO"%string, ColTime (repeat (Some 1700000000%Z) 18))] |}.

(** The sample reading with a first vibration axis of [1e200], whose
    square is no float. *)
Definition violent_reading : Ingestion.SensorReading :=
  {| Ingestion.device_id := JStr "ESP32_HERMES_001";
     Ingestion.timestamp := 1700000000;
     Ingestion.location := JStr "Factory_A";
     Ingestion.equipment_type := JStr "Pump";
     Ingestion.sensors :=
       JObj [("temperature", JNum 72.5); ("vibration_x", JNum (inject_Z (10 ^ 200)));
             ("vibration_y", JNum 4); ("vibration_z", JNum 12)]%string;
     Ingestion.fault_detected := JBool false;
     Ingestion.source := "MQTT" |}.

(* ================================================================= *)
(** ** Vocabulary of the properties *)

Unset Implicit Arguments.

(** The invariant of the queue: a positive capacity that is respected. *)
Definition bounded (q : Ingestion.Queue) : Prop :=
  (0 < Ingestion.maxsize q)%Z /\ (Ingestion.qsize q <= Ingestion.maxsize q)%Z.

(** [respects R m]: whatever [m] returns or raises, the states before and
    after are related by [R]. *)
Definition respects {A : Type} (R : Ingestion.Service -> Ingestion.Service -> Prop)
  (m : Ingestion.M A) : Prop :=
  forall s, R s (snd (m s)).

(** Left alone by the steps before the persistence call: the queue, the
    counters, what is committed and the count of persistence calls. *)
Definition frame (s s' : Ingestion.Service) : Prop :=
  Ingestion.data_queue s' = Ingestion.data_queue s
  /\ Ingestion.stats s' = Ingestion.stats s
  /\ Ingestion.committed (Ingestion.db_connection s')
     = Ingestion.committed (Ingestion.db_connection s)
  /\ Ingestion.sp_calls (Ingestion.db_connection s')
     = Ingestion.sp_calls (Ingestion.db_connection s).

Definition same_queue (s s' : Ingestion.Service) : Prop :=
  Ingestion.data_queue s' = Ingestion.data_queue s.

(** A store operation keeps the frame when it keeps the committed tables
    and the call count. *)
Definition db_quiet {A : Type} (m : Ingestion.db A) : Prop :=
  forall c,
    Ingestion.committed (snd (m c)) = Ingestion.committed c
    /\ Ingestion.sp_calls (snd (m c)) = Ingestion.sp_calls c.

(** The order a comparison function stands for. *)
Definition le_of {A : Type} (leb : A -> A -> bool) (x y : A) : Prop := leb x y = true.

(** What happens to the service over time: a payload arrives, or the
    batch writer takes its turn. *)
Inductive ingestion_step : Type :=
| Arrive (payload : result json)
| Drain (now : datetime).

Definition ingestion_run {L : PyLib} (steps : list ingestion_step)
  (s : Ingestion.Service) : Ingestion.Service :=
  fold_left
    (fun s e => match e with
                | Arrive payload => Ingestion.process_sensor_data payload s
                | Drain now => Ingestion.processing_iteration now s
                end)
    steps s.

(** A payload the field test of lines 237-240 turns away, or that is not
    an object at all, or that did not decode. *)
Definition lacks_required_field (payload : result json) : bool :=
  match payload with
  | Ok (JObj kv) => negb (forallb (fun f => dict_in f kv) Ingestion.required_fields)
  | _ => true
  end.

(** The stages a trace went through. *)
Definition stages_entered (t : list Etl.event) : list Etl.stage :=
  flat_map (fun e => match e with Etl.Enter st => [st] | _ => [] end) t.

(** A failed check whose count of affected records is above a fifth of
    the window, in whole numbers. *)
Definition exceeds_fifth (rows : Z) (c : Etl.DataQualityCheck) : bool :=
  negb (Etl.passed c) && (rows <? 5 * Etl.affected_records c)%Z.

(** The gate turns away the window a cycle extracted: one of the checks
    it runs is critical. *)
Definition window_rejected {L : PyLib} (i : Etl.CycleInput) : bool :=
  existsb (exceeds_fifth (len (Etl.df_raw i)))
    (fst (Etl.perform_data_quality_checks (Etl.t_checks i) (Etl.t_future i)
            (Etl.df_raw i))).

(** A cycle whose window is not empty and is turned away by the gate. *)
Definition rejects {L : PyLib} (i : Etl.CycleInput) : bool :=
  negb (df_empty (Etl.df_raw i)) && window_rejected i.

(** Exactly one column holds nulls, [k] of them. *)
Definition one_null_channel (df : DataFrame) (k : Z) : Prop :=
  exists pre name c post,
    columns df = pre ++ (name, c) :: post
    /\ col_nulls c = k
    /\ Forall (fun nc => col_nulls (snd nc) = 0%Z) (pre ++ post).

(** How a cell of the clipped column relates to the cell it came from. *)
Definition clipped_to (lower upper : Q) (o o' : option Q) : Prop :=
  match o, o' with
  | None, None => True
  | Some v, Some v' =>
      lower <= v' /\ v' <= upper
      /\ (lower <= v -> v <= upper -> v' = v)
      /\ (v < lower -> v' = lower)
      /\ (upper < v -> v' = upper)
  | _, _ => False
  end.

(** A cell that is missing or within the bounds. *)
Definition within (lower upper : Q) (o : option Q) : Prop :=
  match o with
  | None => True
  | Some v => lower <= v /\ v <= upper
  end.

(** [out] has the rows of [df], one cell per row in every column. *)
Definition same_shape (df out : DataFrame) : Prop :=
  nrows out = nrows df /\ well_formed out.

(** The cells below a threshold. *)
Definition count_below (w : Q) (l : list Q) : nat :=
  List.length (filter (fun y => Qltb y w) l).

Definition ascending (l : list Q) : Prop := StronglySorted Qle l.

(** The frame with its rows taken in the order [perm]. *)
Definition reorder (perm : list nat) (df : DataFrame) : DataFrame :=
  {| nrows := List.length perm;
     columns := map (fun nc => (fst nc, take_rows perm (snd nc))) (columns df) |}.

(** A numeric column without a gap, or a median-filled column that is
    all gaps (its median is NaN). *)
Definition calm (nc : string * column) : Prop :=
  match snd nc with
  | ColNum xs =>
      Forall (fun o => o <> None) xs
      \/ (existsb (String.eqb (fst nc)) Etl.median_columns = true
          /\ Forall (fun o => o = None) xs)
  | _ => True
  end.

(** What the first three steps of the transform leave behind. *)
Definition settled (d : DataFrame) : Prop :=
  well_formed d
  /\ Forall calm (columns d)
  /\ (forall name, In name Etl.clipped_columns ->
        get_col name (columns d) = None
        \/ exists xs, get_col name (columns d) = Some (ColNum (Etl.clip_outliers xs)))
  /\ (get_col "DATAHORA_MEDICAO" (columns d) = None
      \/ exists keys, get_col "DATAHORA_MEDICAO" (columns d) = Some (ColTime keys)).

Definition keeps (names : list string) (nc : string * column) : bool :=
  negb (existsb (String.eqb (fst nc)) names).

(** No column carries the name of a derived column. *)
Definition underived (d : DataFrame) : bool :=
  forallb (keeps Etl.derived_columns) (columns d).

(** A [str]. *)
Definition is_str (j : json) : bool :=
  match j with JStr _ => true | _ => false end.

(** A value Python's arithmetic takes: a number or a [bool]. *)
Definition is_number (j : json) : bool :=
  match j with JNum _ | JBool _ => true | _ => false end.

(** A number of size [2 ** 510] at most: its square, and the sum of
    three such squares, are floats with room to spare. *)
Definition moderate (j : json) : bool :=
  match as_number j with
  | Ok q => Qle_bool (q * q) (inject_Z (2 ^ 1020))
  | Raise _ => false
  end.

(** A reading [insert_sensor_data] can turn into a row: its identifier,
    type and place are strings, its sensors are a map, and the three
    vibration axes, when all present, are numbers of moderate size. *)
Definition storable (r : Ingestion.SensorReading) : bool :=
  is_str (Ingestion.device_id r) && is_str (Ingestion.equipment_type r)
  && is_str (Ingestion.location r)
  && match Ingestion.sensor_get2 (Ingestion.sensors r) "vibration_x" "vibr_x",
           Ingestion.sensor_get2 (Ingestion.sensors r) "vibration_y" "vibr_y",
           Ingestion.sensor_get2 (Ingestion.sensors r) "vibration_z" "vibr_z" with
     | Ok (Some x), Ok (Some y), Ok (Some z) => moderate x && moderate y && moderate z
     | Ok _, Ok _, Ok _ => true
     | _, _, _ => false
     end.

(** The widths [get_or_create_equipment] cuts the type and the place of
    a machine to. *)
Definition fits_columns (row : string * string * string) : Prop :=
  (String.length (snd (fst row)) <= 16)%nat /\ (String.length (snd row) <= 50)%nat.

Definition equipment_fits (c : Ingestion.Connection) : Prop :=
  Forall fits_columns (Ingestion.t_equipamento (Ingestion.working c))
  /\ Forall fits_columns (Ingestion.t_equipamento (Ingestion.committed c)).

(** No round trip to the store is going to fail. *)
Definition healthy (c : Ingestion.Connection) : Prop := Ingestion.faults c = [].

(** Nothing is pending in the transaction, and the running counter
    agrees with the table of measurements. *)
Definition in_step (s : Ingestion.Service) : Prop :=
  Ingestion.working (Ingestion.db_connection s)
  = Ingestion.committed (Ingestion.db_connection s)
  /\ Ingestion.total_records (Ingestion.stats s)
     = Z.of_nat (List.length
                   (Ingestion.t_medicao
                      (Ingestion.committed (Ingestion.db_connection s)))).

(** No value occurs twice in the column, the missing value included. *)
Definition all_distinct (c : column) : Prop :=
  ForallOrdPairs (fun a b => cell_same b a = false) (cells c).

(** The order of the sorted time stamps: ascending, the missing ones
    last. *)
Definition chronological (a b : option datetime) : Prop :=
  match a, b with
  | _, None => True
  | None, Some _ => False
  | Some x, Some y => (x <= y)%Z
  end.

(** The names the transform writes to: the time stamp, the clipped
    columns and the derived columns. *)
Definition written_columns : list string :=
  ("DATAHORA_MEDICAO" :: Etl.clipped_columns ++ Etl.derived_columns)%string.

(** The rows of the windows a run of cycles takes through, and the
    number of windows it turns away. *)
Fixpoint accepted_rows {L : PyLib} (inputs : list Etl.CycleInput) : Z :=
  match inputs with
  | [] => 0
  | i :: rest =>
      ((if negb (df_empty (Etl.df_raw i)) && negb (window_rejected i)
        then len (Etl.df_raw i) else 0)
       + accepted_rows rest)%Z
  end.

Fixpoint rejected_windows {L : PyLib} (inputs : list Etl.CycleInput) : Z :=
  match inputs with
  | [] => 0
  | i :: rest => ((if rejects i then 1 else 0) + rejected_windows rest)%Z
  end.

(** What is done to a pipeline object over time. *)
Inductive pipeline_step : Type :=
| CallStart (now : datetime) (connected : bool)
| CallStop
| CallCycle (i : Etl.CycleInput)
| CallIngest (payload : result json)
| CallPredictions (ml_connected : bool) (noise : nat -> Q) (df : DataFrame)
| CallTraining (read_sql : result DataFrame) (run_full_pipeline : result bool).

Section PipelineRuns.
Context {L : PyLib}.
Variable aggregate_data_for_reporting : DataFrame -> list (string * DataFrame) * DataFrame.
Variable prediction_count : DataFrame -> Z.

Definition pipeline_call (p : Etl.Pipeline) (e : pipeline_step) : Etl.Pipeline :=
  match e with
  | CallStart now connected => snd (Etl.start now connected p)
  | CallStop => Etl.stop p
  | CallCycle i =>
      snd (Etl.run_etl_cycle aggregate_data_for_reporting prediction_count i p)
  | CallIngest payload => Etl.ingest payload p
  | CallPredictions ml_connected noise df =>
      snd (Etl.run_ml_predictions ml_connected noise df p)
  | CallTraining read_sql run_full_pipeline =>
      snd (Etl.run_ml_training_cycle read_sql run_full_pipeline p)
  end.

Definition pipeline_run (steps : list pipeline_step) (p : Etl.Pipeline) : Etl.Pipeline :=
  fold_left pipeline_call steps p.

End PipelineRuns.

(** A value that is there. *)
Definition cell_present (a : cell) : bool := negb (cell_missing a).

(** What holds of every prediction: a probability, and a class and an
    alert level that go together. *)
Definition sound_prediction (pr : Etl.Prediction.t) : Prop :=
  0 <= Etl.Prediction.fault_probability pr
  /\ Etl.Prediction.fault_probability pr <= 1
  /\ (Etl.Prediction.predicted_class pr = 0%Z \/ Etl.Prediction.predicted_class pr = 1%Z)
  /\ (Etl.Prediction.predicted_class pr = 1%Z ->
      Etl.Prediction.alert_level pr <> "LOW"%string)
  /\ (Etl.Prediction.alert_level pr = "HIGH"%string ->
      Etl.Prediction.predicted_class pr = 1%Z).

(** The place of the first write that fails among the next [n], if one
    does. *)
Fixpoint first_fault (faults : list bool) (n : nat) {struct n} : option nat :=
  match n, faults with
  | O, _ => None
  | S _, [] => None
  | S _, true :: _ => Some O
  | S n', false :: rest => option_map S (first_fault rest n')
  end.

(** The files after the writes of a plan have all gone through. *)
Definition written (plan : list (string * DataFrame)) (fs : list (string * DataFrame))
  : list (string * DataFrame) :=
  fold_left (fun fs pf => Etl.put_frame (fst pf) (snd pf) fs) plan fs.

(** What a sorting routine promises: the positions of all the rows, in
    an order that puts the keys in ascending order, the missing ones
    last. *)
Definition sorting (order : list (option datetime) -> list nat) : Prop :=
  forall keys,
    Permutation (order keys) (seq 0 (List.length keys))
    /\ StronglySorted chronological (take_cells (order keys) keys).

(** No two rows of the frame carry the same time stamp. *)
Definition no_tied_timestamps (d : DataFrame) : Prop :=
  match get_col "DATAHORA_MEDICAO" (columns d) with
  | Some (ColTime keys) => NoDup keys
  | _ => True
  end.

(* ================================================================= *)
(** ** The reference values at work *)

Example sample_payload_decodes :
  @Ingestion.build_reading sample_lib sample_payload = Ok sample_reading.
Proof. vm_compute. reflexivity. Qed.

Example sample_date : sample_parse_date "2024-01-01" = Some 1704067200%Z.
Proof. reflexivity. Qed.

Example replace_example :
  (replace "_" "" (replace "ESP32_" "" "ESP32_HERMES_001") ++ "_EQ")%string
  = "HERMES001_EQ"%string.
Proof. reflexivity. Qed.

(* ================================================================= *)
(** ** Properties of the ingestion service *)

Section IngestionProperties.
Context {L : PyLib}.
Import Ingestion.

(** What a call of [process_sensor_data] can do to the service: add one
    log line that is not a debug line, or put the decoded reading on a
    queue that was not full. *)
Lemma process_sensor_data_outcome (payload : result json) (s : Service) :
  (exists lv msg, lv <> DEBUG /\ process_sensor_data payload s = add_log lv msg s)
  \/ (exists data r msg,
        payload = Ok data /\ all_in required_fields data = Ok true
        /\ build_reading data = Ok r /\ full (data_queue s) = false
        /\ process_sensor_data payload s
           = add_log DEBUG msg (set_data_queue (put r (data_queue s)) s)).
Proof.
  unfold process_sensor_data.
  destruct payload as [data | e].
  - destruct (all_in required_fields data) as [[|] | e1] eqn:Hall.
    + destruct (build_reading data) as [r | e2] eqn:Hr.
      * destruct (full (data_queue s)) eqn:Hfull; simpl.
        -- left. do 2 eexists. split; [| reflexivity]. discriminate.
        -- right. exists data, r. eexists. repeat split; auto.
      * left. do 2 eexists. split; [| reflexivity]. discriminate.
    + left. do 2 eexists. split; [| reflexivity]. discriminate.
    + left. do 2 eexists. split; [| reflexivity]. discriminate.
  - left. destruct e; do 2 eexists; (split; [| reflexivity]); discriminate.
Qed.

Lemma process_sensor_data_full (payload : result json) (s : Service) :
  full (data_queue s) = true ->
  exists lv msg, lv <> DEBUG /\ process_sensor_data payload s = add_log lv msg s.
Proof.
  intros Hfull.
  destruct (process_sensor_data_outcome payload s)
    as [H | (data & r & msg & _ & _ & _ & Hnot & _)]; [exact H | congruence].
Qed.

Lemma put_bounded (r : SensorReading) (q : Queue) :
  bounded q -> full q = false -> bounded (put r q).
Proof.
  unfold bounded, full, put, qsize. simpl. intros [Hpos Hle] Hfull.
  rewrite length_app. simpl.
  apply andb_false_iff in Hfull. destruct Hfull as [H | H].
  - apply Z.ltb_ge in H. lia.
  - apply Z.leb_gt in H. lia.
Qed.

Lemma process_sensor_data_bounded (payload : result json) (s : Service) :
  bounded (data_queue s) ->
  bounded (data_queue (process_sensor_data payload s))
  /\ maxsize (data_queue (process_sensor_data payload s)) = maxsize (data_queue s).
Proof.
  intros Hb.
  destruct (process_sensor_data_outcome payload s)
    as [(lv & msg & _ & ->) | (data & r & msg & _ & _ & _ & Hnot & ->)]; simpl.
  - auto.
  - split; [apply put_bounded; assumption | reflexivity].
Qed.

(* ----------------------------------------------------------------- *)
(** *** Frame rules for the service monad *)

Lemma respects_bind {A B : Type} (R : Service -> Service -> Prop)
  (m : M A) (k : A -> M B) :
  (forall a b c, R a b -> R b c -> R a c) ->
  respects R m -> (forall a, respects R (k a)) -> respects R (mbind m k).
Proof.
  intros Htrans Hm Hk s. unfold mbind.
  specialize (Hm s). destruct (m s) as [[a | e] s1]; simpl in *.
  - eapply Htrans; [exact Hm | apply Hk].
  - exact Hm.
Qed.

Lemma frame_refl (s : Service) : frame s s.
Proof. repeat split. Qed.

Lemma frame_trans (a b c : Service) : frame a b -> frame b c -> frame a c.
Proof. unfold frame. intuition congruence. Qed.

Lemma same_queue_trans (a b c : Service) :
  same_queue a b -> same_queue b c -> same_queue a c.
Proof. unfold same_queue. congruence. Qed.

Lemma frame_same_queue {A : Type} (m : M A) : respects frame m -> respects same_queue m.
Proof. intros H s. exact (proj1 (H s)). Qed.

Lemma frame_lift {A : Type} (r : result A) : respects frame (lift r).
Proof. intros s. apply frame_refl. Qed.

Lemma frame_ret {A : Type} (a : A) : respects frame (ret a).
Proof. intros s. apply frame_refl. Qed.

Lemma frame_logm (lv : level) (msg : string) : respects frame (logm lv msg).
Proof. intros s. repeat split. Qed.

Lemma frame_lift_db {A : Type} (m : db A) : db_quiet m -> respects frame (lift_db m).
Proof.
  intros Hq s. unfold lift_db. specialize (Hq (db_connection s)).
  destruct (m (db_connection s)) as [r c]. simpl in *.
  destruct Hq. repeat split; assumption.
Qed.

Lemma same_queue_lift_db {A : Type} (m : db A) : respects same_queue (lift_db m).
Proof.
  intros s. unfold lift_db. destruct (m (db_connection s)). reflexivity.
Qed.

Ltac db_cases :=
  intros c; unfold db_bind, round_trip, with_working, read_working;
  destruct (faults c) as [| [|] fs]; simpl; split; reflexivity.

Lemma quiet_select_count_equipamento (k : string) : db_quiet (select_count_equipamento k).
Proof. unfold select_count_equipamento. db_cases. Qed.

Lemma quiet_select_count_sensor (k : string) : db_quiet (select_count_sensor k).
Proof. unfold select_count_sensor. db_cases. Qed.

Lemma quiet_insert_equipamento (row : string * string * string) :
  db_quiet (insert_equipamento row).
Proof. unfold insert_equipamento. db_cases. Qed.

Lemma quiet_insert_sensor (row : string * string * string) : db_quiet (insert_sensor row).
Proof. unfold insert_sensor. db_cases. Qed.

Ltac frame_steps :=
  repeat first
    [ apply frame_lift | apply frame_ret | apply frame_logm
    | apply frame_lift_db;
      first [ apply quiet_select_count_equipamento | apply quiet_select_count_sensor
            | apply quiet_insert_equipamento | apply quiet_insert_sensor ]
    | apply respects_bind; [exact frame_trans | | intros ?]
    | match goal with
      | |- respects _ (if ?b then _ else _) => destruct b
      end ].

Lemma frame_get_or_create_equipment (r : SensorReading) :
  respects frame (get_or_create_equipment r).
Proof. unfold get_or_create_equipment. frame_steps. Qed.

Lemma frame_get_or_create_sensor (r : SensorReading) :
  respects frame (get_or_create_sensor r).
Proof. unfold get_or_create_sensor. frame_steps. Qed.

Lemma frame_prepare_medicao (r : SensorReading) : respects frame (prepare_medicao r).
Proof.
  unfold prepare_medicao.
  apply respects_bind; [exact frame_trans | apply frame_get_or_create_equipment | intros ?].
  apply respects_bind; [exact frame_trans | apply frame_get_or_create_sensor | intros ?].
  frame_steps.
Qed.

(** Where the [try] block can stop, and the state it then leaves. *)
Lemma insert_body_raise (now : datetime) (r : SensorReading) (s s1 : Service) (e : exn) :
  insert_body now r s = (Raise e, s1) ->
  data_queue s1 = data_queue s
  /\ stats s1 = stats s
  /\ committed (db_connection s1) = committed (db_connection s)
  /\ (sp_calls (db_connection s1) <= S (sp_calls (db_connection s)))%nat.
Proof.
  unfold insert_body, mbind. intros H.
  pose proof (frame_prepare_medicao r s) as Hf.
  destruct (prepare_medicao r s) as [[row | e0] s0]; simpl in Hf.
  - destruct Hf as (Hq & Hs & Hc & Hn).
    revert H.
    unfold lift_db, callproc_sp_insert_medicao, commit, db_bind, round_trip,
      with_working, note_insert, logm, ret.
    simpl.
    destruct (faults (db_connection s0)) as [| [|] [| [|] fs]]; simpl;
      intros H; inversion H; subst; simpl; rewrite ?Hq, ?Hs, ?Hc, ?Hn;
      repeat split; auto.
  - inversion H; subst. destruct Hf as (Hq & Hs & Hc & Hn).
    rewrite Hn. repeat split; auto.
Qed.

Lemma insert_body_same_queue (now : datetime) (r : SensorReading) :
  respects same_queue (insert_body now r).
Proof.
  unfold insert_body.
  apply respects_bind;
    [exact same_queue_trans | apply frame_same_queue, frame_prepare_medicao | intros ?].
  repeat (apply respects_bind; [exact same_queue_trans | | intros ?]);
    try apply same_queue_lift_db; intros s; reflexivity.
Qed.

Lemma insert_sensor_data_same_queue (now : datetime) (r : SensorReading) :
  respects same_queue (insert_sensor_data now r).
Proof.
  intros s. unfold insert_sensor_data.
  pose proof (insert_body_same_queue now r s) as Hb.
  destruct (insert_body now r s) as [[b | e] s1]; simpl in Hb; [exact Hb |].
  eapply same_queue_trans; [exact Hb |].
  generalize s1.
  change (respects same_queue
            (logm ERROR "Erro ao inserir dados no banco" ;;;
             lift_db rollback ;;; note_failure ;;; ret false)%M).
  repeat (apply respects_bind; [exact same_queue_trans | | intros ?]);
    try apply same_queue_lift_db; intros s'; reflexivity.
Qed.

Lemma insert_batch_same_queue (now : datetime) (batch : list SensorReading) :
  forall n, respects same_queue (insert_batch now batch n).
Proof.
  induction batch as [| r rest IH]; intros n; simpl.
  - intros s. reflexivity.
  - apply respects_bind;
      [exact same_queue_trans | apply insert_sensor_data_same_queue | intros ok; apply IH].
Qed.

Lemma collect_batch_shrinks (room : nat) :
  forall batch q batch' q',
    collect_batch room batch q = (batch', q') ->
    maxsize q' = maxsize q /\ (qsize q' <= qsize q)%Z
    /\ batch' ++ items q' = batch ++ items q.
Proof.
  induction room as [| room IH]; simpl; intros batch q batch' q' H.
  - inversion H; subst. repeat split; lia.
  - unfold get in H. destruct (items q) as [| x rest] eqn:Hi.
    + inversion H; subst. rewrite Hi. repeat split; lia.
    + apply IH in H. simpl in H. destruct H as (Hm & Hs & Happ).
      unfold qsize in *. simpl in Hs. rewrite Hi. simpl.
      rewrite <- app_assoc in Happ. simpl in Happ.
      repeat split; [exact Hm | lia | exact Happ].
Qed.

Lemma processing_iteration_bounded (now : datetime) (s : Service) :
  bounded (data_queue s) ->
  bounded (data_queue (processing_iteration now s))
  /\ maxsize (data_queue (processing_iteration now s)) = maxsize (data_queue s).
Proof.
  intros [Hpos Hle]. unfold processing_iteration.
  destruct (collect_batch batch_insert_size [] (data_queue s)) as [batch q] eqn:Hc.
  apply collect_batch_shrinks in Hc. destruct Hc as (Hm & Hs & _).
  assert (Hq : bounded q) by (unfold bounded; rewrite Hm; split; lia).
  destruct batch as [| r rest]; [simpl; auto |].
  pose proof (insert_batch_same_queue now (r :: rest) 0 (set_data_queue q s)) as Hsame.
  destruct (insert_batch now (r :: rest) 0 (set_data_queue q s)) as [[n | e] s2];
    unfold same_queue in Hsame; simpl in *; rewrite Hsame; auto.
Qed.

End IngestionProperties.

(* ----------------------------------------------------------------- *)
(** *** Runs of the ingestion service *)

Section IngestionClaims.
Context {L : PyLib}.
Import Ingestion.

Lemma ingestion_run_bounded (steps : list ingestion_step) :
  forall s, bounded (data_queue s) ->
    bounded (data_queue (ingestion_run steps s))
    /\ maxsize (data_queue (ingestion_run steps s)) = maxsize (data_queue s).
Proof.
  induction steps as [| e rest IH]; intros s Hb; simpl.
  - auto.
  - destruct e as [payload | now].
    + destruct (process_sensor_data_bounded payload s Hb) as [Hb' Hm].
      destruct (IH _ Hb') as [Hb'' Hm'].
      split; [exact Hb'' | congruence].
    + destruct (processing_iteration_bounded now s Hb) as [Hb' Hm].
      destruct (IH _ Hb') as [Hb'' Hm'].
      split; [exact Hb'' | congruence].
Qed.

(** C1 (as amended).  A payload that arrives while the queue is full is
    dropped: the queue and every counter, [failed_inserts] and the
    pipeline's [records_failed] included, stay as they were (only a
    warning is logged).  And whatever payloads arrive and whenever the
    batch writer runs, the queue never holds more than its capacity. *)
Theorem C1_overflow_drops_without_counting (p : Etl.Pipeline) :
  bounded (data_queue (Etl.data_ingestion p)) ->
  (forall payload,
      full (data_queue (Etl.data_ingestion p)) = true ->
      data_queue (Etl.data_ingestion (Etl.ingest payload p))
      = data_queue (Etl.data_ingestion p)
      /\ stats (Etl.data_ingestion (Etl.ingest payload p))
         = stats (Etl.data_ingestion p)
      /\ Etl.metrics (Etl.ingest payload p) = Etl.metrics p)
  /\ (forall steps,
         (qsize (data_queue (ingestion_run steps (Etl.data_ingestion p)))
          <= maxsize (data_queue (Etl.data_ingestion p)))%Z).
Proof.
  intros Hb. split.
  - intros payload Hfull. simpl.
    destruct (process_sensor_data_full payload _ Hfull) as (lv & msg & _ & ->).
    simpl. auto.
  - intros steps.
    destruct (ingestion_run_bounded steps _ Hb) as [[_ Hle] Hm].
    rewrite <- Hm. exact Hle.
Qed.

Lemma all_in_object (fields : list string) (kv : list (string * json)) :
  all_in fields (JObj kv) = Ok (forallb (fun f => dict_in f kv) fields).
Proof.
  induction fields as [| f fs IH]; simpl; [reflexivity |].
  destruct (dict_in f kv); simpl; [exact IH | reflexivity].
Qed.

Lemma build_reading_needs_object (data : json) (r : SensorReading) :
  build_reading data = Ok r -> exists kv, data = JObj kv.
Proof.
  unfold build_reading. destruct data; simpl; try discriminate.
  intros _. eexists. reflexivity.
Qed.

(** C3 (as amended).  A payload that does not decode, does not decode to
    an object, or whose object lacks the [device_id], [timestamp] or
    [sensors] key, yields no reading: the call returns the service as it
    was (queue, counters and store untouched, nothing kept for a later
    attempt) with one more log line, which is not the debug line of an
    accepted reading. *)
Theorem C3_missing_field_is_dropped (payload : result json) (s : Service) :
  lacks_required_field payload = true ->
  exists lv msg, lv <> DEBUG /\ process_sensor_data payload s = add_log lv msg s.
Proof.
  intros Hlack.
  destruct (process_sensor_data_outcome payload s)
    as [H | (data & r & msg & -> & Hall & Hr & _ & _)]; [exact H | exfalso].
  destruct (build_reading_needs_object _ _ Hr) as [kv ->].
  rewrite all_in_object in Hall. simpl in Hlack.
  inversion Hall as [Hall']. unfold required_fields in Hlack.
  rewrite Hall' in Hlack. discriminate.
Qed.

(** C4 (as amended).  When the [try] block of [insert_sensor_data] stops
    on an exception and the handler's rollback goes through, the method
    returns [False] with the transaction rolled back to what was
    committed before, [failed_inserts] one higher and [total_records]
    unchanged; the persistence call was attempted at most once (there is
    no retry), and the reading is not put back on the queue. *)
Theorem C4_failed_insert_is_not_retried (now : datetime) (reading : SensorReading)
  (s s1 : Service) (e : exn) :
  insert_body now reading s = (Raise e, s1) ->
  hd false (faults (db_connection s1)) = false ->
  exists s',
    insert_sensor_data now reading s = (Ok false, s')
    /\ (sp_calls (db_connection s') <= S (sp_calls (db_connection s)))%nat
    /\ working (db_connection s') = committed (db_connection s)
    /\ committed (db_connection s') = committed (db_connection s)
    /\ failed_inserts (stats s') = (failed_inserts (stats s) + 1)%Z
    /\ total_records (stats s') = total_records (stats s)
    /\ data_queue s' = data_queue s.
Proof.
  intros Hbody Hroll.
  destruct (insert_body_raise _ _ _ _ _ Hbody) as (Hq & Hs & Hc & Hn).
  unfold insert_sensor_data. rewrite Hbody.
  unfold mbind, logm, lift_db, rollback, db_bind, round_trip, note_failure, ret.
  simpl.
  destruct (faults (db_connection s1)) as [| [|] fs]; simpl in *;
    try discriminate;
    eexists; (split; [reflexivity |]); simpl; rewrite Hs;
    repeat split; auto.
Qed.

End IngestionClaims.

(** C1, witness: the service right after [__init__] with a full queue. *)
Lemma C1_overflow_witness :
  bounded
    (Ingestion.data_queue (Etl.data_ingestion (Etl.init (service_with 1000))))
  /\ (forall payload,
        Ingestion.data_queue
          (Etl.data_ingestion (@Etl.ingest sample_lib payload (Etl.init (service_with 1000))))
        = Ingestion.data_queue (Etl.data_ingestion (Etl.init (service_with 1000)))).
Proof.
  assert (Hb : bounded
                 (Ingestion.data_queue
                    (Etl.data_ingestion (Etl.init (service_with 1000))))).
  { split; vm_compute; [reflexivity | discriminate]. }
  split; [exact Hb |].
  intros payload.
  apply (proj1 (@C1_overflow_drops_without_counting sample_lib
                  (Etl.init (service_with 1000)) Hb) payload).
  vm_compute. reflexivity.
Defined.

(** C1, counterexample: a well-formed payload arrives at a full queue and
    [records_failed] is not one higher afterwards; [failed_inserts] does
    not move either. *)
Lemma C1_counterexample :
  Ingestion.full (Ingestion.data_queue (service_with 1000)) = true
  /\ Etl.records_failed
       (Etl.metrics (@Etl.ingest sample_lib (Ok sample_payload)
                       (Etl.init (service_with 1000))))
     <> (Etl.records_failed (Etl.metrics (Etl.init (service_with 1000))) + 1)%Z
  /\ Ingestion.failed_inserts
       (Ingestion.stats
          (Etl.data_ingestion (@Etl.ingest sample_lib (Ok sample_payload)
                                 (Etl.init (service_with 1000)))))
     = Ingestion.failed_inserts (Ingestion.stats (service_with 1000)).
Proof. vm_compute. repeat split; discriminate. Qed.

(** C3, witness: the payload without the [sensors] key. *)
Lemma C3_missing_field_witness :
  lacks_required_field (Ok no_sensors_payload) = true
  /\ exists lv msg,
       lv <> DEBUG
       /\ @Ingestion.process_sensor_data sample_lib (Ok no_sensors_payload)
            (service_with 0)
          = Ingestion.add_log lv msg (service_with 0).
Proof.
  split; [reflexivity |].
  apply (@C3_missing_field_is_dropped sample_lib). reflexivity.
Defined.

(** C3, counterexample: a payload whose sensor-channel map is empty is
    decoded and queued. *)
Lemma C3_counterexample :
  subscript no_channel_payload "sensors" = Ok (JObj [])
  /\ map Ingestion.sensors
       (Ingestion.items
          (Ingestion.data_queue
             (@Ingestion.process_sensor_data sample_lib (Ok no_channel_payload)
                (service_with 0))))
     = [JObj []]
  /\ Ingestion.items (Ingestion.data_queue (service_with 0)) = [].
Proof. vm_compute. repeat split. Qed.

(** C4, witness: the persistence call fails once. *)
Lemma C4_failed_insert_witness :
  exists s',
    @Ingestion.insert_sensor_data sample_lib 0 sample_reading transient_failure
    = (Ok false, s')
    /\ (Ingestion.sp_calls (Ingestion.db_connection s')
        <= S (Ingestion.sp_calls (Ingestion.db_connection transient_failure)))%nat
    /\ Ingestion.working (Ingestion.db_connection s')
       = Ingestion.committed (Ingestion.db_connection transient_failure)
    /\ Ingestion.committed (Ingestion.db_connection s')
       = Ingestion.committed (Ingestion.db_connection transient_failure)
    /\ Ingestion.failed_inserts (Ingestion.stats s')
       = (Ingestion.failed_inserts (Ingestion.stats transient_failure) + 1)%Z
    /\ Ingestion.total_records (Ingestion.stats s')
       = Ingestion.total_records (Ingestion.stats transient_failure)
    /\ Ingestion.data_queue s' = Ingestion.data_queue transient_failure.
Proof.
  eapply (@C4_failed_insert_is_not_retried sample_lib 0 sample_reading
            transient_failure _ DatabaseError).
  - vm_compute. reflexivity.
  - vm_compute. reflexivity.
Defined.

(** C4, counterexample: the store fails once and would take the row on
    the next attempt ([max_retries] is 3), yet the method gives up after
    a single persistence call and the reading is lost. *)
Lemma C4_counterexample :
  fst (@Ingestion.insert_sensor_data sample_lib 0 sample_reading transient_failure)
  = Ok false
  /\ Ingestion.sp_calls
       (Ingestion.db_connection
          (snd (@Ingestion.insert_sensor_data sample_lib 0 sample_reading
                  transient_failure))) = 1%nat
  /\ Ingestion.t_medicao
       (Ingestion.committed
          (Ingestion.db_connection
             (snd (@Ingestion.insert_sensor_data sample_lib 0 sample_reading
                     transient_failure)))) = []
  /\ fst (@Ingestion.insert_sensor_data sample_lib 0 sample_reading
            (snd (@Ingestion.insert_sensor_data sample_lib 0 sample_reading
                    transient_failure)))
     = Ok true.
Proof. vm_compute. repeat split. Qed.

(* ================================================================= *)
(** ** Properties of the quality gate and the cycle *)

Section CycleProperties.
Context {L : PyLib}.
Variable aggregate_data_for_reporting : DataFrame -> list (string * DataFrame) * DataFrame.
Variable prediction_count : DataFrame -> Z.
Import Etl.

Local Abbreviation run_cycle := (run_etl_cycle aggregate_data_for_reporting prediction_count).
Local Abbreviation run_loop := (processing_loop aggregate_data_for_reporting prediction_count).

Lemma Qltb_tenth (k n : Z) :
  Qltb (inject_Z k) (inject_Z n * (1 # 10)) = (10 * k <? n)%Z.
Proof.
  unfold Qltb, Qle_bool, Qmult, inject_Z. simpl Qnum. simpl Qden.
  destruct (Z.leb_spec (n * 1 * 1) (k * 10)); destruct (Z.ltb_spec (10 * k) n);
    simpl; try reflexivity; lia.
Qed.

Lemma Qltb_fifth (n a : Z) :
  Qltb (inject_Z n * (2 # 10)) (inject_Z a) = (n <? 5 * a)%Z.
Proof.
  unfold Qltb, Qle_bool, Qmult, inject_Z. simpl Qnum. simpl Qden.
  destruct (Z.leb_spec (a * 10) (n * 2 * 1)); destruct (Z.ltb_spec n (5 * a));
    simpl; try reflexivity; lia.
Qed.

Lemma is_critical_exceeds_fifth (w : DataFrame) (c : DataQualityCheck) :
  is_critical w c = exceeds_fifth (len w) c.
Proof. unfold is_critical, exceeds_fifth. rewrite Qltb_fifth. reflexivity. Qed.

Lemma filter_existsb {A : Type} (f : A -> bool) (l : list A) :
  existsb f l = match filter f l with [] => false | _ :: _ => true end.
Proof.
  induction l as [| x l IH]; simpl; [reflexivity |].
  destruct (f x); simpl; [reflexivity | exact IH].
Qed.

Lemma existsb_ext_eq {A : Type} (f g : A -> bool) (l : list A) :
  (forall x, f x = g x) -> existsb f l = existsb g l.
Proof. intros H. induction l as [| x l IH]; simpl; [| rewrite H, IH]; reflexivity. Qed.

(** The checks never change the number of rows of the caller's frame. *)
Lemma quality_checks_nrows (ts now : datetime) (df : DataFrame) :
  nrows (snd (perform_data_quality_checks ts now df)) = nrows df.
Proof.
  unfold perform_data_quality_checks.
  destruct (check_temperature_range ts df); [| reflexivity].
  unfold check_future_timestamps.
  destruct (get_col "DATAHORA_MEDICAO" (columns df)); [| reflexivity].
  destruct (to_datetime c); reflexivity.
Qed.

Lemma stages_entered_app (t1 t2 : list event) :
  stages_entered (t1 ++ t2) = stages_entered t1 ++ stages_entered t2.
Proof. unfold stages_entered. apply flat_map_app. Qed.

(** One cycle on a window that is not empty, case by case. *)
Lemma run_etl_cycle_nonempty (i : CycleInput) (p : Pipeline) :
  df_empty (df_raw i) = false ->
  if window_rejected i
  then fst (run_cycle i p) = false
       /\ metrics (snd (run_cycle i p)) = add_error (metrics p)
       /\ stages_entered (trace (snd (run_cycle i p))) = stages_entered (trace p)
  else fst (run_cycle i p) = true
       /\ errors_count (metrics (snd (run_cycle i p))) = errors_count (metrics p)
       /\ pipeline_status (metrics (snd (run_cycle i p))) = pipeline_status (metrics p)
       /\ records_processed (metrics (snd (run_cycle i p)))
          = (records_processed (metrics p) + len (df_raw i))%Z
       /\ exists load,
            (load = [] \/ load = [Load])
            /\ stages_entered (trace (snd (run_cycle i p)))
               = stages_entered (trace p) ++ [Transform; Aggregate; Predict] ++ load ++ [Export].
Proof.
  intros Hne. unfold window_rejected, run_etl_cycle. rewrite Hne.
  pose proof (quality_checks_nrows (t_checks i) (t_future i) (df_raw i)) as Hrows.
  destruct (perform_data_quality_checks (t_checks i) (t_future i) (df_raw i))
    as [checks window]. simpl in Hrows. simpl fst.
  assert (Hlen : len window = len (df_raw i)) by (unfold len; rewrite Hrows; reflexivity).
  rewrite <- (existsb_ext_eq (is_critical window)
                (exceeds_fifth (len (df_raw i))) checks)
    by (intros c; rewrite is_critical_exceeds_fifth, Hlen; reflexivity).
  rewrite filter_existsb.
  destruct (filter (is_critical window) checks) as [| c cs].
  - destruct (aggregate_data_for_reporting (clean_and_transform_data window))
      as [aggregations df_clean].
    destruct aggregations as [| a rest]; simpl; rewrite Hlen;
      do 4 (split; [reflexivity |]).
    + exists []. split; [left; reflexivity |].
      rewrite !stages_entered_app. simpl. rewrite !app_nil_r, <- !app_assoc. reflexivity.
    + exists [Load]. split; [right; reflexivity |].
      rewrite !stages_entered_app. simpl. rewrite !app_nil_r, <- !app_assoc. reflexivity.
  - simpl. repeat split.
    rewrite !stages_entered_app. simpl. rewrite !app_nil_r. reflexivity.
Qed.

(** One cycle on an empty window: nothing runs, nothing is counted. *)
Lemma run_etl_cycle_empty (i : CycleInput) (p : Pipeline) :
  df_empty (df_raw i) = true ->
  fst (run_cycle i p) = true
  /\ metrics (snd (run_cycle i p)) = metrics p
  /\ stages_entered (trace (snd (run_cycle i p))) = stages_entered (trace p).
Proof.
  intros He. unfold run_etl_cycle. rewrite He. simpl. repeat split.
  rewrite !stages_entered_app. simpl. rewrite !app_nil_r. reflexivity.
Qed.

Lemma run_etl_cycle_keeps (i : CycleInput) (p : Pipeline) :
  pipeline_status (metrics (snd (run_cycle i p))) = pipeline_status (metrics p)
  /\ is_running (snd (run_cycle i p)) = is_running p
  /\ threads (snd (run_cycle i p)) = threads p.
Proof.
  unfold run_etl_cycle.
  destruct (df_empty (df_raw i)); [simpl; auto |].
  destruct (perform_data_quality_checks (t_checks i) (t_future i) (df_raw i))
    as [checks window].
  destruct (filter (is_critical window) checks) as [| c cs]; [| simpl; auto].
  destruct (aggregate_data_for_reporting (clean_and_transform_data window))
    as [aggregations df_clean].
  destruct aggregations; simpl; auto.
Qed.

Lemma processing_loop_keeps (inputs : list CycleInput) :
  forall p,
    pipeline_status (metrics (run_loop inputs p)) = pipeline_status (metrics p)
    /\ is_running (run_loop inputs p) = is_running p
    /\ threads (run_loop inputs p) = threads p.
Proof.
  induction inputs as [| i rest IH]; intros p; simpl; [auto |].
  destruct (is_running p) eqn:Hrun; [| auto].
  pose proof (run_etl_cycle_keeps i p) as (Hs & Hr & Ht).
  destruct (run_cycle i p) as [success p1]. simpl in *.
  destruct success.
  - destruct (IH p1) as (Hs' & Hr' & Ht'). repeat split; congruence.
  - destruct (IH (emit (Log WARNING "Ciclo ETL falhado, aguardando proximo ciclo") p1))
      as (Hs' & Hr' & Ht').
    simpl in *. repeat split; congruence.
Qed.

(** A rejected cycle inside the loop: one more error, the flag stays. *)
Lemma rejected_cycle_counts (i : CycleInput) (rest : list CycleInput) (p : Pipeline) :
  is_running p = true -> df_empty (df_raw i) = false -> window_rejected i = true ->
  exists p1,
    run_loop (i :: rest) p = run_loop rest p1
    /\ is_running p1 = true
    /\ metrics p1 = add_error (metrics p).
Proof.
  intros Hrun Hne Hrej. simpl. rewrite Hrun.
  pose proof (run_etl_cycle_nonempty i p Hne) as H. rewrite Hrej in H.
  destruct H as (Hf & Hm & _).
  pose proof (run_etl_cycle_keeps i p) as (_ & Hr & _).
  destruct (run_cycle i p) as [success p1]. simpl in *. subst success.
  eexists. split; [reflexivity |]. simpl. split; congruence.
Qed.

End CycleProperties.

Section CycleClaims.
Context {L : PyLib}.
Variable aggregate_data_for_reporting : DataFrame -> list (string * DataFrame) * DataFrame.
Variable prediction_count : DataFrame -> Z.
Import Etl.

Local Abbreviation run_cycle := (run_etl_cycle aggregate_data_for_reporting prediction_count).
Local Abbreviation run_loop := (processing_loop aggregate_data_for_reporting prediction_count).

Lemma rejects_inv (i : CycleInput) :
  rejects i = true -> df_empty (df_raw i) = false /\ window_rejected i = true.
Proof.
  unfold rejects. intros H. apply andb_true_iff in H. destruct H as [H1 H2].
  apply negb_true_iff in H1. auto.
Qed.

(** C2 (as amended).  No cycle touches the pipeline status.  Three
    consecutive cycles rejected by the quality gate add three to
    [errors_count] and leave a RUNNING pipeline RUNNING, and so do the
    cycles that follow, whatever their outcome: the status changes in
    [start] and [stop] only. *)
Theorem C2_rejected_cycles_keep_status (i1 i2 i3 : CycleInput)
  (later : list CycleInput) (p : Pipeline) :
  is_running p = true ->
  pipeline_status (metrics p) = "RUNNING"%string ->
  rejects i1 = true -> rejects i2 = true -> rejects i3 = true ->
  errors_count (metrics (run_loop [i1; i2; i3] p)) = (errors_count (metrics p) + 3)%Z
  /\ pipeline_status (metrics (run_loop [i1; i2; i3] p)) = "RUNNING"%string
  /\ pipeline_status (metrics (run_loop ([i1; i2; i3] ++ later) p)) = "RUNNING"%string.
Proof.
  intros Hrun Hst H1 H2 H3.
  apply rejects_inv in H1, H2, H3.
  destruct H1 as [E1 R1], H2 as [E2 R2], H3 as [E3 R3].
  split; [| split].
  - destruct (rejected_cycle_counts aggregate_data_for_reporting prediction_count
                i1 [i2; i3] p Hrun E1 R1) as (p1 & -> & Hr1 & Hm1).
    destruct (rejected_cycle_counts aggregate_data_for_reporting prediction_count
                i2 [i3] p1 Hr1 E2 R2) as (p2 & -> & Hr2 & Hm2).
    destruct (rejected_cycle_counts aggregate_data_for_reporting prediction_count
                i3 [] p2 Hr2 E3 R3) as (p3 & -> & Hr3 & Hm3).
    simpl. rewrite Hm3, Hm2, Hm1. simpl. lia.
  - rewrite (proj1 (processing_loop_keeps aggregate_data_for_reporting prediction_count
                      [i1; i2; i3] p)).
    exact Hst.
  - rewrite (proj1 (processing_loop_keeps aggregate_data_for_reporting prediction_count
                      ([i1; i2; i3] ++ later) p)).
    exact Hst.
Qed.

(** C5 (as amended).  On a window that is not empty the cycle is aborted
    (it returns [False], [errors_count] goes up by one, no stage after
    the gate is entered, [records_processed] stays) exactly when some
    check failed with more affected records than a fifth of the window;
    otherwise it returns [True] after the transform, the aggregation,
    the predictions, the load when there is a view to load, and the
    export, and adds the size of the window to [records_processed]. *)
Theorem C5_abort_iff_critical_check (i : CycleInput) (p : Pipeline) :
  df_empty (df_raw i) = false ->
  if window_rejected i
  then fst (run_cycle i p) = false
       /\ errors_count (metrics (snd (run_cycle i p))) = (errors_count (metrics p) + 1)%Z
       /\ records_processed (metrics (snd (run_cycle i p))) = records_processed (metrics p)
       /\ stages_entered (trace (snd (run_cycle i p))) = stages_entered (trace p)
  else fst (run_cycle i p) = true
       /\ errors_count (metrics (snd (run_cycle i p))) = errors_count (metrics p)
       /\ records_processed (metrics (snd (run_cycle i p)))
          = (records_processed (metrics p) + len (df_raw i))%Z
       /\ exists load,
            (load = [] \/ load = [Load])
            /\ stages_entered (trace (snd (run_cycle i p)))
               = stages_entered (trace p) ++ [Transform; Aggregate; Predict] ++ load ++ [Export].
Proof.
  intros Hne.
  pose proof (run_etl_cycle_nonempty aggregate_data_for_reporting prediction_count
                i p Hne) as H.
  destruct (window_rejected i).
  - destruct H as (Hf & Hm & Ht). rewrite Hm. simpl. auto.
  - destruct H as (Hf & He & _ & Hr & Hl). auto.
Qed.

Lemma isnull_sum_sum_app (n : nat) (a b : list (string * column)) :
  isnull_sum_sum {| nrows := n; columns := a ++ b |}
  = (isnull_sum_sum {| nrows := n; columns := a |}
     + isnull_sum_sum {| nrows := n; columns := b |})%Z.
Proof.
  unfold isnull_sum_sum. simpl. induction a as [| x a IH]; simpl; [reflexivity |].
  rewrite IH. lia.
Qed.

Lemma isnull_sum_sum_zero (n : nat) (a : list (string * column)) :
  Forall (fun nc => col_nulls (snd nc) = 0%Z) a ->
  isnull_sum_sum {| nrows := n; columns := a |} = 0%Z.
Proof.
  unfold isnull_sum_sum. simpl. induction 1 as [| x a Hx _ IH]; simpl; [reflexivity |].
  rewrite Hx, IH. reflexivity.
Qed.

Lemma one_null_channel_total (df : DataFrame) (k : Z) :
  one_null_channel df k -> isnull_sum_sum df = k /\ columns df <> [].
Proof.
  intros (pre & name & c & post & Hcols & Hk & Hrest).
  apply Forall_app in Hrest. destruct Hrest as [Hpre Hpost].
  split.
  - destruct df as [n cols]. simpl in Hcols. subst cols.
    rewrite isnull_sum_sum_app.
    change ((name, c) :: post) with ([(name, c)] ++ post).
    rewrite isnull_sum_sum_app.
    rewrite (isnull_sum_sum_zero n pre Hpre), (isnull_sum_sum_zero n post Hpost).
    unfold isnull_sum_sum. simpl. lia.
  - rewrite Hcols. destruct pre; discriminate.
Qed.

Lemma quality_checks_head (ts now : datetime) (df : DataFrame) :
  exists rest,
    fst (perform_data_quality_checks ts now df) = check_null_values ts df :: rest.
Proof.
  unfold perform_data_quality_checks.
  destruct (check_temperature_range ts df) as [c2 | e]; [| eexists; reflexivity].
  destruct (check_future_timestamps ts now df) as [[c4 df'] | e]; eexists; reflexivity.
Qed.

(** C8.  In a window where one channel alone holds nulls, in exactly 15%
    of the rows, and every other check passes, the null-ratio check
    fails (15% is not below its 10% threshold) and reports those rows,
    the window is not rejected (15% is not above 20%), and the cycle
    goes on through transform, aggregation and export and returns
    [True]. *)
Theorem C8_fifteen_percent_nulls_flagged_not_rejected (i : CycleInput) (p : Pipeline)
  (k : Z) :
  (0 < len (df_raw i))%Z ->
  one_null_channel (df_raw i) k ->
  (100 * k = 15 * len (df_raw i))%Z ->
  forallb passed
    (tl (fst (perform_data_quality_checks (t_checks i) (t_future i) (df_raw i)))) = true ->
  (exists c rest,
      fst (perform_data_quality_checks (t_checks i) (t_future i) (df_raw i)) = c :: rest
      /\ check_name c = "NULL_VALUES"%string
      /\ passed c = false
      /\ affected_records c = k)
  /\ window_rejected i = false
  /\ fst (run_cycle i p) = true
  /\ errors_count (metrics (snd (run_cycle i p))) = errors_count (metrics p)
  /\ exists load,
       (load = [] \/ load = [Load])
       /\ stages_entered (trace (snd (run_cycle i p)))
          = stages_entered (trace p) ++ [Transform; Aggregate; Predict] ++ load ++ [Export].
Proof.
  intros Hpos Hone Hk Hothers.
  destruct (one_null_channel_total _ _ Hone) as [Hnull Hcols].
  destruct (quality_checks_head (t_checks i) (t_future i) (df_raw i)) as [rest Hhead].
  assert (Hpassed : passed (check_null_values (t_checks i) (df_raw i)) = false).
  { unfold check_null_values. cbn [passed]. rewrite Qltb_tenth, Hnull.
    apply Z.ltb_ge. lia. }
  assert (Hrej : window_rejected i = false).
  { unfold window_rejected. rewrite Hhead. rewrite Hhead in Hothers.
    cbn [tl] in Hothers. cbn [existsb].
    apply orb_false_iff. split.
    - unfold exceeds_fifth, check_null_values. cbn [passed affected_records].
      rewrite Hnull. apply andb_false_iff. right. apply Z.ltb_ge. lia.
    - clear Hhead. induction rest as [| c cs IH]; [reflexivity |].
      cbn [existsb forallb] in *.
      apply andb_true_iff in Hothers. destruct Hothers as [Hc Hcs].
      unfold exceeds_fifth at 1. rewrite Hc. cbn [negb andb orb]. apply IH. exact Hcs. }
  assert (Hne : df_empty (df_raw i) = false).
  { unfold df_empty. apply orb_false_iff. split.
    - apply Nat.eqb_neq. unfold len in Hpos. lia.
    - destruct (columns (df_raw i)); [congruence | reflexivity]. }
  pose proof (run_etl_cycle_nonempty aggregate_data_for_reporting prediction_count
                i p Hne) as H.
  rewrite Hrej in H. destruct H as (Hf & He & _ & _ & Hl).
  split; [| auto].
  exists (check_null_values (t_checks i) (df_raw i)), rest.
  split; [exact Hhead |]. split; [reflexivity |]. split; [exact Hpassed |].
  exact Hnull.
Qed.

(** C10 (as amended).  On a frame with a DATAHORA_MEDICAO column the
    checks hand back the caller's frame with that column replaced by its
    conversion to datetime, provided the range check before it did not
    raise and the conversion itself succeeds; when either raises, the
    frame comes back as it was given. *)
Theorem C10_checks_reassign_timestamp_column (ts now : datetime) (df : DataFrame)
  (c : column) :
  get_col "DATAHORA_MEDICAO" (columns df) = Some c ->
  snd (perform_data_quality_checks ts now df)
  = match check_temperature_range ts df, to_datetime c with
    | Ok _, Ok c' => set_col "DATAHORA_MEDICAO" c' df
    | _, _ => df
    end.
Proof.
  intros Hc. unfold perform_data_quality_checks, check_future_timestamps.
  rewrite Hc.
  destruct (check_temperature_range ts df); [| reflexivity].
  destruct (to_datetime c); reflexivity.
Qed.

End CycleClaims.

(** C9 (as amended).  Calling [start] on a pipeline whose status is
    RUNNING is not an error and leaves the status and every metric as
    they were, but it is not a no-op: when the store is reached it sets
    the start time anew and starts one more processing loop and one more
    monitoring loop; when the store is not reached it returns [False]
    and starts nothing. *)
Theorem C9_start_while_running_starts_more_loops (now : datetime) (connected : bool)
  (p : Etl.Pipeline) :
  Etl.pipeline_status (Etl.metrics p) = "RUNNING"%string ->
  Etl.metrics (snd (Etl.start now connected p)) = Etl.metrics p
  /\ Etl.start_time (snd (Etl.start now connected p)) = Some now
  /\ fst (Etl.start now connected p) = connected
  /\ Etl.threads (snd (Etl.start now connected p))
     = Etl.threads p
       ++ (if connected
           then [Etl.processing_loop_target; Etl.monitoring_loop_target]
           else []).
Proof.
  intros Hst. unfold Etl.start.
  destruct connected; simpl.
  - repeat split. unfold Etl.set_status. rewrite <- Hst.
    destruct (Etl.metrics p). reflexivity.
  - repeat split. rewrite app_nil_r. reflexivity.
Qed.

(** C2, witness: three cycles on the overheated window. *)
Lemma C2_rejected_cycles_witness :
  Etl.errors_count
    (Etl.metrics
       (@Etl.processing_loop sample_lib sample_aggregate sample_prediction_count
          [cycle_on overheated_window; cycle_on overheated_window;
           cycle_on overheated_window] running_pipeline))
  = (Etl.errors_count (Etl.metrics running_pipeline) + 3)%Z
  /\ Etl.pipeline_status
       (Etl.metrics
          (@Etl.processing_loop sample_lib sample_aggregate sample_prediction_count
             [cycle_on overheated_window; cycle_on overheated_window;
              cycle_on overheated_window] running_pipeline))
     = "RUNNING"%string
  /\ Etl.pipeline_status
       (Etl.metrics
          (@Etl.processing_loop sample_lib sample_aggregate sample_prediction_count
             ([cycle_on overheated_window; cycle_on overheated_window;
               cycle_on overheated_window] ++ [cycle_on gappy_window])
             running_pipeline))
     = "RUNNING"%string.
Proof.
  apply (@C2_rejected_cycles_keep_status sample_lib sample_aggregate
           sample_prediction_count); vm_compute; reflexivity.
Defined.

(** C2, counterexample: after three consecutive rejected cycles the
    status of a running pipeline is not DEGRADED. *)
Lemma C2_counterexample :
  @rejects sample_lib (cycle_on overheated_window) = true
  /\ Etl.pipeline_status (Etl.metrics running_pipeline) = "RUNNING"%string
  /\ Etl.pipeline_status
       (Etl.metrics
          (@Etl.processing_loop sample_lib sample_aggregate sample_prediction_count
             [cycle_on overheated_window; cycle_on overheated_window;
              cycle_on overheated_window] running_pipeline))
     <> "DEGRADED"%string.
Proof. vm_compute. repeat split; discriminate. Qed.

(** C5, witness: the overheated window is rejected. *)
Lemma C5_abort_witness :
  fst (@Etl.run_etl_cycle sample_lib sample_aggregate sample_prediction_count
         (cycle_on overheated_window) running_pipeline) = false
  /\ Etl.errors_count
       (Etl.metrics
          (snd (@Etl.run_etl_cycle sample_lib sample_aggregate sample_prediction_count
                  (cycle_on overheated_window) running_pipeline)))
     = (Etl.errors_count (Etl.metrics running_pipeline) + 1)%Z
  /\ Etl.records_processed
       (Etl.metrics
          (snd (@Etl.run_etl_cycle sample_lib sample_aggregate sample_prediction_count
                  (cycle_on overheated_window) running_pipeline)))
     = Etl.records_processed (Etl.metrics running_pipeline)
  /\ stages_entered
       (Etl.trace
          (snd (@Etl.run_etl_cycle sample_lib sample_aggregate sample_prediction_count
                  (cycle_on overheated_window) running_pipeline)))
     = stages_entered (Etl.trace running_pipeline).
Proof.
  exact (@C5_abort_iff_critical_check sample_lib sample_aggregate
           sample_prediction_count (cycle_on overheated_window) running_pipeline
           eq_refl).
Defined.

(** C5, counterexample: on an empty window no check is critical, and yet
    the cycle enters neither transform nor aggregation nor export. *)
Lemma C5_counterexample :
  @window_rejected sample_lib (cycle_on empty_window) = false
  /\ fst (@Etl.run_etl_cycle sample_lib sample_aggregate sample_prediction_count
            (cycle_on empty_window) running_pipeline) = true
  /\ stages_entered
       (Etl.trace
          (snd (@Etl.run_etl_cycle sample_lib sample_aggregate sample_prediction_count
                  (cycle_on empty_window) running_pipeline)))
     = [].
Proof. vm_compute. repeat split. Qed.

Lemma gappy_window_one_null_channel : one_null_channel gappy_window 3.
Proof.
  exists [("ID_MEDICAO"%string, ColNum (map (fun n => Some (inject_Z (Z.of_nat n))) (seq 1 20)));
          ("VL_TEMPERATURA"%string, ColNum (repeat (Some 70) 20))],
         "VL_PRESSAO"%string,
         (ColNum (repeat None 3 ++ repeat (Some 1013) 17)),
         [("DATAHORA_MEDICAO"%string,
           ColTime (map (fun n => Some (Z.of_nat n)) (seq 100 20)))].
  split; [reflexivity |]. split; [reflexivity |].
  repeat constructor.
Defined.

(** C8, witness: three nulls in twenty rows. *)
Lemma C8_fifteen_percent_witness :
  (exists c rest,
      fst (@Etl.perform_data_quality_checks sample_lib 2000000000 2000000000 gappy_window)
      = c :: rest
      /\ Etl.check_name c = "NULL_VALUES"%string
      /\ Etl.passed c = false
      /\ Etl.affected_records c = 3%Z)
  /\ @window_rejected sample_lib (cycle_on gappy_window) = false
  /\ fst (@Etl.run_etl_cycle sample_lib sample_aggregate sample_prediction_count
            (cycle_on gappy_window) running_pipeline) = true
  /\ Etl.errors_count
       (Etl.metrics
          (snd (@Etl.run_etl_cycle sample_lib sample_aggregate sample_prediction_count
                  (cycle_on gappy_window) running_pipeline)))
     = Etl.errors_count (Etl.metrics running_pipeline)
  /\ exists load,
       (load = [] \/ load = [Etl.Load])
       /\ stages_entered
            (Etl.trace
               (snd (@Etl.run_etl_cycle sample_lib sample_aggregate
                       sample_prediction_count (cycle_on gappy_window)
                       running_pipeline)))
          = stages_entered (Etl.trace running_pipeline)
            ++ [Etl.Transform; Etl.Aggregate; Etl.Predict] ++ load ++ [Etl.Export].
Proof.
  apply (@C8_fifteen_percent_nulls_flagged_not_rejected sample_lib sample_aggregate
           sample_prediction_count (cycle_on gappy_window) running_pipeline 3).
  - reflexivity.
  - exact gappy_window_one_null_channel.
  - reflexivity.
  - vm_compute. reflexivity.
Defined.

(** C9, witness: a second [start] on the running pipeline. *)
Lemma C9_start_while_running_witness :
  Etl.metrics (snd (Etl.start 2000000000 true running_pipeline))
  = Etl.metrics running_pipeline
  /\ Etl.start_time (snd (Etl.start 2000000000 true running_pipeline))
     = Some 2000000000%Z
  /\ fst (Etl.start 2000000000 true running_pipeline) = true
  /\ Etl.threads (snd (Etl.start 2000000000 true running_pipeline))
     = Etl.threads running_pipeline
       ++ [Etl.processing_loop_target; Etl.monitoring_loop_target].
Proof.
  exact (C9_start_while_running_starts_more_loops 2000000000 true running_pipeline
           eq_refl).
Defined.

(** C9, counterexample: [start] on a RUNNING pipeline changes it; four
    loops run where two did. *)
Lemma C9_counterexample :
  Etl.pipeline_status (Etl.metrics running_pipeline) = "RUNNING"%string
  /\ List.length (Etl.threads running_pipeline) = 2%nat
  /\ List.length (Etl.threads (snd (Etl.start 2000000000 true running_pipeline))) = 4%nat
  /\ snd (Etl.start 2000000000 true running_pipeline) <> running_pipeline.
Proof.
  repeat split. intros H.
  apply (f_equal (fun p => List.length (Etl.threads p))) in H.
  vm_compute in H. discriminate.
Qed.

(** C10, witness: timestamps held as text become datetimes in the
    caller's frame. *)
Lemma C10_reassign_witness :
  snd (@Etl.perform_data_quality_checks sample_lib 2000000000 2000000000
         text_dates_window)
  = set_col "DATAHORA_MEDICAO" (ColTime [Some 1704153600%Z; Some 1704067200%Z])
      text_dates_window.
Proof.
  exact (@C10_checks_reassign_timestamp_column sample_lib 2000000000 2000000000
           text_dates_window
           (ColObj [Some "2024-01-02"%string; Some "2024-01-01"%string]) eq_refl).
Defined.

(** C10, counterexample: the frame has a DATAHORA_MEDICAO column, the
    range check raises on a temperature column that holds text, and the
    frame comes back with its timestamps unconverted. *)
Lemma C10_counterexample :
  has_col "DATAHORA_MEDICAO" text_temperature_window = true
  /\ snd (@Etl.perform_data_quality_checks sample_lib 2000000000 2000000000
            text_temperature_window)
     = text_temperature_window
  /\ get_col "DATAHORA_MEDICAO"
       (columns (snd (@Etl.perform_data_quality_checks sample_lib 2000000000
                        2000000000 text_temperature_window)))
     = Some (ColObj [Some "2024-01-02"%string; Some "2024-01-01"%string])
  /\ map Etl.check_name
       (fst (@Etl.perform_data_quality_checks sample_lib 2000000000 2000000000
               text_temperature_window))
     = ["NULL_VALUES"; "QUALITY_CHECK_ERROR"]%string.
Proof. vm_compute. repeat split. Qed.

(* ================================================================= *)
(** ** Properties of the transform *)

Section Sorting.
Variable A : Type.
Variable leb : A -> A -> bool.
Hypothesis leb_total : forall x y, leb x y = false -> leb y x = true.
Hypothesis leb_trans : forall x y z, leb x y = true -> leb y z = true -> leb x z = true.

Lemma leb_refl (x : A) : leb x x = true.
Proof.
  destruct (leb x x) eqn:H; [reflexivity |].
  rewrite <- H. exact (leb_total _ _ H).
Qed.

Lemma insert_by_perm (x : A) (l : list A) : Permutation (insert_by leb x l) (x :: l).
Proof.
  induction l as [| y l IH]; simpl; [reflexivity |].
  destruct (leb x y); [reflexivity |].
  rewrite IH. apply perm_swap.
Qed.

Lemma isort_perm (l : list A) : Permutation (isort leb l) l.
Proof.
  induction l as [| x l IH]; simpl; [reflexivity |].
  rewrite insert_by_perm. constructor. exact IH.
Qed.

Lemma isort_length (l : list A) : List.length (isort leb l) = List.length l.
Proof. apply Permutation_length, isort_perm. Qed.

Lemma insert_by_sorted (x : A) (l : list A) :
  StronglySorted (le_of leb) l -> StronglySorted (le_of leb) (insert_by leb x l).
Proof.
  induction 1 as [| y l Hs IH Hy]; simpl.
  - repeat constructor.
  - destruct (leb x y) eqn:Hxy.
    + constructor; [constructor; assumption |].
      constructor; [exact Hxy |].
      eapply Forall_impl; [| exact Hy]. intros z Hz. exact (leb_trans _ _ _ Hxy Hz).
    + constructor; [exact IH |].
      eapply Permutation_Forall.
      * symmetry. apply insert_by_perm.
      * constructor; [exact (leb_total _ _ Hxy) | exact Hy].
Qed.

Lemma isort_sorted (l : list A) : StronglySorted (le_of leb) (isort leb l).
Proof.
  induction l as [| x l IH]; simpl; [constructor | apply insert_by_sorted, IH].
Qed.

(** In a sorted list the cells come in order of their positions. *)
Lemma sorted_nth (l : list A) :
  StronglySorted (le_of leb) l ->
  forall (i j : nat) (d d' : A),
    (i <= j)%nat -> (j < List.length l)%nat -> le_of leb (nth i l d) (nth j l d').
Proof.
  induction 1 as [| x l Hs IH Hx]; intros i j d d' Hij Hj; simpl in Hj; [lia |].
  destruct i as [| i], j as [| j]; simpl; try lia.
  - apply leb_refl.
  - rewrite Forall_forall in Hx. apply Hx, nth_In. lia.
  - apply IH; lia.
Qed.

End Sorting.

Lemma Qle_bool_total (x y : Q) : Qle_bool x y = false -> Qle_bool y x = true.
Proof.
  intros H. apply Qle_bool_iff.
  destruct (Qlt_le_dec y x) as [Hlt | Hle].
  - apply Qlt_le_weak, Hlt.
  - apply Qle_bool_iff in Hle. congruence.
Qed.

Lemma Qle_bool_trans (x y z : Q) :
  Qle_bool x y = true -> Qle_bool y z = true -> Qle_bool x z = true.
Proof.
  rewrite !Qle_bool_iff. apply Qle_trans.
Qed.

Lemma Qltb_lt (a b : Q) : Qltb a b = true <-> a < b.
Proof.
  unfold Qltb. rewrite negb_true_iff. split.
  - intros H. apply Qnot_le_lt. intros Hle. apply Qle_bool_iff in Hle. congruence.
  - intros H. destruct (Qle_bool b a) eqn:E; [| reflexivity].
    apply Qle_bool_iff in E. exfalso. exact (Qlt_not_le _ _ H E).
Qed.

Lemma Qltb_ge (a b : Q) : Qltb a b = false <-> b <= a.
Proof.
  unfold Qltb. rewrite negb_false_iff. apply Qle_bool_iff.
Qed.

Lemma order_statistics_nth (xs : list (option Q)) (i j : nat) (d d' : Q) :
  (i <= j)%nat -> (j < List.length (order_statistics xs))%nat ->
  nth i (order_statistics xs) d <= nth j (order_statistics xs) d'.
Proof.
  intros Hij Hj. apply Qle_bool_iff.
  apply (sorted_nth Q Qle_bool Qle_bool_total); try assumption.
  apply isort_sorted; [exact Qle_bool_total | exact Qle_bool_trans].
Qed.

Lemma floor_bounds (p : Q) (m : Z) :
  0 <= p -> p <= inject_Z m ->
  (0 <= Qfloor p <= m)%Z /\ 0 <= p - inject_Z (Qfloor p) /\ p - inject_Z (Qfloor p) < 1.
Proof.
  intros H0 Hm. split; [split |].
  - exact (Qfloor_resp_le _ _ H0).
  - pose proof (Qfloor_resp_le _ _ Hm) as H. rewrite Qfloor_Z in H. exact H.
  - pose proof (Qfloor_le p). pose proof (Qlt_floor p) as Hlt.
    rewrite inject_Z_plus in Hlt. change (inject_Z 1) with 1 in Hlt. split; lra.
Qed.

(** Over sorted cells the interpolated value grows with the position. *)
Lemma interpolate_mono (v : list Q) (d d' : Q) (p p' : Q) :
  (forall i j e e', (i <= j)%nat -> (j < List.length v)%nat -> nth i v e <= nth j v e') ->
  v <> [] ->
  0 <= p -> p <= p' -> p' <= inject_Z (Z.of_nat (List.length v) - 1) ->
  interpolate v d p <= interpolate v d' p'.
Proof.
  intros Hsorted Hne H0 Hpp Hm.
  assert (Hn : (0 < List.length v)%nat) by (destruct v; [congruence | simpl; lia]).
  set (m := (Z.of_nat (List.length v) - 1)%Z) in *.
  destruct (floor_bounds p m H0 ltac:(lra)) as ([Hlo0 Hlom] & Hf0 & Hf1).
  destruct (floor_bounds p' m ltac:(lra) Hm) as ([Hlo0' Hlom'] & Hf0' & Hf1').
  pose proof (Qfloor_resp_le _ _ Hpp) as Hlole.
  unfold interpolate.
  set (lo := Qfloor p) in *. set (lo' := Qfloor p') in *.
  set (f := p - inject_Z lo) in *. set (f' := p' - inject_Z lo') in *.
  assert (Hab : forall l e, (0 <= l <= m)%Z ->
                  nth (Z.to_nat l) v e <= nth (Z.to_nat (l + 1)) v (nth (Z.to_nat l) v e)).
  { intros l e Hl.
    destruct (Z_lt_le_dec (l + 1) (Z.of_nat (List.length v))) as [Hin | Hout].
    - apply Hsorted; lia.
    - rewrite (nth_overflow v (n := Z.to_nat (l + 1))) by lia. apply Qle_refl. }
  pose proof (Hab lo d ltac:(lia)) as Hab1.
  pose proof (Hab lo' d' ltac:(lia)) as Hab2.
  destruct (Z.eq_dec lo lo') as [Heq | Hneq].
  - rewrite <- Heq in *.
    assert (Hd : nth (Z.to_nat lo) v d' = nth (Z.to_nat lo) v d) by (apply nth_indep; lia).
    rewrite Hd in *.
    assert (Hff : f <= f') by (unfold f, f'; rewrite <- Heq; lra).
    set (a := nth (Z.to_nat lo) v d) in *.
    set (b := nth (Z.to_nat (lo + 1)) v a) in *.
    nra.
  - assert (Hlt : (lo + 1 <= lo')%Z) by lia.
    assert (Hb : nth (Z.to_nat (lo + 1)) v (nth (Z.to_nat lo) v d) <= nth (Z.to_nat lo') v d').
    { apply Hsorted; lia. }
    set (a := nth (Z.to_nat lo) v d) in *.
    set (b := nth (Z.to_nat (lo + 1)) v a) in *.
    set (a' := nth (Z.to_nat lo') v d') in *.
    set (b' := nth (Z.to_nat (lo' + 1)) v a') in *.
    nra.
Qed.

(** The first quartile is not above the third. *)
Lemma quartiles_ordered (xs : list (option Q)) (q1 q3 : Q) :
  quantile (1 # 4) xs = Some q1 -> quantile (3 # 4) xs = Some q3 -> q1 <= q3.
Proof.
  unfold quantile.
  destruct (order_statistics xs) as [| d rest] eqn:Hv; [discriminate |].
  rewrite <- Hv. intros H1 H3. inversion H1. inversion H3.
  assert (Hm : 0 <= inject_Z (Z.of_nat (List.length (order_statistics xs)) - 1)).
  { rewrite Hv. simpl List.length. change 0 with (inject_Z 0). rewrite <- Zle_Qle. lia. }
  apply interpolate_mono.
  - intros i j e e'. apply order_statistics_nth.
  - rewrite Hv. discriminate.
  - lra.
  - lra.
  - lra.
Qed.

Lemma outlier_bounds_ordered (xs : list (option Q)) (lower upper : Q) :
  Etl.outlier_bounds xs = Some (lower, upper) -> lower <= upper.
Proof.
  unfold Etl.outlier_bounds.
  destruct (quantile (1 # 4) xs) as [q1 |] eqn:H1; [| discriminate].
  destruct (quantile (3 # 4) xs) as [q3 |] eqn:H3; [| discriminate].
  intros H. inversion H.
  pose proof (quartiles_ordered xs q1 q3 H1 H3). lra.
Qed.

(** [np.clip] on one cell, for bounds in order. *)
Lemma clip_spec (lower upper v : Q) :
  lower <= upper ->
  lower <= clip lower upper v /\ clip lower upper v <= upper
  /\ (lower <= v -> v <= upper -> clip lower upper v = v)
  /\ (v < lower -> clip lower upper v = lower)
  /\ (upper < v -> clip lower upper v = upper).
Proof.
  intros Hlu. unfold clip, Qmin, Qmax, GenericMinMax.gmin, GenericMinMax.gmax.
  destruct (Qcompare_spec v lower) as [Hvl | Hvl | Hvl];
    [destruct (Qcompare_spec v upper) as [Hvu | Hvu | Hvu]
    | destruct (Qcompare_spec lower upper) as [Hvu | Hvu | Hvu]
    | destruct (Qcompare_spec v upper) as [Hvu | Hvu | Hvu]];
    repeat split; intros; try reflexivity; try lra.
Qed.

Lemma count_if_zero {A : Type} (f : A -> bool) (xs : list A) :
  (0 <? count_if f xs)%Z = false -> Forall (fun x => f x = false) xs.
Proof.
  unfold count_if. intros H. apply Z.ltb_ge in H.
  induction xs as [| x xs IH]; [constructor |].
  simpl in H. destruct (f x) eqn:Hfx; simpl in H; [lia |].
  constructor; [exact Hfx | apply IH; exact H].
Qed.

Lemma clip_outliers_length (xs : list (option Q)) :
  List.length (Etl.clip_outliers xs) = List.length xs.
Proof.
  unfold Etl.clip_outliers.
  destruct (Etl.outlier_bounds xs) as [[lower upper] |]; [| reflexivity].
  destruct (0 <? _)%Z; [apply length_map | reflexivity].
Qed.

(** Step 2 on one column, cell by cell. *)
Lemma clip_outliers_cells (xs : list (option Q)) (lower upper : Q) :
  Etl.outlier_bounds xs = Some (lower, upper) ->
  Forall2 (clipped_to lower upper) xs (Etl.clip_outliers xs).
Proof.
  intros Hb. pose proof (outlier_bounds_ordered xs lower upper Hb) as Hlu.
  unfold Etl.clip_outliers. rewrite Hb.
  destruct (0 <? _)%Z eqn:Hcount.
  - clear Hcount Hb. induction xs as [| o xs IH]; simpl; constructor; [| exact IH].
    destruct o as [v |]; simpl; [| exact I].
    exact (clip_spec lower upper v Hlu).
  - apply count_if_zero in Hcount. clear Hb.
    induction Hcount as [| o xs Ho _ IH]; constructor; [| exact IH].
    destruct o as [v |]; simpl; [| exact I].
    simpl in Ho. apply orb_false_iff in Ho. destruct Ho as [H1 H2].
    apply Qltb_ge in H1, H2.
    repeat split; try assumption; try reflexivity; intros; lra.
Qed.

Lemma clipped_to_within (lower upper : Q) (xs ys : list (option Q)) :
  Forall2 (clipped_to lower upper) xs ys -> Forall (within lower upper) ys.
Proof.
  induction 1 as [| o o' xs ys Ho _ IH]; constructor; [| exact IH].
  destruct o as [v |], o' as [v' |]; simpl in *; try tauto.
Qed.

(** Without a cell to read the quartiles from, the column is left alone. *)
Lemma clip_outliers_no_bounds (xs : list (option Q)) :
  Etl.outlier_bounds xs = None ->
  Etl.clip_outliers xs = xs /\ Forall (fun o => o = None) xs.
Proof.
  intros Hb. split; [unfold Etl.clip_outliers; rewrite Hb; reflexivity |].
  assert (Hos : order_statistics xs = []).
  { unfold Etl.outlier_bounds, quantile in Hb.
    destruct (order_statistics xs); [reflexivity | discriminate]. }
  assert (Hd : dropna xs = []).
  { apply length_zero_iff_nil. unfold order_statistics in Hos.
    rewrite <- (isort_length Q Qle_bool). rewrite Hos. reflexivity. }
  clear Hb Hos. induction xs as [| o xs IH]; constructor.
  - destruct o; [discriminate | reflexivity].
  - apply IH. destruct o; [discriminate | exact Hd].
Qed.

(* ----------------------------------------------------------------- *)
(** *** Rows and columns through the transform *)

Lemma get_col_In (name : string) (cols : list (string * column)) (c : column) :
  get_col name cols = Some c -> exists n, In (n, c) cols.
Proof.
  induction cols as [| [n c'] cols IH]; simpl; [discriminate |].
  destruct (String.eqb name n).
  - intros H. inversion H; subst. exists n. left. reflexivity.
  - intros H. destruct (IH H) as [n' Hin]. exists n'. right. exact Hin.
Qed.

Lemma get_col_len (name : string) (df : DataFrame) (c : column) :
  well_formed df -> get_col name (columns df) = Some c -> col_len c = nrows df.
Proof.
  intros Hwf Hc. destruct (get_col_In _ _ _ Hc) as [n Hin].
  unfold well_formed in Hwf. rewrite Forall_forall in Hwf.
  exact (Hwf _ Hin).
Qed.

Lemma assign_Forall (P : string * column -> Prop) (name : string) (c : column)
  (cols : list (string * column)) :
  (forall n, P (n, c)) -> Forall P cols -> Forall P (assign name c cols).
Proof.
  intros Hc. induction 1 as [| [n c'] cols Hx Hrest IH]; simpl.
  - constructor; [apply Hc | constructor].
  - destruct (String.eqb name n); constructor; auto.
Qed.

Lemma set_col_shape (name : string) (c : column) (df : DataFrame) :
  well_formed df -> col_len c = nrows df -> same_shape df (set_col name c df).
Proof.
  intros Hwf Hc. split; [reflexivity |].
  unfold well_formed, set_col. simpl.
  apply assign_Forall; [intros n; exact Hc | exact Hwf].
Qed.

Lemma same_shape_refl (df : DataFrame) : well_formed df -> same_shape df df.
Proof. intros H. split; [reflexivity | exact H]. Qed.

Lemma same_shape_trans (a b c : DataFrame) :
  same_shape a b -> same_shape b c -> same_shape a c.
Proof. unfold same_shape. intros [H1 H2] [H3 H4]. split; [congruence | exact H4]. Qed.

Lemma fillna_length {A : Type} (v : option A) (xs : list (option A)) :
  List.length (fillna v xs) = List.length xs.
Proof. apply length_map. Qed.

Lemma fill_nulls_shape (df : DataFrame) : well_formed df -> same_shape df (Etl.fill_nulls df).
Proof.
  intros Hwf. split; [reflexivity |].
  unfold well_formed, Etl.fill_nulls in *. simpl.
  apply Forall_map. eapply Forall_impl; [| exact Hwf].
  intros [n c] Hc. cbn [snd] in Hc. unfold Etl.fill_column. cbn [fst snd].
  destruct c as [xs | xs | xs]; try exact Hc.
  destruct (0 <? count_if is_none xs)%Z; [| exact Hc].
  destruct (existsb (String.eqb n) Etl.median_columns); cbn [snd col_len];
    rewrite fillna_length; exact Hc.
Qed.

Lemma clip_columns_shape (names : list string) :
  forall df out,
    well_formed df -> Etl.clip_columns names df = Ok out -> same_shape df out.
Proof.
  induction names as [| col rest IH]; intros df out Hwf H; simpl in H.
  - inversion H; subst. apply same_shape_refl, Hwf.
  - destruct (get_col col (columns df)) as [[xs | xs | xs] |] eqn:Hc;
      try discriminate; [| apply IH; assumption].
    pose proof (get_col_len _ _ _ Hwf Hc) as Hlen. simpl in Hlen.
    assert (Hs : same_shape df (set_col col (ColNum (Etl.clip_outliers xs)) df)).
    { apply set_col_shape; [exact Hwf |]. simpl. rewrite clip_outliers_length. exact Hlen. }
    eapply same_shape_trans; [exact Hs |]. apply IH; [exact (proj2 Hs) | exact H].
Qed.

Section TransformShape.
Context {L : PyLib}.

Lemma parse_cells_length (xs : list (option string)) :
  forall r, parse_cells xs = Ok r -> List.length r = List.length xs.
Proof.
  induction xs as [| [s |] xs IH]; simpl; intros r H.
  - inversion H. reflexivity.
  - destruct (parse_datetime s); [| discriminate].
    destruct (parse_cells xs) as [r' |]; simpl in H; [| discriminate].
    inversion H. simpl. rewrite (IH r' eq_refl). reflexivity.
  - destruct (parse_cells xs) as [r' |]; simpl in H; [| discriminate].
    inversion H. simpl. rewrite (IH r' eq_refl). reflexivity.
Qed.

Lemma to_datetime_len (c c' : column) :
  to_datetime c = Ok c' -> col_len c' = col_len c /\ exists keys, c' = ColTime keys.
Proof.
  destruct c as [xs | xs | xs]; simpl; intros H.
  - inversion H; subst. simpl. rewrite length_map. eauto.
  - destruct (parse_cells xs) as [r |] eqn:Hr; simpl in H; [| discriminate].
    inversion H; subst. simpl. rewrite (parse_cells_length _ _ Hr). eauto.
  - inversion H; subst. eauto.
Qed.

Lemma standardize_timestamps_shape (df out : DataFrame) :
  well_formed df -> Etl.standardize_timestamps df = Ok out -> same_shape df out.
Proof.
  intros Hwf. unfold Etl.standardize_timestamps.
  destruct (get_col "DATAHORA_MEDICAO" (columns df)) as [c |] eqn:Hc.
  - destruct (to_datetime c) as [c' |] eqn:Hd; simpl; [| discriminate].
    intros H. inversion H; subst. apply set_col_shape; [exact Hwf |].
    rewrite (proj1 (to_datetime_len _ _ Hd)). exact (get_col_len _ _ _ Hwf Hc).
  - intros H. inversion H; subst. apply same_shape_refl, Hwf.
Qed.

Lemma magnitudes_length (xs ys zs : list (option Q)) (n : nat) :
  List.length xs = n -> List.length ys = n -> List.length zs = n ->
  List.length (Etl.magnitudes xs ys zs) = n.
Proof.
  revert ys zs n. induction xs as [| x xs IH]; intros ys zs n Hx Hy Hz.
  - simpl in *. congruence.
  - destruct ys as [| y ys], zs as [| z zs]; simpl in *; try congruence.
    destruct n as [| n]; [discriminate |].
    f_equal. apply IH; congruence.
Qed.

Lemma add_vibration_magnitude_shape (df out : DataFrame) :
  well_formed df -> Etl.add_vibration_magnitude df = Ok out -> same_shape df out.
Proof.
  intros Hwf. unfold Etl.add_vibration_magnitude.
  destruct (get_col "VL_VIBR_X" (columns df)) as [cx |] eqn:Hx;
    [| intros H; inversion H; subst; apply same_shape_refl, Hwf].
  destruct (get_col "VL_VIBR_Y" (columns df)) as [cy |] eqn:Hy;
    [| intros H; inversion H; subst; apply same_shape_refl, Hwf].
  destruct (get_col "VL_VIBR_Z" (columns df)) as [cz |] eqn:Hz;
    [| intros H; inversion H; subst; apply same_shape_refl, Hwf].
  destruct cx as [xs | |], cy as [ys | |], cz as [zs | |]; try discriminate.
  intros H. inversion H; subst. apply set_col_shape; [exact Hwf |].
  simpl. apply magnitudes_length.
  - exact (get_col_len _ _ _ Hwf Hx).
  - exact (get_col_len _ _ _ Hwf Hy).
  - exact (get_col_len _ _ _ Hwf Hz).
Qed.

Lemma add_temp_status_shape (df out : DataFrame) :
  well_formed df -> Etl.add_temp_status df = Ok out -> same_shape df out.
Proof.
  intros Hwf. unfold Etl.add_temp_status.
  destruct (get_col "VL_TEMPERATURA" (columns df)) as [[xs | xs | xs] |] eqn:Hc;
    try discriminate; intros H; inversion H; subst.
  - apply set_col_shape; [exact Hwf |]. simpl. rewrite length_map.
    exact (get_col_len _ _ _ Hwf Hc).
  - apply same_shape_refl, Hwf.
Qed.

Lemma argsort_length (keys : list (option datetime)) :
  List.length (argsort keys) = List.length keys.
Proof.
  unfold argsort. rewrite length_map, isort_length, length_combine, length_seq.
  apply Nat.min_id.
Qed.

Lemma take_rows_len (perm : list nat) (c : column) :
  col_len (take_rows perm c) = List.length perm.
Proof. destruct c; simpl; unfold take_cells; apply length_map. Qed.

Lemma sort_by_timestamp_shape (df out : DataFrame) :
  well_formed df -> Etl.sort_by_timestamp df = Ok out -> same_shape df out.
Proof.
  intros Hwf. unfold Etl.sort_by_timestamp, sort_values.
  destruct (has_col "DATAHORA_MEDICAO" df);
    [| intros H; inversion H; subst; apply same_shape_refl, Hwf].
  destruct (get_col "DATAHORA_MEDICAO" (columns df)) as [[xs | xs | keys] |] eqn:Hc;
    try discriminate.
  intros H. inversion H; subst. clear H.
  pose proof (get_col_len _ _ _ Hwf Hc) as Hlen. simpl in Hlen.
  split; simpl.
  - rewrite argsort_length. exact Hlen.
  - unfold well_formed. simpl. apply Forall_map.
    apply Forall_forall. intros nc _. simpl. apply take_rows_len.
Qed.

(** The steps of the transform neither add nor lose a row. *)
Lemma transform_steps_shape (df out : DataFrame) :
  well_formed df -> Etl.transform_steps df = Ok out -> same_shape df out.
Proof.
  intros Hwf. unfold Etl.transform_steps.
  pose proof (fill_nulls_shape df Hwf) as S1.
  destruct (Etl.clip_columns Etl.clipped_columns (Etl.fill_nulls df)) as [d2 |] eqn:H2;
    simpl; [| discriminate].
  pose proof (clip_columns_shape _ _ _ (proj2 S1) H2) as S2.
  destruct (Etl.standardize_timestamps d2) as [d3 |] eqn:H3; simpl; [| discriminate].
  pose proof (standardize_timestamps_shape _ _ (proj2 S2) H3) as S3.
  destruct (Etl.add_vibration_magnitude d3) as [d4 |] eqn:H4; simpl; [| discriminate].
  pose proof (add_vibration_magnitude_shape _ _ (proj2 S3) H4) as S4.
  destruct (Etl.add_temp_status d4) as [d5 |] eqn:H5; simpl; [| discriminate].
  pose proof (add_temp_status_shape _ _ (proj2 S4) H5) as S5.
  intros H6. pose proof (sort_by_timestamp_shape _ _ (proj2 S5) H6) as S6.
  exact (same_shape_trans _ _ _ S1
           (same_shape_trans _ _ _ S2
              (same_shape_trans _ _ _ S3
                 (same_shape_trans _ _ _ S4 (same_shape_trans _ _ _ S5 S6))))).
Qed.

Lemma clean_and_transform_data_shape (df : DataFrame) :
  well_formed df -> same_shape df (Etl.clean_and_transform_data df).
Proof.
  intros Hwf. unfold Etl.clean_and_transform_data.
  destruct (df_empty df); [apply same_shape_refl, Hwf |].
  destruct (Etl.transform_steps df) as [out |] eqn:H.
  - exact (transform_steps_shape _ _ Hwf H).
  - apply same_shape_refl, Hwf.
Qed.

End TransformShape.

(* ----------------------------------------------------------------- *)
(** *** A designated column through the transform *)

Lemma get_col_assign_same (name : string) (c : column) (cols : list (string * column)) :
  get_col name (assign name c cols) = Some c.
Proof.
  induction cols as [| [n c'] cols IH]; simpl.
  - rewrite String.eqb_refl. reflexivity.
  - destruct (String.eqb name n) eqn:E; simpl; rewrite E; [reflexivity | exact IH].
Qed.

Lemma get_col_assign_other (name name' : string) (c : column)
  (cols : list (string * column)) :
  String.eqb name name' = false ->
  get_col name (assign name' c cols) = get_col name cols.
Proof.
  intros Hne. induction cols as [| [n c'] cols IH]; simpl.
  - rewrite Hne. reflexivity.
  - destruct (String.eqb name' n) eqn:E; simpl.
    + apply String.eqb_eq in E. subst n. rewrite Hne. reflexivity.
    + destruct (String.eqb name n); [reflexivity | exact IH].
Qed.

Lemma clip_columns_get (names : list string) :
  forall df out name,
    NoDup names ->
    Etl.clip_columns names df = Ok out ->
    (In name names ->
     forall xs, get_col name (columns df) = Some (ColNum xs) ->
                get_col name (columns out) = Some (ColNum (Etl.clip_outliers xs)))
    /\ (~ In name names -> get_col name (columns out) = get_col name (columns df)).
Proof.
  induction names as [| col rest IH]; intros df out name Hnd H; simpl in H.
  - inversion H; subst. split; [intros [] | reflexivity].
  - inversion Hnd as [| ? ? Hnotin Hnd']; subst.
    destruct (get_col col (columns df)) as [[ys | ys | ys] |] eqn:Hc; try discriminate.
    + destruct (IH _ _ name Hnd' H) as [Hin Hout].
      destruct (String.eqb_spec name col) as [-> | Hne].
      * split.
        -- intros _ xs Hxs. rewrite Hc in Hxs. inversion Hxs; subst.
           rewrite (Hout Hnotin). simpl. apply get_col_assign_same.
        -- intros Hn. exfalso. apply Hn. left. reflexivity.
      * assert (E : String.eqb name col = false) by (apply String.eqb_neq; exact Hne).
        split.
        -- intros [Heq | Hrest]; [congruence |]. intros xs Hxs.
           apply (Hin Hrest). simpl. rewrite get_col_assign_other; assumption.
        -- intros Hn. rewrite Hout by (intros Hr; apply Hn; right; exact Hr).
           simpl. apply get_col_assign_other. exact E.
    + destruct (IH _ _ name Hnd' H) as [Hin Hout].
      split.
      * intros [Heq | Hrest]; [| exact (Hin Hrest)].
        subst col. intros xs Hxs. congruence.
      * intros Hn. apply Hout. intros Hr. apply Hn. right. exact Hr.
Qed.

Lemma clipped_columns_NoDup : NoDup Etl.clipped_columns.
Proof.
  unfold Etl.clipped_columns.
  repeat constructor; simpl; intros H;
    repeat (destruct H as [H | H]; [discriminate |]); exact H.
Qed.

Lemma get_col_map_take (name : string) (perm : list nat) (cols : list (string * column)) :
  get_col name (map (fun nc => (fst nc, take_rows perm (snd nc))) cols)
  = option_map (take_rows perm) (get_col name cols).
Proof.
  induction cols as [| [n c] cols IH]; simpl; [reflexivity |].
  destruct (String.eqb name n); [reflexivity | exact IH].
Qed.

Lemma spiky_window_well_formed : well_formed spiky_window.
Proof. repeat constructor. Defined.

Example quantile_interpolates :
  quantile (1 # 4) [Some 1; Some 2; Some 3; Some 4] = Some (7 # 4)
  /\ median [Some 4; Some 1; None; Some 3; Some 2] = Some (5 # 2).
Proof. vm_compute. split; reflexivity. Qed.

(** The quartiles of the spiky temperatures are 72 and 76, the bounds 60
    and 88; the reading of 1000 is brought down to 88 and the others are
    left as they are. *)
Example spiky_temperatures_clipped :
  map (option_map Qred)
    (Etl.clip_outliers [Some 1000; Some 70; Some 71; Some 72; Some 73; Some 74;
                        Some 75; Some 76; Some 77])
  = [Some 88; Some 70; Some 71; Some 72; Some 73; Some 74; Some 75; Some 76; Some 77].
Proof. vm_compute. reflexivity. Qed.

(** The transform of the spiky window: the missing pressure is filled
    with the median, the rows are sorted by time. *)
Example spiky_window_transformed :
  map (fun nc => match snd nc with
                 | ColNum xs => (fst nc, ColNum (map (option_map Qred) xs))
                 | c => (fst nc, c)
                 end)
    (columns (@Etl.clean_and_transform_data sample_lib spiky_window))
  = [("VL_TEMPERATURA"%string,
      ColNum [Some 77; Some 76; Some 75; Some 74; Some 73; Some 72; Some 71;
              Some 70; Some 88]);
     ("VL_PRESSAO"%string, ColNum (repeat (Some 1013) 9));
     ("DATAHORA_MEDICAO"%string,
      ColTime (map (fun n => Some (Z.of_nat n)) (seq 100 9)));
     ("TEMP_STATUS"%string,
      ColObj (repeat (Some "NORMAL"%string) 8 ++ [Some "WARNING"%string]))].
Proof. vm_compute. reflexivity. Qed.

(* ----------------------------------------------------------------- *)
(** *** Order statistics do not depend on the order of the rows *)

Lemma count_below_perm (w : Q) (l1 l2 : list Q) :
  Permutation l1 l2 -> count_below w l1 = count_below w l2.
Proof.
  unfold count_below.
  induction 1 as [| x l1 l2 _ IH | x y l | l1 l2 l3 _ IH1 _ IH2]; simpl.
  - reflexivity.
  - destruct (Qltb x w); simpl; congruence.
  - destruct (Qltb x w), (Qltb y w); reflexivity.
  - congruence.
Qed.

Lemma ascending_nth (l : list Q) :
  ascending l ->
  forall i j d d', (i <= j)%nat -> (j < List.length l)%nat -> nth i l d <= nth j l d'.
Proof.
  induction 1 as [| x l Hs IH Hx]; intros i j d d' Hij Hj; simpl in Hj; [lia |].
  destruct i as [| i], j as [| j]; simpl; try lia.
  - apply Qle_refl.
  - rewrite Forall_forall in Hx. apply Hx, nth_In. lia.
  - apply IH; lia.
Qed.

Lemma count_below_none (w : Q) (l : list Q) :
  Forall (fun y => w <= y) l -> count_below w l = 0%nat.
Proof.
  unfold count_below. induction 1 as [| y l Hy _ IH]; simpl; [reflexivity |].
  apply Qltb_ge in Hy. rewrite Hy. exact IH.
Qed.

Lemma count_below_cons (w x : Q) (l : list Q) :
  count_below w (x :: l) = ((if Qltb x w then 1 else 0) + count_below w l)%nat.
Proof. unfold count_below. simpl. destruct (Qltb x w); reflexivity. Qed.

(** In a sorted list, a cell below the threshold has every cell before
    it below the threshold too. *)
Lemma count_below_at_least (w : Q) (l : list Q) :
  ascending l ->
  forall k d, (k < List.length l)%nat -> nth k l d < w -> (k < count_below w l)%nat.
Proof.
  induction 1 as [| x l Hs IH Hx]; intros k d Hk Hlt; simpl in Hk; [lia |].
  rewrite count_below_cons.
  assert (Hxw : Qltb x w = true).
  { apply Qltb_lt. destruct k as [| k]; simpl in Hlt; [exact Hlt |].
    rewrite Forall_forall in Hx.
    eapply Qle_lt_trans; [| exact Hlt]. apply Hx, nth_In. lia. }
  rewrite Hxw. destruct k as [| k]; [lia |].
  simpl in Hlt. specialize (IH k d ltac:(lia) Hlt). lia.
Qed.

Lemma count_below_at_most (w : Q) (l : list Q) :
  ascending l ->
  forall k d, (k < List.length l)%nat -> w <= nth k l d -> (count_below w l <= k)%nat.
Proof.
  induction 1 as [| x l Hs IH Hx]; intros k d Hk Hle; simpl in Hk; [lia |].
  destruct k as [| k].
  - simpl in Hle. rewrite count_below_none; [lia |].
    constructor; [exact Hle |].
    eapply Forall_impl; [| exact Hx]. intros y Hy. eapply Qle_trans; eassumption.
  - rewrite count_below_cons. simpl in Hle.
    specialize (IH k d ltac:(lia) Hle). destruct (Qltb x w); lia.
Qed.

(** Two sorted lists with the same cells agree position by position. *)
Lemma ascending_perm_nth (l1 l2 : list Q) :
  ascending l1 -> ascending l2 -> Permutation l1 l2 ->
  forall k d d', (k < List.length l1)%nat -> nth k l1 d == nth k l2 d'.
Proof.
  intros H1 H2 Hp k d d' Hk.
  assert (Hk2 : (k < List.length l2)%nat) by (rewrite <- (Permutation_length Hp); exact Hk).
  apply Qle_antisym; apply Qnot_lt_le; intros Hlt.
  - pose proof (count_below_at_least _ _ H2 k d' Hk2 Hlt) as Ha.
    pose proof (count_below_at_most (nth k l1 d) _ H1 k d Hk (Qle_refl _)) as Hb.
    rewrite (count_below_perm _ _ _ Hp) in Hb. lia.
  - pose proof (count_below_at_least _ _ H1 k d Hk Hlt) as Ha.
    pose proof (count_below_at_most (nth k l2 d') _ H2 k d' Hk2 (Qle_refl _)) as Hb.
    rewrite (count_below_perm _ _ _ Hp) in Ha. lia.
Qed.

Lemma order_statistics_ascending (xs : list (option Q)) : ascending (order_statistics xs).
Proof.
  unfold ascending, order_statistics.
  pose proof (isort_sorted Q Qle_bool Qle_bool_total Qle_bool_trans (dropna xs)) as H.
  induction H as [| x l _ IH Hx]; constructor; [exact IH |].
  eapply Forall_impl; [| exact Hx]. intros y Hy. apply Qle_bool_iff. exact Hy.
Qed.

(* ----------------------------------------------------------------- *)
(** *** Clipping does not move the quartiles *)

(** The fractional part of a position that is a whole number of
    quarters. *)
Lemma frac_quarters (p : Q) (j : Z) :
  4 * p == inject_Z j ->
  p - inject_Z (Qfloor p) <= 3 # 4
  /\ (0 < p - inject_Z (Qfloor p) -> 1 # 4 <= p - inject_Z (Qfloor p)).
Proof.
  intros Hj.
  pose proof (Qfloor_le p) as Hlo. pose proof (Qlt_floor p) as Hhi.
  rewrite inject_Z_plus in Hhi. change (inject_Z 1) with 1 in Hhi.
  set (lo := Qfloor p) in *.
  assert (Hk : 4 * (p - inject_Z lo) == inject_Z (j - 4 * lo)).
  { unfold Z.sub. rewrite inject_Z_plus, inject_Z_opp, inject_Z_mult.
    change (inject_Z 4) with 4. lra. }
  assert (Hlt : (j - 4 * lo < 4)%Z).
  { rewrite Zlt_Qlt, <- Hk. change (inject_Z 4) with 4. lra. }
  split.
  - assert (H3 : inject_Z (j - 4 * lo) <= inject_Z 3) by (rewrite <- Zle_Qle; lia).
    change (inject_Z 3) with 3 in H3. lra.
  - intros Hpos.
    assert (H0 : (0 < j - 4 * lo)%Z).
    { rewrite Zlt_Qlt, <- Hk. change (inject_Z 0) with 0. lra. }
    assert (H1 : inject_Z 1 <= inject_Z (j - 4 * lo)) by (rewrite <- Zle_Qle; lia).
    change (inject_Z 1) with 1 in H1. lra.
Qed.

(** The cells the two quartiles are read from lie within the bounds. *)
Lemma quartile_cells_inside (a1 b1 a3 b3 f1 f3 : Q) :
  a1 <= b1 -> a3 <= b3 ->
  0 <= f1 -> f1 <= 3 # 4 -> (0 < f1 -> 1 # 4 <= f1) ->
  0 <= f3 -> f3 <= 3 # 4 -> (0 < f3 -> 1 # 4 <= f3) ->
  b1 <= a3 \/ (a3 == a1 /\ b3 == b1 /\ f3 == 3 * f1) ->
  let Q1 := a1 + (b1 - a1) * f1 in
  let Q3 := a3 + (b3 - a3) * f3 in
  let lower := Q1 - 3 * (Q3 - Q1) in
  let upper := Q3 + 3 * (Q3 - Q1) in
  lower <= a1 /\ a1 <= upper /\ lower <= a3 /\ a3 <= upper
  /\ (0 < f1 -> b1 <= upper) /\ (0 < f3 -> b3 <= upper).
Proof.
  intros Hab1 Hab3 H01 H31 Hq1 H03 H33 Hq3 Hcase. cbv zeta.
  assert (Hu0 : 0 <= (b1 - a1) * f1) by nra.
  assert (Hu1 : (b1 - a1) * f1 <= (3 # 4) * (b1 - a1)) by nra.
  assert (Hu2 : 0 < f1 -> (1 # 4) * (b1 - a1) <= (b1 - a1) * f1) by (intros H; nra).
  assert (Hw0 : 0 <= (b3 - a3) * f3) by nra.
  assert (Hw1 : (b3 - a3) * f3 <= (3 # 4) * (b3 - a3)) by nra.
  assert (Hw2 : 0 < f3 -> (1 # 4) * (b3 - a3) <= (b3 - a3) * f3) by (intros H; nra).
  assert (Hw3 : a3 == a1 /\ b3 == b1 /\ f3 == 3 * f1 ->
                (b3 - a3) * f3 == 3 * ((b1 - a1) * f1)).
  { intros (Ha & Hb & Hf). rewrite Ha, Hb, Hf. ring. }
  set (u := (b1 - a1) * f1) in *. set (w := (b3 - a3) * f3) in *.
  destruct Hcase as [Hba | Hsame].
  - repeat split; try lra;
      intros Hpos; try specialize (Hu2 Hpos); try specialize (Hw2 Hpos); lra.
  - specialize (Hw3 Hsame). destruct Hsame as (Ha & Hb & Hf).
    assert (Hf1 : 0 < f3 -> 0 < f1) by (intros; lra).
    repeat split; try lra;
      intros Hpos; try specialize (Hu2 (Hf1 Hpos)); try specialize (Hu2 Hpos); lra.
Qed.

(** When the cells around a position are within the bounds, the value
    interpolated there is the same before and after clipping. *)
Lemma interpolate_clipped (v w : list Q) (d dw p lower upper : Q) :
  List.length w = List.length v ->
  0 <= p -> p <= inject_Z (Z.of_nat (List.length v) - 1) ->
  lower <= upper ->
  (forall k e e', (k < List.length v)%nat ->
                  nth k w e == clip lower upper (nth k v e')) ->
  lower <= nth (Z.to_nat (Qfloor p)) v d ->
  nth (Z.to_nat (Qfloor p)) v d <= upper ->
  (0 < p - inject_Z (Qfloor p) ->
   lower <= nth (Z.to_nat (Qfloor p + 1)) v (nth (Z.to_nat (Qfloor p)) v d)
   /\ nth (Z.to_nat (Qfloor p + 1)) v (nth (Z.to_nat (Qfloor p)) v d) <= upper) ->
  interpolate w dw p == interpolate v d p.
Proof.
  intros Hlen H0 Hm Hlu Hcells Hla Hau Hb.
  destruct (floor_bounds p _ H0 Hm) as ([Hlo0 Hlom] & Hf0 & Hf1).
  unfold interpolate. cbv zeta.
  set (lo := Qfloor p) in *. set (f := p - inject_Z lo) in *.
  set (a := nth (Z.to_nat lo) v d) in *.
  set (b := nth (Z.to_nat (lo + 1)) v a) in *.
  set (a' := nth (Z.to_nat lo) w dw).
  assert (Ha : a' == a).
  { unfold a'. rewrite (Hcells (Z.to_nat lo) dw d) by lia. fold a.
    rewrite (proj1 (proj2 (proj2 (clip_spec lower upper a Hlu))) Hla Hau).
    reflexivity. }
  clearbody a'.
  destruct (Z_lt_le_dec (lo + 1) (Z.of_nat (List.length v))) as [Hin | Hout].
  - destruct (Qlt_le_dec 0 f) as [Hpos | Hzero].
    + destruct (Hb Hpos) as [Hlb Hbu].
      assert (Hbb : nth (Z.to_nat (lo + 1)) w a' == b).
      { rewrite (Hcells (Z.to_nat (lo + 1)) a' a) by lia. fold b.
        rewrite (proj1 (proj2 (proj2 (clip_spec lower upper b Hlu))) Hlb Hbu).
        reflexivity. }
      rewrite Hbb, Ha. reflexivity.
    + assert (Hf : f == 0) by lra.
      rewrite Hf. lra.
  - unfold b. rewrite (nth_overflow v (n := Z.to_nat (lo + 1))) by lia.
    rewrite (nth_overflow w (n := Z.to_nat (lo + 1))) by lia.
    rewrite Ha. ring.
Qed.

(** The two quartiles read from sorted cells, and from the same cells
    after clipping to the bounds those quartiles give. *)
Lemma quartiles_after_clip (v w : list Q) (d dw : Q) :
  ascending v -> v <> [] -> List.length w = List.length v ->
  let m := inject_Z (Z.of_nat (List.length v) - 1) in
  let Q1 := interpolate v d ((1 # 4) * m) in
  let Q3 := interpolate v d ((3 # 4) * m) in
  let lower := Q1 - 3 * (Q3 - Q1) in
  let upper := Q3 + 3 * (Q3 - Q1) in
  (forall k e e', (k < List.length v)%nat ->
                  nth k w e == clip lower upper (nth k v e')) ->
  interpolate w dw ((1 # 4) * m) == Q1 /\ interpolate w dw ((3 # 4) * m) == Q3.
Proof.
  intros Hasc Hne Hlen m Q1 Q3 lower upper Hcells.
  assert (Hn : (0 < List.length v)%nat) by (destruct v; [congruence | simpl; lia]).
  assert (Hm0 : 0 <= m).
  { unfold m. change 0 with (inject_Z 0). rewrite <- Zle_Qle. lia. }
  set (p1 := (1 # 4) * m) in *. set (p3 := (3 # 4) * m) in *.
  assert (Hp1 : 0 <= p1 /\ p1 <= m) by (unfold p1; split; lra).
  assert (Hp3 : 0 <= p3 /\ p3 <= m) by (unfold p3; split; lra).
  destruct (floor_bounds p1 _ (proj1 Hp1) (proj2 Hp1)) as ([Hlo0 Hlom] & Hf0 & Hf1).
  destruct (floor_bounds p3 _ (proj1 Hp3) (proj2 Hp3)) as ([Hlo0' Hlom'] & Hf0' & Hf1').
  assert (Hlole : (Qfloor p1 <= Qfloor p3)%Z).
  { apply Qfloor_resp_le. unfold p1, p3. lra. }
  destruct (frac_quarters p1 (Z.of_nat (List.length v) - 1)) as [Hq1a Hq1b].
  { unfold p1, m. lra. }
  destruct (frac_quarters p3 (3 * (Z.of_nat (List.length v) - 1))) as [Hq3a Hq3b].
  { unfold p3, m. rewrite inject_Z_mult. change (inject_Z 3) with 3. lra. }
  assert (Hab : forall l e, (0 <= l <= Z.of_nat (List.length v) - 1)%Z ->
                  nth (Z.to_nat l) v e <= nth (Z.to_nat (l + 1)) v (nth (Z.to_nat l) v e)).
  { intros l e Hl.
    destruct (Z_lt_le_dec (l + 1) (Z.of_nat (List.length v))) as [Hin | Hout].
    - apply (ascending_nth v Hasc); lia.
    - rewrite (nth_overflow v (n := Z.to_nat (l + 1))) by lia. apply Qle_refl. }
  pose proof (Hab (Qfloor p1) d ltac:(lia)) as Hab1.
  pose proof (Hab (Qfloor p3) d ltac:(lia)) as Hab3.
  assert (Hq13 : Q1 <= Q3).
  { unfold Q1, Q3. apply interpolate_mono; try assumption.
    - intros i j e e'. apply (ascending_nth v Hasc).
    - exact (proj1 Hp1).
    - unfold p1, p3. lra.
    - exact (proj2 Hp3). }
  assert (Hlu : lower <= upper) by (unfold lower, upper; lra).
  assert (Hcase :
            nth (Z.to_nat (Qfloor p1 + 1)) v (nth (Z.to_nat (Qfloor p1)) v d)
            <= nth (Z.to_nat (Qfloor p3)) v d
            \/ (nth (Z.to_nat (Qfloor p3)) v d == nth (Z.to_nat (Qfloor p1)) v d
                /\ nth (Z.to_nat (Qfloor p3 + 1)) v (nth (Z.to_nat (Qfloor p3)) v d)
                   == nth (Z.to_nat (Qfloor p1 + 1)) v (nth (Z.to_nat (Qfloor p1)) v d)
                /\ p3 - inject_Z (Qfloor p3) == 3 * (p1 - inject_Z (Qfloor p1)))).
  { destruct (Z.eq_dec (Qfloor p1) (Qfloor p3)) as [Heq | Hneq].
    - right. rewrite <- Heq.
      split; [reflexivity |]. split; [reflexivity |].
      assert (Hz : (Qfloor p1 = 0)%Z).
      { pose proof (Qfloor_le p1) as A. pose proof (Qlt_floor p3) as B.
        rewrite <- Heq in B. rewrite inject_Z_plus in B. change (inject_Z 1) with 1 in B.
        assert (C : inject_Z (Qfloor p1) < 1) by (unfold p1, p3 in *; lra).
        change 1 with (inject_Z 1) in C. rewrite <- Zlt_Qlt in C. lia. }
      rewrite Hz. change (inject_Z 0) with 0. unfold p1, p3. lra.
    - left. apply (ascending_nth v Hasc); lia. }
  pose proof (quartile_cells_inside _ _ _ _ _ _ Hab1 Hab3 Hf0 Hq1a Hq1b Hf0' Hq3a Hq3b Hcase)
    as Hinside.
  cbv zeta in Hinside. fold p1 p3 in Hinside.
  change (nth (Z.to_nat (Qfloor p1)) v d
          + (nth (Z.to_nat (Qfloor p1 + 1)) v (nth (Z.to_nat (Qfloor p1)) v d)
             - nth (Z.to_nat (Qfloor p1)) v d) * (p1 - inject_Z (Qfloor p1)))
    with Q1 in Hinside.
  change (nth (Z.to_nat (Qfloor p3)) v d
          + (nth (Z.to_nat (Qfloor p3 + 1)) v (nth (Z.to_nat (Qfloor p3)) v d)
             - nth (Z.to_nat (Qfloor p3)) v d) * (p3 - inject_Z (Qfloor p3)))
    with Q3 in Hinside.
  fold lower upper in Hinside.
  destruct Hinside as (I1 & I2 & I3 & I4 & I5 & I6).
  split.
  - apply (interpolate_clipped v w d dw p1 lower upper Hlen (proj1 Hp1) (proj2 Hp1) Hlu
             Hcells I1 I2).
    intros Hpos. split; [lra | exact (I5 Hpos)].
  - apply (interpolate_clipped v w d dw p3 lower upper Hlen (proj1 Hp3) (proj2 Hp3) Hlu
             Hcells I3 I4).
    intros Hpos. split; [lra | exact (I6 Hpos)].
Qed.

(* ----------------------------------------------------------------- *)
(** *** Clipping a second time *)

Lemma clip_monotone (lower upper x y : Q) :
  x <= y -> clip lower upper x <= clip lower upper y.
Proof.
  intros Hxy. unfold clip, Qmin, Qmax, GenericMinMax.gmin, GenericMinMax.gmax.
  destruct (Qcompare_spec x lower); destruct (Qcompare_spec y lower);
    repeat match goal with
           | |- context [Qcompare ?a ?b] => destruct (Qcompare_spec a b)
           end; lra.
Qed.

Lemma ascending_map_clip (lower upper : Q) (v : list Q) :
  ascending v -> ascending (map (clip lower upper) v).
Proof.
  induction 1 as [| x l _ IH Hx]; simpl; constructor; [exact IH |].
  apply Forall_map. eapply Forall_impl; [| exact Hx].
  intros y Hy. apply clip_monotone, Hy.
Qed.

Lemma dropna_map {A B : Type} (f : A -> B) (xs : list (option A)) :
  dropna (map (option_map f) xs) = map f (dropna xs).
Proof.
  induction xs as [| [x |] xs IH]; simpl; [reflexivity | f_equal; exact IH | exact IH].
Qed.

Lemma dropna_perm {A : Type} (xs ys : list (option A)) :
  Permutation xs ys -> Permutation (dropna xs) (dropna ys).
Proof. intros H. unfold dropna. apply Permutation_flat_map, H. Qed.

Lemma count_if_none {A : Type} (f : A -> bool) (xs : list A) :
  Forall (fun x => f x = false) xs -> count_if f xs = 0%Z.
Proof.
  unfold count_if. induction 1 as [| x xs Hx _ IH]; simpl; [reflexivity |].
  rewrite Hx. exact IH.
Qed.

(** With bounds, the clipping step is the cell-wise clip, whether or not
    it found an outlier. *)
Lemma clip_outliers_as_map (xs : list (option Q)) (lower upper : Q) :
  Etl.outlier_bounds xs = Some (lower, upper) ->
  Etl.clip_outliers xs = map (option_map (clip lower upper)) xs.
Proof.
  intros Hb. pose proof (outlier_bounds_ordered xs lower upper Hb) as Hlu.
  unfold Etl.clip_outliers. rewrite Hb.
  destruct (0 <? _)%Z eqn:Hcount; [reflexivity |].
  apply count_if_zero in Hcount. clear Hb.
  induction Hcount as [| o xs Ho _ IH]; simpl; [reflexivity |].
  rewrite <- IH. f_equal.
  destruct o as [v |]; simpl; [| reflexivity].
  simpl in Ho. apply orb_false_iff in Ho. destruct Ho as [H1 H2].
  apply Qltb_ge in H1, H2.
  rewrite (proj1 (proj2 (proj2 (clip_spec lower upper v Hlu))) H1 H2). reflexivity.
Qed.

Lemma all_null_no_bounds (ys : list (option Q)) :
  Forall (fun o => o = None) ys -> Etl.outlier_bounds ys = None.
Proof.
  intros H. assert (Hd : dropna ys = []).
  { induction H as [| o ys Ho _ IH]; simpl; [reflexivity |]. subst o. exact IH. }
  unfold Etl.outlier_bounds, quantile, order_statistics. rewrite Hd. reflexivity.
Qed.

(** A column that went through the clipping step, its rows in any
    order, goes through it again unchanged. *)
Lemma clip_outliers_second_pass (xs ys : list (option Q)) :
  Permutation ys (Etl.clip_outliers xs) -> Etl.clip_outliers ys = ys.
Proof.
  intros Hperm.
  destruct (Etl.outlier_bounds xs) as [[lower upper] |] eqn:Hb.
  - pose proof (outlier_bounds_ordered xs lower upper Hb) as Hlu.
    pose proof (clipped_to_within _ _ _ _ (clip_outliers_cells xs lower upper Hb)) as Hw.
    rewrite (clip_outliers_as_map xs lower upper Hb) in Hperm.
    set (v := order_statistics xs). set (w := order_statistics ys).
    assert (Hpw : Permutation w (map (clip lower upper) v)).
    { unfold w, v, order_statistics.
      rewrite (isort_perm Q Qle_bool (dropna ys)).
      rewrite (dropna_perm _ _ Hperm), dropna_map.
      apply Permutation_map. symmetry. apply isort_perm. }
    assert (Hlen : List.length w = List.length v).
    { rewrite (Permutation_length Hpw). apply length_map. }
    assert (Hv : ascending v) by apply order_statistics_ascending.
    assert (Hwa : ascending w) by apply order_statistics_ascending.
    assert (Hcells : forall k e e', (k < List.length v)%nat ->
                       nth k w e == clip lower upper (nth k v e')).
    { intros k e e' Hk.
      rewrite (ascending_perm_nth w (map (clip lower upper) v) Hwa
                 (ascending_map_clip lower upper v Hv) Hpw k e (clip lower upper e'))
        by lia.
      rewrite map_nth. reflexivity. }
    unfold Etl.outlier_bounds, quantile in Hb. fold v in Hb.
    destruct v as [| d rest] eqn:Ev; [discriminate |].
    rewrite <- Ev in *.
    assert (Hne : v <> []) by (rewrite Ev; discriminate).
    inversion Hb as [[Hlower Hupper]]. clear Hb.
    destruct w as [| dw rest'] eqn:Ew; [rewrite Ev in Hlen; discriminate |].
    rewrite <- Ew in *.
    destruct (quartiles_after_clip v w d dw Hv Hne Hlen) as [E1 E3].
    { cbv zeta. rewrite Hlower, Hupper. exact Hcells. }
    unfold Etl.clip_outliers, Etl.outlier_bounds, quantile. fold w.
    rewrite Ew. rewrite <- Ew. rewrite Hlen.
    rewrite count_if_none; [reflexivity |].
    apply Forall_forall. intros o Ho.
    assert (Hwo : within lower upper o).
    { rewrite Forall_forall in Hw. apply Hw.
      rewrite (clip_outliers_as_map xs lower upper) by
          (unfold Etl.outlier_bounds, quantile; fold v; rewrite Ev, <- Ev;
           rewrite Hlower, Hupper; reflexivity).
      eapply Permutation_in; [exact Hperm | exact Ho]. }
    destruct o as [x |]; simpl; [| reflexivity].
    simpl in Hwo. destruct Hwo as [Hx1 Hx2].
    apply orb_false_iff. split; apply Qltb_ge.
    + rewrite E1, E3. rewrite Hlower. exact Hx1.
    + rewrite E1, E3. rewrite Hupper. exact Hx2.
  - destruct (clip_outliers_no_bounds xs Hb) as [Hsame Hnull].
    rewrite Hsame in Hperm.
    assert (Hys : Forall (fun o => o = None) ys).
    { eapply Permutation_Forall; [symmetry; exact Hperm | exact Hnull]. }
    unfold Etl.clip_outliers. rewrite (all_null_no_bounds ys Hys). reflexivity.
Qed.

(* ----------------------------------------------------------------- *)
(** *** Reordering rows *)

Lemma map_snd_combine {A B : Type} (l1 : list A) :
  forall l2 : list B,
    List.length l1 = List.length l2 -> map snd (combine l1 l2) = l2.
Proof.
  induction l1 as [| x l1 IH]; intros [| y l2] H; simpl in *; try discriminate.
  - reflexivity.
  - f_equal. apply IH. lia.
Qed.

Lemma argsort_perm (keys : list (option datetime)) :
  Permutation (argsort keys) (seq 0 (List.length keys)).
Proof.
  unfold argsort.
  rewrite (isort_perm _ key_leb (combine keys (seq 0 (List.length keys)))).
  rewrite map_snd_combine by (rewrite length_seq; reflexivity).
  reflexivity.
Qed.

Lemma take_cells_seq {A : Type} (xs : list (option A)) :
  take_cells (seq 0 (List.length xs)) xs = xs.
Proof.
  unfold take_cells. induction xs as [| x xs IH]; [reflexivity |].
  cbn [List.length seq map nth]. f_equal.
  rewrite <- seq_shift, map_map. simpl. exact IH.
Qed.

Lemma take_cells_perm {A : Type} (perm : list nat) (xs : list (option A)) :
  Permutation perm (seq 0 (List.length xs)) -> Permutation (take_cells perm xs) xs.
Proof.
  intros H. rewrite <- (take_cells_seq xs) at 2.
  unfold take_cells. apply Permutation_map, H.
Qed.

Lemma perm_in_range (perm : list nat) (n : nat) :
  Permutation perm (seq 0 n) -> Forall (fun i => (i < n)%nat) perm.
Proof.
  intros H. apply Forall_forall. intros i Hi.
  apply (Permutation_in _ H) in Hi. apply in_seq in Hi. lia.
Qed.

Lemma take_rows_seq (c : column) : take_rows (seq 0 (col_len c)) c = c.
Proof. destruct c; simpl; rewrite take_cells_seq; reflexivity. Qed.

Lemma reorder_seq (df : DataFrame) :
  well_formed df -> reorder (seq 0 (nrows df)) df = df.
Proof.
  intros Hwf. destruct df as [n cols]. unfold reorder, well_formed in *. simpl in *.
  rewrite length_seq. f_equal.
  induction Hwf as [| [name c] cols Hc _ IH]; simpl; [reflexivity |].
  simpl in Hc. rewrite IH. rewrite <- Hc at 1. rewrite take_rows_seq. reflexivity.
Qed.

(* ----------------------------------------------------------------- *)
(** *** Columns that the null filling leaves alone *)

Lemma no_null_count (xs : list (option Q)) :
  Forall (fun o => o <> None) xs -> count_if is_none xs = 0%Z.
Proof.
  intros H. apply count_if_none. eapply Forall_impl; [| exact H].
  intros [x |] Hx; [reflexivity | congruence].
Qed.

Lemma fillna_None {A : Type} (xs : list (option A)) : fillna None xs = xs.
Proof.
  unfold fillna. induction xs as [| [x |] xs IH]; simpl; [| rewrite IH ..]; reflexivity.
Qed.

Lemma fillna_Some {A : Type} (v : A) (xs : list (option A)) :
  Forall (fun o => o <> None) (fillna (Some v) xs).
Proof.
  unfold fillna. apply Forall_map. apply Forall_forall.
  intros [x |] _; discriminate.
Qed.

Lemma all_null_dropna {A : Type} (xs : list (option A)) :
  dropna xs = [] <-> Forall (fun o => o = None) xs.
Proof.
  split.
  - induction xs as [| [x |] xs IH]; simpl; intros H; try discriminate; constructor; auto.
  - induction 1 as [| o xs Ho _ IH]; simpl; [reflexivity |]. subst o. exact IH.
Qed.

Lemma median_None (xs : list (option Q)) :
  median xs = None <-> Forall (fun o => o = None) xs.
Proof.
  rewrite <- all_null_dropna. unfold median, order_statistics. split.
  - intros H. apply length_zero_iff_nil. rewrite <- (isort_length Q Qle_bool).
    destruct (isort Qle_bool (dropna xs)); [reflexivity |].
    destruct (Nat.even _); discriminate.
  - intros ->. reflexivity.
Qed.

Lemma calm_fill_column (nc : string * column) : calm nc -> Etl.fill_column nc = nc.
Proof.
  destruct nc as [n c]. unfold calm, Etl.fill_column. simpl.
  destruct c as [xs | xs | xs]; try (intros _; reflexivity).
  intros [Hfull | [Hmed Hnull]].
  - rewrite (no_null_count xs Hfull). reflexivity.
  - destruct (0 <? count_if is_none xs)%Z; [| reflexivity].
    rewrite Hmed. rewrite (proj2 (median_None xs) Hnull), fillna_None. reflexivity.
Qed.

Lemma fill_column_calm (nc : string * column) : calm (Etl.fill_column nc).
Proof.
  destruct nc as [n c]. unfold Etl.fill_column. cbn [fst snd].
  destruct c as [xs | xs | xs]; try exact I.
  destruct (0 <? count_if is_none xs)%Z eqn:Hcount.
  - destruct (existsb (String.eqb n) Etl.median_columns) eqn:Hmed;
      unfold calm; cbn [fst snd].
    + destruct (median xs) as [m |] eqn:Hm.
      * left. apply fillna_Some.
      * right. rewrite fillna_None. split; [exact Hmed | apply median_None, Hm].
    + left. apply fillna_Some.
  - unfold calm. cbn [fst snd]. left. apply count_if_zero in Hcount.
    eapply Forall_impl; [| exact Hcount]. intros [x |] Hx; discriminate.
Qed.

Lemma clip_outliers_none_cells (xs : list (option Q)) :
  Forall2 (fun o o' => o = None <-> o' = None) xs (Etl.clip_outliers xs).
Proof.
  unfold Etl.clip_outliers.
  assert (Hrefl : Forall2 (fun o o' : option Q => o = None <-> o' = None) xs xs).
  { induction xs; constructor; [tauto | assumption]. }
  destruct (Etl.outlier_bounds xs) as [[lower upper] |]; [| exact Hrefl].
  destruct (0 <? _)%Z; [| exact Hrefl].
  clear Hrefl. induction xs as [| [x |] xs IH]; simpl; constructor; try exact IH.
  - split; discriminate.
  - tauto.
Qed.

Lemma calm_clip_outliers (n : string) (xs : list (option Q)) :
  calm (n, ColNum xs) -> calm (n, ColNum (Etl.clip_outliers xs)).
Proof.
  unfold calm. simpl. pose proof (clip_outliers_none_cells xs) as H.
  intros [Hfull | [Hmed Hnull]]; [left | right; split; [exact Hmed |]].
  - induction H as [| o o' xs ys Ho _ IH]; constructor.
    + inversion Hfull; subst. tauto.
    + apply IH. inversion Hfull; assumption.
  - induction H as [| o o' xs ys Ho _ IH]; constructor.
    + inversion Hnull; subst. tauto.
    + apply IH. inversion Hnull; assumption.
Qed.

Lemma calm_take_rows (n : string) (c : column) (perm : list nat) :
  Forall (fun i => (i < col_len c)%nat) perm ->
  calm (n, c) -> calm (n, take_rows perm c).
Proof.
  unfold calm. destruct c as [xs | xs | xs]; simpl; try tauto.
  intros Hr [Hfull | [Hmed Hnull]]; [left | right; split; [exact Hmed |]];
    unfold take_cells; apply Forall_map; apply Forall_forall; intros i Hi.
  - rewrite Forall_forall in Hr, Hfull. apply Hfull, nth_In, Hr, Hi.
  - destruct (nth_in_or_default i xs None) as [Hin | Hd]; [| exact Hd].
    rewrite Forall_forall in Hnull. apply Hnull, Hin.
Qed.

(* ----------------------------------------------------------------- *)
(** *** The frame after cleaning, and cleaning it again *)

Lemma get_col_In_name (name : string) (cols : list (string * column)) (c : column) :
  get_col name cols = Some c -> In (name, c) cols.
Proof.
  induction cols as [| [n c'] cols IH]; simpl; [discriminate |].
  destruct (String.eqb_spec name n) as [-> | Hne].
  - intros H. inversion H; subst. left. reflexivity.
  - intros H. right. exact (IH H).
Qed.

Lemma assign_same (name : string) (c : column) (cols : list (string * column)) :
  get_col name cols = Some c -> assign name c cols = cols.
Proof.
  induction cols as [| [n c'] cols IH]; simpl; [discriminate |].
  destruct (String.eqb name n).
  - intros H. inversion H; subst. reflexivity.
  - intros H. rewrite (IH H). reflexivity.
Qed.

Lemma assign_Forall_name (P : string * column -> Prop) (name : string) (c : column)
  (cols : list (string * column)) :
  P (name, c) -> Forall P cols -> Forall P (assign name c cols).
Proof.
  intros Hc. induction 1 as [| [n c'] cols Hx Hrest IH]; simpl.
  - constructor; [exact Hc | constructor].
  - destruct (String.eqb_spec name n) as [<- | Hne]; constructor; auto.
Qed.

Lemma set_col_same (name : string) (c : column) (df : DataFrame) :
  get_col name (columns df) = Some c -> set_col name c df = df.
Proof.
  intros H. destruct df as [n cols]. unfold set_col. simpl in *.
  rewrite (assign_same _ _ _ H). reflexivity.
Qed.

Lemma clip_columns_calm (names : list string) :
  forall df out,
    Forall calm (columns df) -> Etl.clip_columns names df = Ok out ->
    Forall calm (columns out).
Proof.
  induction names as [| col rest IH]; intros df out Hc H; simpl in H.
  - inversion H; subst. exact Hc.
  - destruct (get_col col (columns df)) as [[xs | xs | xs] |] eqn:Hg; try discriminate.
    + eapply IH; [| exact H].
      simpl. apply assign_Forall_name; [| exact Hc].
      apply calm_clip_outliers.
      rewrite Forall_forall in Hc. exact (Hc _ (get_col_In_name _ _ _ Hg)).
    + eapply IH; [exact Hc | exact H].
Qed.

Lemma clip_columns_designated (names : list string) :
  forall df out,
    NoDup names -> Etl.clip_columns names df = Ok out ->
    forall name, In name names ->
      get_col name (columns out) = None
      \/ exists xs, get_col name (columns out) = Some (ColNum (Etl.clip_outliers xs)).
Proof.
  induction names as [| col rest IH]; intros df out Hnd H name Hin; [destruct Hin |].
  inversion Hnd as [| ? ? Hnotin Hnd']; subst.
  destruct (String.eqb_spec name col) as [-> | Hne].
  - destruct (clip_columns_get (col :: rest) df out col Hnd H) as [Hget _].
    destruct (get_col col (columns df)) as [[xs | xs | xs] |] eqn:Hg.
    + right. exists xs. apply Hget; [left; reflexivity | reflexivity].
    + simpl in H. rewrite Hg in H. discriminate.
    + simpl in H. rewrite Hg in H. discriminate.
    + left. simpl in H. rewrite Hg in H.
      rewrite (proj2 (clip_columns_get rest df out col Hnd' H) Hnotin). exact Hg.
  - destruct Hin as [Heq | Hin]; [congruence |].
    simpl in H.
    destruct (get_col col (columns df)) as [[xs | xs | xs] |]; try discriminate;
      eapply IH; eassumption.
Qed.

Section SecondRun.
Context {L : PyLib}.

Lemma first_steps_settled (df d2 d3 : DataFrame) :
  well_formed df ->
  Etl.clip_columns Etl.clipped_columns (Etl.fill_nulls df) = Ok d2 ->
  Etl.standardize_timestamps d2 = Ok d3 ->
  settled d3.
Proof.
  intros Hwf H2 H3.
  pose proof (fill_nulls_shape df Hwf) as S1.
  pose proof (clip_columns_shape _ _ _ (proj2 S1) H2) as S2.
  pose proof (standardize_timestamps_shape _ _ (proj2 S2) H3) as S3.
  assert (C1 : Forall calm (columns (Etl.fill_nulls df))).
  { simpl. apply Forall_map. apply Forall_forall. intros nc _. apply fill_column_calm. }
  pose proof (clip_columns_calm _ _ _ C1 H2) as C2.
  pose proof (clip_columns_designated _ _ _ clipped_columns_NoDup H2) as D2.
  unfold Etl.standardize_timestamps in H3.
  destruct (get_col "DATAHORA_MEDICAO" (columns d2)) as [c |] eqn:Hg.
  - destruct (to_datetime c) as [c' |] eqn:Hd; simpl in H3; [| discriminate].
    inversion H3; subst. clear H3.
    destruct (to_datetime_len _ _ Hd) as [_ [keys ->]].
    split; [exact (proj2 S3) |]. split; [| split].
    + simpl. apply assign_Forall_name; [exact I | exact C2].
    + intros name Hin. simpl. rewrite get_col_assign_other; [exact (D2 name Hin) |].
      unfold Etl.clipped_columns in Hin. simpl in Hin.
      destruct Hin as [<- | [<- | [<- | []]]]; reflexivity.
    + right. exists keys. simpl. apply get_col_assign_same.
  - inversion H3; subst. clear H3.
    split; [exact (proj2 S3) |]. split; [exact C2 |]. split; [exact D2 |].
    left. exact Hg.
Qed.

Lemma get_col_reorder (name : string) (perm : list nat) (d : DataFrame) :
  get_col name (columns (reorder perm d))
  = option_map (take_rows perm) (get_col name (columns d)).
Proof. unfold reorder. simpl. apply get_col_map_take. Qed.

(** Null filling does nothing to a settled frame, in any row order. *)
Lemma fill_nulls_reorder (perm : list nat) (d : DataFrame) :
  settled d -> Permutation perm (seq 0 (nrows d)) ->
  Etl.fill_nulls (reorder perm d) = reorder perm d.
Proof.
  intros (Hwf & Hcalm & _) Hperm. unfold Etl.fill_nulls, reorder. simpl. f_equal.
  rewrite map_map. apply map_ext_in. intros [n c] Hin. simpl.
  apply calm_fill_column. apply calm_take_rows.
  - unfold well_formed in Hwf. rewrite Forall_forall in Hwf.
    pose proof (Hwf _ Hin) as Hl. simpl in Hl. rewrite Hl.
    apply perm_in_range, Hperm.
  - rewrite Forall_forall in Hcalm. exact (Hcalm _ Hin).
Qed.

Lemma clip_columns_fixed (names : list string) (X : DataFrame) :
  (forall name, In name names ->
     get_col name (columns X) = None
     \/ exists ys, get_col name (columns X) = Some (ColNum ys)
                   /\ Etl.clip_outliers ys = ys) ->
  Etl.clip_columns names X = Ok X.
Proof.
  induction names as [| col rest IH]; intros H; simpl; [reflexivity |].
  destruct (H col (or_introl eq_refl)) as [Hn | (ys & Hg & Hfix)].
  - rewrite Hn. apply IH. intros name Hin. apply H. right. exact Hin.
  - rewrite Hg, Hfix, (set_col_same _ _ _ Hg).
    apply IH. intros name Hin. apply H. right. exact Hin.
Qed.

(** Neither does the clipping. *)
Lemma clip_columns_reorder (perm : list nat) (d : DataFrame) :
  settled d -> Permutation perm (seq 0 (nrows d)) ->
  Etl.clip_columns Etl.clipped_columns (reorder perm d) = Ok (reorder perm d).
Proof.
  intros (Hwf & _ & Hdes & _) Hperm. apply clip_columns_fixed.
  intros name Hin. rewrite get_col_reorder.
  destruct (Hdes name Hin) as [-> | [xs Hg]]; [left; reflexivity | right].
  rewrite Hg. simpl. eexists. split; [reflexivity |].
  apply (clip_outliers_second_pass xs). apply take_cells_perm.
  pose proof (get_col_len _ _ _ Hwf Hg) as Hlen. simpl in Hlen.
  rewrite Hlen. exact Hperm.
Qed.

(** Nor the conversion of the timestamps. *)
Lemma standardize_timestamps_reorder (perm : list nat) (d : DataFrame) :
  settled d ->
  Etl.standardize_timestamps (reorder perm d) = Ok (reorder perm d).
Proof.
  intros (_ & _ & _ & Htime). unfold Etl.standardize_timestamps.
  destruct (get_col "DATAHORA_MEDICAO" (columns (reorder perm d))) as [c |] eqn:Hg;
    [| reflexivity].
  rewrite get_col_reorder in Hg.
  destruct Htime as [Hn | [keys Hk]]; [rewrite Hn in Hg; discriminate |].
  rewrite Hk in Hg. simpl in Hg. inversion Hg; subst c. simpl.
  rewrite set_col_same; [reflexivity |].
  rewrite get_col_reorder, Hk. reflexivity.
Qed.

End SecondRun.

(* ----------------------------------------------------------------- *)
(** *** Derived columns and the sort, on reordered rows *)

Lemma assign_map_take (name : string) (c : column) (perm : list nat)
  (cols : list (string * column)) :
  assign name (take_rows perm c) (map (fun nc => (fst nc, take_rows perm (snd nc))) cols)
  = map (fun nc => (fst nc, take_rows perm (snd nc))) (assign name c cols).
Proof.
  induction cols as [| [n c'] cols IH]; simpl; [reflexivity |].
  destruct (String.eqb name n); simpl; [reflexivity | rewrite IH; reflexivity].
Qed.

Lemma set_col_reorder (name : string) (c : column) (perm : list nat) (d : DataFrame) :
  set_col name (take_rows perm c) (reorder perm d) = reorder perm (set_col name c d).
Proof. unfold set_col, reorder. simpl. rewrite assign_map_take. reflexivity. Qed.

Lemma well_formed_reorder (perm : list nat) (d : DataFrame) : well_formed (reorder perm d).
Proof.
  unfold well_formed, reorder. simpl. apply Forall_map. apply Forall_forall.
  intros nc _. simpl. apply take_rows_len.
Qed.

Section Magnitudes.
Context {L : PyLib}.

Lemma nth_magnitudes (xs : list (option Q)) :
  forall ys zs i,
    List.length ys = List.length xs -> List.length zs = List.length xs ->
    nth i (Etl.magnitudes xs ys zs) None
    = Etl.magnitude (nth i xs None) (nth i ys None) (nth i zs None).
Proof.
  induction xs as [| x xs IH]; intros [| y ys] [| z zs] i Hy Hz; simpl in *;
    try discriminate.
  - destruct i; reflexivity.
  - destruct i as [| i]; [reflexivity |]. apply IH; lia.
Qed.

Lemma magnitudes_take (perm : list nat) (xs ys zs : list (option Q)) :
  List.length ys = List.length xs -> List.length zs = List.length xs ->
  Etl.magnitudes (take_cells perm xs) (take_cells perm ys) (take_cells perm zs)
  = take_cells perm (Etl.magnitudes xs ys zs).
Proof.
  intros Hy Hz. unfold take_cells.
  induction perm as [| i perm IH]; simpl; [reflexivity |].
  rewrite IH, nth_magnitudes by assumption. reflexivity.
Qed.

Lemma add_vibration_magnitude_reorder (perm : list nat) (d d' : DataFrame) :
  well_formed d ->
  Etl.add_vibration_magnitude d = Ok d' ->
  Etl.add_vibration_magnitude (reorder perm d) = Ok (reorder perm d').
Proof.
  intros Hwf. unfold Etl.add_vibration_magnitude. rewrite !get_col_reorder.
  destruct (get_col "VL_VIBR_X" (columns d)) as [cx |] eqn:Hx; simpl;
    [| intros H; inversion H; reflexivity].
  destruct (get_col "VL_VIBR_Y" (columns d)) as [cy |] eqn:Hy; simpl;
    [| intros H; inversion H; reflexivity].
  destruct (get_col "VL_VIBR_Z" (columns d)) as [cz |] eqn:Hz; simpl;
    [| intros H; inversion H; reflexivity].
  destruct cx as [xs | |], cy as [ys | |], cz as [zs | |]; try discriminate.
  intros H. inversion H; subst. simpl.
  pose proof (get_col_len _ _ _ Hwf Hx) as Lx.
  pose proof (get_col_len _ _ _ Hwf Hy) as Ly.
  pose proof (get_col_len _ _ _ Hwf Hz) as Lz.
  simpl in Lx, Ly, Lz.
  rewrite magnitudes_take by congruence.
  rewrite <- set_col_reorder. reflexivity.
Qed.

End Magnitudes.

Lemma temp_status_take (perm : list nat) (xs : list (option Q)) :
  map Etl.temp_status (take_cells perm xs) = take_cells perm (map Etl.temp_status xs).
Proof.
  unfold take_cells. rewrite map_map. apply map_ext. intros i.
  change (@None string) with (Etl.temp_status None). symmetry. apply map_nth.
Qed.

Lemma add_temp_status_reorder (perm : list nat) (d d' : DataFrame) :
  Etl.add_temp_status d = Ok d' ->
  Etl.add_temp_status (reorder perm d) = Ok (reorder perm d').
Proof.
  unfold Etl.add_temp_status. rewrite get_col_reorder.
  destruct (get_col "VL_TEMPERATURA" (columns d)) as [[xs | xs | xs] |]; simpl;
    try discriminate; intros H; inversion H; subst; [| reflexivity].
  rewrite temp_status_take.
  change (ColObj (take_cells perm (map Etl.temp_status xs)))
    with (take_rows perm (ColObj (map Etl.temp_status xs))).
  rewrite set_col_reorder. reflexivity.
Qed.

(* ----------------------------------------------------------------- *)
(** *** The keys in sorted order *)

Lemma key_leb_total (a b : option datetime * nat) :
  key_leb a b = false -> key_leb b a = true.
Proof.
  unfold key_leb. destruct (fst a) as [x |], (fst b) as [y |]; try discriminate;
    try reflexivity.
  intros H. apply Z.leb_gt in H. apply Z.leb_le. lia.
Qed.

Lemma key_leb_trans (a b c : option datetime * nat) :
  key_leb a b = true -> key_leb b c = true -> key_leb a c = true.
Proof.
  unfold key_leb. destruct (fst a) as [x |], (fst b) as [y |], (fst c) as [z |];
    try discriminate; try reflexivity.
  intros H1 H2. apply Z.leb_le in H1, H2. apply Z.leb_le. lia.
Qed.

Lemma in_combine_seq (keys : list (option datetime)) :
  forall s k i,
    In (k, i) (combine keys (seq s (List.length keys))) ->
    (s <= i)%nat /\ nth (i - s) keys None = k.
Proof.
  induction keys as [| k0 keys IH]; intros s k i H; simpl in H; [destruct H |].
  destruct H as [H | H].
  - inversion H; subst. rewrite Nat.sub_diag. split; [lia | reflexivity].
  - destruct (IH (S s) k i H) as [Hle Hn]. split; [lia |].
    replace (i - s)%nat with (S (i - S s)) by lia. exact Hn.
Qed.

(** The keys, taken in the order that sorts them, are the keys of the
    sorted pairs. *)
Lemma take_argsort_keys (keys : list (option datetime)) :
  take_cells (argsort keys) keys
  = map fst (isort key_leb (combine keys (seq 0 (List.length keys)))).
Proof.
  unfold take_cells, argsort. rewrite map_map. apply map_ext_in.
  intros [k i] Hin. simpl.
  apply (Permutation_in _ (isort_perm _ key_leb _)) in Hin.
  destruct (in_combine_seq keys 0 k i Hin) as [_ Hn].
  rewrite Nat.sub_0_r in Hn. exact Hn.
Qed.

(* ----------------------------------------------------------------- *)
(** *** Dropping the derived columns *)

Lemma filter_all {A : Type} (f : A -> bool) (l : list A) :
  forallb f l = true -> filter f l = l.
Proof.
  induction l as [| x l IH]; simpl; [reflexivity |].
  intros H. apply andb_true_iff in H. destruct H as [Hx Hl].
  rewrite Hx, (IH Hl). reflexivity.
Qed.

Lemma drop_cols_underived (d : DataFrame) :
  underived d = true -> drop_cols Etl.derived_columns d = d.
Proof.
  intros H. destruct d as [n cols]. unfold drop_cols, underived in *. simpl in *.
  f_equal. apply (filter_all (keeps Etl.derived_columns)). exact H.
Qed.

Lemma drop_cols_reorder (names : list string) (perm : list nat) (d : DataFrame) :
  drop_cols names (reorder perm d) = reorder perm (drop_cols names d).
Proof.
  unfold drop_cols, reorder. simpl. f_equal.
  induction (columns d) as [| [n c] cols IH]; simpl; [reflexivity |].
  destruct (negb (existsb (String.eqb n) names)); simpl; rewrite IH; reflexivity.
Qed.

Lemma drop_cols_set_col (names : list string) (name : string) (c : column)
  (d : DataFrame) :
  existsb (String.eqb name) names = true ->
  drop_cols names (set_col name c d) = drop_cols names d.
Proof.
  intros Hin. unfold drop_cols, set_col. simpl. f_equal.
  induction (columns d) as [| [n c'] cols IH]; simpl.
  - rewrite Hin. reflexivity.
  - destruct (String.eqb_spec name n) as [<- | Hne]; simpl.
    + rewrite Hin. reflexivity.
    + rewrite IH. reflexivity.
Qed.

Lemma underived_names (a b : DataFrame) :
  map fst (columns a) = map fst (columns b) -> underived a = underived b.
Proof.
  unfold underived. generalize (columns a) (columns b).
  induction l as [| [n c] l IH]; intros [| [n' c'] l'] H; simpl in *;
    try discriminate; [reflexivity |].
  inversion H; subst. unfold keeps at 1 3. simpl. rewrite (IH l') by assumption.
  reflexivity.
Qed.

Lemma assign_names (name : string) (c c0 : column) (cols : list (string * column)) :
  get_col name cols = Some c0 -> map fst (assign name c cols) = map fst cols.
Proof.
  induction cols as [| [n c'] cols IH]; simpl; [discriminate |].
  destruct (String.eqb name n); simpl; [reflexivity |].
  intros H. rewrite (IH H). reflexivity.
Qed.

Lemma clip_columns_names (names : list string) :
  forall df out,
    Etl.clip_columns names df = Ok out -> map fst (columns out) = map fst (columns df).
Proof.
  induction names as [| col rest IH]; intros df out H; simpl in H.
  - inversion H. reflexivity.
  - destruct (get_col col (columns df)) as [[xs | xs | xs] |] eqn:Hg; try discriminate.
    + rewrite (IH _ _ H). simpl. exact (assign_names _ _ _ _ Hg).
    + exact (IH _ _ H).
Qed.

Section Idempotence.
Context {L : PyLib}.

Lemma first_steps_names (df d2 d3 : DataFrame) :
  Etl.clip_columns Etl.clipped_columns (Etl.fill_nulls df) = Ok d2 ->
  Etl.standardize_timestamps d2 = Ok d3 ->
  map fst (columns d3) = map fst (columns df).
Proof.
  intros H2 H3.
  assert (N1 : map fst (columns (Etl.fill_nulls df)) = map fst (columns df)).
  { simpl. rewrite map_map. apply map_ext. intros [n c].
    unfold Etl.fill_column. cbn [fst snd].
    destruct c as [xs | xs | xs]; try reflexivity.
    destruct (0 <? count_if is_none xs)%Z; [| reflexivity].
    destruct (existsb (String.eqb n) Etl.median_columns); reflexivity. }
  rewrite <- N1, <- (clip_columns_names _ _ _ H2).
  unfold Etl.standardize_timestamps in H3.
  destruct (get_col "DATAHORA_MEDICAO" (columns d2)) as [c |] eqn:Hg.
  - destruct (to_datetime c) as [c' |]; simpl in H3; [| discriminate].
    inversion H3; subst. simpl. exact (assign_names _ _ _ _ Hg).
  - inversion H3. reflexivity.
Qed.

Lemma derived_dropped (d3 d4 d5 : DataFrame) :
  underived d3 = true ->
  Etl.add_vibration_magnitude d3 = Ok d4 ->
  Etl.add_temp_status d4 = Ok d5 ->
  drop_cols Etl.derived_columns d5 = d3.
Proof.
  intros Hu H4 H5.
  assert (E4 : drop_cols Etl.derived_columns d4 = drop_cols Etl.derived_columns d3).
  { unfold Etl.add_vibration_magnitude in H4.
    destruct (get_col "VL_VIBR_X" (columns d3)) as [cx |];
      [| inversion H4; reflexivity].
    destruct (get_col "VL_VIBR_Y" (columns d3)) as [cy |];
      [| inversion H4; reflexivity].
    destruct (get_col "VL_VIBR_Z" (columns d3)) as [cz |];
      [| inversion H4; reflexivity].
    destruct cx, cy, cz; try discriminate.
    inversion H4. apply drop_cols_set_col. reflexivity. }
  assert (E5 : drop_cols Etl.derived_columns d5 = drop_cols Etl.derived_columns d4).
  { unfold Etl.add_temp_status in H5.
    destruct (get_col "VL_TEMPERATURA" (columns d4)) as [[xs | xs | xs] |];
      try discriminate; inversion H5; [| reflexivity].
    apply drop_cols_set_col. reflexivity. }
  rewrite E5, E4. apply drop_cols_underived, Hu.
Qed.

End Idempotence.

Lemma vibrating_window_well_formed : well_formed vibrating_window.
Proof. repeat constructor. Defined.

(** The derived columns of the vibrating window in time order: the
    magnitudes 3, 5, 2.828 (the missing X reading counts as 0) and 13,
    and the temperature classes, the gap filled by the median 90. *)
Example vibrating_window_derived :
  option_map (fun c => match c with
                       | ColNum xs => ColNum (map (option_map Qred) xs)
                       | _ => c
                       end)
    (get_col "VIBRACAO_MAGNITUDE"
       (columns (@Etl.clean_and_transform_data sample_lib vibrating_window)))
  = Some (ColNum [Some 3; Some 5; Some (707 # 250); Some 13])
  /\ get_col "TEMP_STATUS"
       (columns (@Etl.clean_and_transform_data sample_lib vibrating_window))
     = Some (ColObj [Some "CRITICAL"; Some "WARNING"; Some "NORMAL"; Some "WARNING"]%string).
Proof. vm_compute. split; reflexivity. Qed.

(* ================================================================= *)
(** ** The batch writer *)

Section BatchWriter.
Context {L : PyLib}.
Import Ingestion.

Lemma collect_batch_firstn (room : nat) :
  forall batch q,
    collect_batch room batch q
    = (batch ++ firstn room (items q),
       {| maxsize := maxsize q; items := skipn room (items q) |}).
Proof.
  induction room as [| room IH]; intros batch q; simpl.
  - rewrite app_nil_r. destruct q; reflexivity.
  - unfold get. destruct q as [m [| x rest]]; simpl.
    + rewrite app_nil_r. reflexivity.
    + rewrite IH. simpl. rewrite <- app_assoc. reflexivity.
Qed.

(** The [try] block of [insert_sensor_data] returns nothing but [True],
    and then the insert was counted. *)
Lemma insert_body_ok (now : datetime) (r : SensorReading) (s s1 : Service) (b : bool) :
  insert_body now r s = (Ok b, s1) ->
  b = true /\ stats s1 = record_insert now (stats s).
Proof.
  unfold insert_body, mbind. intros H.
  pose proof (frame_prepare_medicao r s) as Hf.
  destruct (prepare_medicao r s) as [[row | e0] s0]; simpl in Hf; [| discriminate].
  destruct Hf as (_ & Hs & _ & _).
  revert H.
  unfold lift_db, callproc_sp_insert_medicao, commit, db_bind, round_trip,
    with_working, note_insert, logm, ret.
  simpl.
  destruct (faults (db_connection s0)) as [| [|] [| [|] fs]]; simpl;
    intros H; inversion H; subst; simpl; rewrite Hs; split; reflexivity.
Qed.

(** What one call of [insert_sensor_data] does to the counters. *)
Lemma insert_sensor_data_stats (now : datetime) (r : SensorReading)
  (s s' : Service) (res : result bool) :
  insert_sensor_data now r s = (res, s') ->
  match res with
  | Ok true => stats s' = record_insert now (stats s)
  | Ok false => stats s' = record_failure (stats s)
  | Raise _ => stats s' = stats s
  end.
Proof.
  unfold insert_sensor_data.
  destruct (insert_body now r s) as [[b | e] s1] eqn:Hb.
  - intros H. inversion H; subst.
    destruct (insert_body_ok _ _ _ _ _ Hb) as [-> Hs]. exact Hs.
  - destruct (insert_body_raise _ _ _ _ _ Hb) as (_ & Hs & _ & _).
    unfold mbind, logm, lift_db, rollback, db_bind, round_trip, note_failure, ret.
    simpl.
    destruct (faults (db_connection s1)) as [| [|] fs]; simpl;
      intros H; inversion H; subst; simpl; rewrite Hs; reflexivity.
Qed.

Lemma insert_batch_accounts (now : datetime) (batch : list SensorReading) :
  forall k s n s',
    insert_batch now batch k s = (Ok n, s') ->
    (k <= n <= k + List.length batch)%nat
    /\ total_records (stats s') = (total_records (stats s) + Z.of_nat (n - k))%Z
    /\ failed_inserts (stats s')
       = (failed_inserts (stats s) + Z.of_nat (k + List.length batch - n))%Z.
Proof.
  induction batch as [| r rest IH]; intros k s n s' H; simpl in H.
  - inversion H; subst. simpl.
    replace (n - n)%nat with 0%nat by lia.
    replace (n + 0 - n)%nat with 0%nat by lia.
    simpl. repeat split; lia.
  - unfold mbind in H.
    destruct (insert_sensor_data now r s) as [[ok | e] s1] eqn:Hi; [| discriminate].
    apply insert_sensor_data_stats in Hi.
    apply IH in H. destruct H as (Hn & Ht & Hf).
    cbn [List.length].
    destruct ok; rewrite Hi in Ht, Hf;
      cbn [record_insert record_failure total_records failed_inserts] in Ht, Hf;
      repeat split; lia.
Qed.

Lemma insert_batch_cut_short (now : datetime) (batch : list SensorReading) :
  forall k s e s',
    insert_batch now batch k s = (Raise e, s') ->
    (total_records (stats s') + failed_inserts (stats s')
     < total_records (stats s) + failed_inserts (stats s)
       + Z.of_nat (List.length batch))%Z.
Proof.
  induction batch as [| r rest IH]; intros k s e s' H; simpl in H.
  - discriminate.
  - unfold mbind in H.
    destruct (insert_sensor_data now r s) as [[ok | e1] s1] eqn:Hi.
    + apply insert_sensor_data_stats in Hi. apply IH in H.
      cbn [List.length].
      destruct ok; rewrite Hi in H;
        cbn [record_insert record_failure total_records failed_inserts] in H; lia.
    + apply insert_sensor_data_stats in Hi. inversion H; subst.
      rewrite Hi. cbn [List.length]. lia.
Qed.

(** X1.  One turn of the batch writer takes the oldest readings off the
    queue, fifty at most, whether their inserts succeed or not, and
    leaves the others in the order they arrived. *)
Theorem X1_drain_takes_the_oldest_fifty (now : datetime) (s : Service) :
  items (data_queue (processing_iteration now s))
  = skipn batch_insert_size (items (data_queue s))
  /\ maxsize (data_queue (processing_iteration now s)) = maxsize (data_queue s).
Proof.
  unfold processing_iteration.
  rewrite collect_batch_firstn. cbn [app].
  generalize (firstn batch_insert_size (items (data_queue s))).
  generalize (skipn batch_insert_size (items (data_queue s))).
  intros rest batch.
  destruct batch as [| r batch].
  - split; reflexivity.
  - match goal with
    | |- context [insert_batch now ?b 0 ?s0] =>
        pose proof (insert_batch_same_queue now b 0 s0) as Hsame;
        destruct (insert_batch now b 0 s0) as [[n | e] s2]
    end;
      unfold same_queue in Hsame; cbn [snd] in Hsame;
      cbn [add_log data_queue]; rewrite Hsame; split; reflexivity.
Qed.

(** X2.  When a batch is worked through without an exception leaving
    [insert_sensor_data], every reading of it is counted exactly once:
    the number the loop reports went to [total_records], the others to
    [failed_inserts]. *)
Theorem X2_completed_batch_counts_every_reading (now : datetime)
  (batch : list SensorReading) (s s' : Service) (n : nat) :
  insert_batch now batch 0 s = (Ok n, s') ->
  (n <= List.length batch)%nat
  /\ total_records (stats s') = (total_records (stats s) + Z.of_nat n)%Z
  /\ failed_inserts (stats s')
     = (failed_inserts (stats s) + Z.of_nat (List.length batch - n))%Z.
Proof.
  intros H. apply insert_batch_accounts in H. destruct H as (Hn & Ht & Hf).
  rewrite Nat.sub_0_r in Ht. simpl in Hf. repeat split; [lia | exact Ht | exact Hf].
Qed.

(** X3.  When the handler's rollback fails, the exception leaves
    [insert_sensor_data] and ends the batch: the readings taken off the
    queue are then not all accounted for, the two counters together grew
    by less than the size of the batch. *)
Theorem X3_interrupted_batch_loses_readings (now : datetime)
  (batch : list SensorReading) (s s' : Service) (e : exn) :
  insert_batch now batch 0 s = (Raise e, s') ->
  (total_records (stats s') + failed_inserts (stats s')
   < total_records (stats s) + failed_inserts (stats s)
     + Z.of_nat (List.length batch))%Z.
Proof. apply insert_batch_cut_short. Qed.

End BatchWriter.

(** X2, witness: two readings, a store without failures. *)
Lemma X2_completed_batch_witness :
  exists s',
    @Ingestion.insert_batch sample_lib 0 [sample_reading; sample_reading] 0
      (service_with 0) = (Ok 2%nat, s')
    /\ Ingestion.total_records (Ingestion.stats s') = 2%Z
    /\ Ingestion.failed_inserts (Ingestion.stats s') = 0%Z.
Proof.
  eexists. split; [vm_compute; reflexivity |].
  refine (proj2 (@X2_completed_batch_counts_every_reading sample_lib 0
                   [sample_reading; sample_reading] (service_with 0) _ 2 _)).
  vm_compute. reflexivity.
Defined.

(** X3, witness: of two readings none is stored and none is counted. *)
Lemma X3_interrupted_batch_witness :
  exists s',
    @Ingestion.insert_batch sample_lib 0 [sample_reading; sample_reading] 0
      double_failure = (Raise DatabaseError, s')
    /\ (Ingestion.total_records (Ingestion.stats s')
        + Ingestion.failed_inserts (Ingestion.stats s')
        < Ingestion.total_records (Ingestion.stats double_failure)
          + Ingestion.failed_inserts (Ingestion.stats double_failure) + 2)%Z.
Proof.
  eexists. split; [vm_compute; reflexivity |].
  refine (@X3_interrupted_batch_loses_readings sample_lib 0
            [sample_reading; sample_reading] double_failure _ DatabaseError _).
  vm_compute. reflexivity.
Defined.

(* ================================================================= *)
(** ** Storing a reading *)

Section StoringReadings.
Context {L : PyLib}.
Import Ingestion.

(** The square of a number of moderate size is a float. *)
Lemma moderate_square (j : json) :
  moderate j = true -> exists q, as_number j = Ok q /\ square q = Ok (q * q).
Proof.
  unfold moderate. destruct (as_number j) as [q | e]; [| discriminate].
  intros H. exists q. split; [reflexivity |].
  unfold square. destruct (Qle_bool float_limit (q * q)) eqn:Hl; [| reflexivity].
  exfalso. apply Qle_bool_iff in H, Hl.
  pose proof (Qle_trans _ _ _ Hl H) as Hc.
  unfold float_limit, Qle in Hc. cbn [Qnum Qden inject_Z] in Hc.
  rewrite !Z.mul_1_r in Hc. apply Z.leb_le in Hc. vm_compute in Hc. discriminate Hc.
Qed.

Lemma vibration_total_ok (x y z : option json) :
  match x, y, z with
  | Some a, Some b, Some c => moderate a && moderate b && moderate c
  | _, _, _ => true
  end = true ->
  exists v, vibration_total x y z = Ok v.
Proof.
  destruct x as [a |], y as [b |], z as [c |];
    try (intros _; eexists; reflexivity).
  intros H. apply andb_true_iff in H. destruct H as [H Hc].
  apply andb_true_iff in H. destruct H as [Ha Hb]. unfold vibration_total.
  destruct (moderate_square _ Ha) as (qa & -> & Ha'), (moderate_square _ Hb) as (qb & -> & Hb'),
    (moderate_square _ Hc) as (qc & -> & Hc').
  cbn [bind]. rewrite Ha'. cbn [bind]. rewrite Hb'.
  cbn [bind]. rewrite Hc'. cbn [bind]. eexists. reflexivity.
Qed.

(** The row of a storable reading on a store without failures: the
    machine and the sensor are looked up or created, nothing else
    moves. *)
Lemma prepare_medicao_healthy (r : SensorReading) (s : Service) :
  healthy (db_connection s) -> storable r = true ->
  exists row s1,
    prepare_medicao r s = (Ok row, s1)
    /\ healthy (db_connection s1)
    /\ committed (db_connection s1) = committed (db_connection s)
    /\ t_medicao (working (db_connection s1)) = t_medicao (working (db_connection s))
    /\ sp_calls (db_connection s1) = sp_calls (db_connection s)
    /\ stats s1 = stats s /\ data_queue s1 = data_queue s
    /\ p_fonte row = source r
    /\ p_flag_falha row = (if truthy (fault_detected r) then "S" else "N")%string.
Proof.
  destruct s as [[cm wk n fs] q st run lg]. unfold healthy. simpl. intros ->.
  destruct r as [dev ts loc ty sens fault src]. unfold storable. simpl.
  destruct dev; try discriminate. destruct ty; try discriminate.
  destruct loc; try discriminate. simpl.
  destruct sens as [| | | | | kv]; try discriminate. simpl.
  intros Hst.
  unfold prepare_medicao, get_or_create_equipment, get_or_create_sensor,
    mbind, lift, lift_db, logm, ret, select_count_equipamento, select_count_sensor,
    insert_equipamento, insert_sensor, db_bind, round_trip, with_working, read_working.
  simpl.
  set (x := match dict_get "vibration_x" kv with
            | Some v => denull v
            | None => match dict_get "vibr_x" kv with Some v => denull v | None => None end
            end) in *.
  set (y := match dict_get "vibration_y" kv with
            | Some v => denull v
            | None => match dict_get "vibr_y" kv with Some v => denull v | None => None end
            end) in *.
  set (z := match dict_get "vibration_z" kv with
            | Some v => denull v
            | None => match dict_get "vibr_z" kv with Some v => denull v | None => None end
            end) in *.
  assert (Hv : exists v, vibration_total x y z = Ok v).
  { apply vibration_total_ok.
    destruct x, y, z; simpl in *; auto. }
  destruct Hv as [v Hv].
  destruct (Nat.eqb _ 0); simpl;
    destruct (Nat.eqb _ 0); simpl; rewrite Hv; simpl;
    do 2 eexists; (split; [reflexivity |]); simpl; repeat split; reflexivity.
Qed.

Lemma insert_sensor_data_healthy (now : datetime) (r : SensorReading) (s : Service) :
  healthy (db_connection s) -> storable r = true ->
  exists row s',
    insert_sensor_data now r s = (Ok true, s')
    /\ healthy (db_connection s')
    /\ committed (db_connection s') = working (db_connection s')
    /\ t_medicao (committed (db_connection s'))
       = t_medicao (working (db_connection s)) ++ [row]
    /\ sp_calls (db_connection s') = S (sp_calls (db_connection s))
    /\ stats s' = record_insert now (stats s)
    /\ data_queue s' = data_queue s
    /\ p_fonte row = source r
    /\ p_flag_falha row = (if truthy (fault_detected r) then "S" else "N")%string.
Proof.
  intros Hh Hst.
  destruct (prepare_medicao_healthy r s Hh Hst)
    as (row & s1 & Hp & Hh1 & Hc & Hm & Hn & Hs & Hq & Hsrc & Hflag).
  exists row.
  unfold insert_sensor_data, insert_body, mbind. rewrite Hp.
  destruct s1 as [[cm1 wk1 n1 fs1] q1 st1 run1 lg1].
  unfold healthy in Hh1. simpl in *. subst.
  unfold lift_db, callproc_sp_insert_medicao, commit, db_bind, round_trip,
    with_working, note_insert, logm, ret.
  simpl. eexists. split; [reflexivity |]. simpl.
  unfold healthy. simpl. rewrite Hm. repeat split; assumption.
Qed.

(** X4.  On a store none of whose round trips fails, a reading whose
    identifier, type and place are strings and whose vibration axes are
    numbers of moderate size (within [2 ** 510], so that no square
    overflows) is stored by one call: [insert_sensor_data] returns [True],
    the transaction is committed with exactly one more measurement row
    (marked with the reading's source and fault flag), after one
    persistence call; [total_records] goes up by one, [last_insert] is
    the time of the call, and [failed_inserts] stays. *)
Theorem X4_storable_reading_is_committed (now : datetime) (r : SensorReading)
  (s : Service) :
  healthy (db_connection s) -> storable r = true ->
  exists row s',
    insert_sensor_data now r s = (Ok true, s')
    /\ committed (db_connection s') = working (db_connection s')
    /\ t_medicao (committed (db_connection s'))
       = t_medicao (working (db_connection s)) ++ [row]
    /\ p_fonte row = source r
    /\ p_flag_falha row = (if truthy (fault_detected r) then "S" else "N")%string
    /\ sp_calls (db_connection s') = S (sp_calls (db_connection s))
    /\ total_records (stats s') = (total_records (stats s) + 1)%Z
    /\ last_insert (stats s') = Some now
    /\ failed_inserts (stats s') = failed_inserts (stats s).
Proof.
  intros Hh Hst.
  destruct (insert_sensor_data_healthy now r s Hh Hst)
    as (row & s' & Hi & _ & Hc & Hm & Hn & Hs & _ & Hsrc & Hflag).
  exists row, s'. rewrite Hs. simpl. repeat split; assumption.
Qed.

(** X5.  A reading whose device identifier is not a string is never
    stored: [insert_sensor_data] stops before any statement reaches the
    store, so there is no persistence call; when the handler's rollback
    goes through it returns [False] and counts one failure. *)
Theorem X5_reading_without_text_identifier_is_refused (now : datetime)
  (r : SensorReading) (s : Service) :
  is_str (device_id r) = false ->
  hd false (faults (db_connection s)) = false ->
  exists s',
    insert_sensor_data now r s = (Ok false, s')
    /\ sp_calls (db_connection s') = sp_calls (db_connection s)
    /\ committed (db_connection s') = committed (db_connection s)
    /\ working (db_connection s') = committed (db_connection s)
    /\ failed_inserts (stats s') = (failed_inserts (stats s) + 1)%Z
    /\ total_records (stats s') = total_records (stats s).
Proof.
  intros Hdev Hroll.
  unfold insert_sensor_data, insert_body, prepare_medicao, get_or_create_equipment,
    mbind, lift.
  destruct (device_id r); try discriminate; simpl;
    unfold logm, lift_db, rollback, db_bind, round_trip, note_failure, ret; simpl;
    destruct (faults (db_connection s)) as [| [|] fs]; simpl in *; try discriminate;
    eexists; (split; [reflexivity |]); simpl; repeat split; reflexivity.
Qed.

End StoringReadings.

(* ================================================================= *)
(** ** Machines and sensors are registered once *)

Section Registering.
Context {L : PyLib}.
Import Ingestion.

Lemma count_key_app (k : string) (rows : list (string * string * string))
  (a b : string) :
  count_key k (rows ++ [(k, a, b)]) = S (count_key k rows).
Proof.
  unfold count_key. rewrite filter_app, length_app. simpl.
  rewrite String.eqb_refl. simpl. lia.
Qed.

(** What a call of [get_or_create_equipment] that returns has done. *)
Lemma get_or_create_equipment_returns (r : SensorReading) (s s1 : Service) (id : string) :
  get_or_create_equipment r s = (Ok id, s1) ->
  exists dev,
    device_id r = JStr dev
    /\ id = (replace "_" "" (replace "ESP32_" "" dev) ++ "_EQ")%string
    /\ t_sensor (working (db_connection s1)) = t_sensor (working (db_connection s))
    /\ t_medicao (working (db_connection s1)) = t_medicao (working (db_connection s))
    /\ ((count_key id (t_equipamento (working (db_connection s))) <> 0%nat
         /\ t_equipamento (working (db_connection s1))
            = t_equipamento (working (db_connection s)))
        \/ (count_key id (t_equipamento (working (db_connection s))) = 0%nat
            /\ exists ty loc,
                 equipment_type r = JStr ty /\ location r = JStr loc
                 /\ t_equipamento (working (db_connection s1))
                    = t_equipamento (working (db_connection s))
                      ++ [(id, str_take 16 ty, str_take 50 loc)])).
Proof.
  unfold get_or_create_equipment, mbind, lift, lift_db, logm, ret,
    select_count_equipamento, insert_equipamento, db_bind, round_trip,
    with_working, read_working.
  destruct (device_id r) as [| | | dev | |]; simpl; try discriminate.
  set (id0 := (replace "_" "" (replace "ESP32_" "" dev) ++ "_EQ")%string).
  destruct s as [[cm wk n fs] q st run lg]. simpl.
  assert (Hold : (count_key id0 (t_equipamento wk) =? 0)%nat = false ->
                 forall c, (Ok id0, set_db_connection c
                                      {| db_connection := {| committed := cm; working := wk;
                                                             sp_calls := n; faults := fs |};
                                         data_queue := q; stats := st; is_running := run;
                                         log := lg |}) = (Ok id, s1) ->
                           working c = wk ->
                 exists dev0,
                   JStr dev = JStr dev0
                   /\ id = (replace "_" "" (replace "ESP32_" "" dev0) ++ "_EQ")%string
                   /\ t_sensor (working (db_connection s1)) = t_sensor wk
                   /\ t_medicao (working (db_connection s1)) = t_medicao wk
                   /\ ((count_key id (t_equipamento wk) <> 0%nat
                        /\ t_equipamento (working (db_connection s1)) = t_equipamento wk)
                       \/ (count_key id (t_equipamento wk) = 0%nat
                           /\ exists ty loc,
                                equipment_type r = JStr ty /\ location r = JStr loc
                                /\ t_equipamento (working (db_connection s1))
                                   = t_equipamento wk
                                     ++ [(id, str_take 16 ty, str_take 50 loc)]))).
  { intros Hc c H Hw. inversion H; subst. simpl. exists dev.
    repeat (split; [reflexivity |]). left.
    apply Nat.eqb_neq in Hc. split; [exact Hc | reflexivity]. }
  destruct fs as [| [|] fs]; simpl; try discriminate;
    (destruct (Nat.eqb (count_key id0 (t_equipamento wk)) 0) eqn:Hc;
     [ apply Nat.eqb_eq in Hc
     | specialize (Hold eq_refl); intros H; eapply Hold; try exact H; reflexivity ]);
    destruct (equipment_type r) as [| | | ty | |]; simpl; try discriminate;
    destruct (location r) as [| | | loc | |]; simpl; try discriminate;
    try (destruct fs as [| [|] fs]; simpl; try discriminate);
    intros H; inversion H; subst; simpl; exists dev;
    repeat (split; [reflexivity |]); right;
    (split; [exact Hc |]); exists ty, loc; repeat split; reflexivity.
Qed.

(** X6.  [get_or_create_equipment] registers a machine once: after a
    call that returns, the machine is in the table the transaction sees,
    as many times as before and at least once, and a later call for a
    reading of the same device adds no row. *)
Theorem X6_machine_is_registered_once (r : SensorReading) (s s1 : Service) (id : string) :
  get_or_create_equipment r s = (Ok id, s1) ->
  count_key id (t_equipamento (working (db_connection s1)))
  = Nat.max 1 (count_key id (t_equipamento (working (db_connection s))))
  /\ forall r2 s2 id2,
       device_id r2 = device_id r ->
       get_or_create_equipment r2 s1 = (Ok id2, s2) ->
       id2 = id /\ working (db_connection s2) = working (db_connection s1).
Proof.
  intros H.
  destruct (get_or_create_equipment_returns _ _ _ _ H)
    as (dev & Hdev & Hid & _ & _ & Hcase).
  assert (Hcount : count_key id (t_equipamento (working (db_connection s1)))
                   = Nat.max 1 (count_key id (t_equipamento (working (db_connection s))))).
  { destruct Hcase as [[Hn ->] | [Hz (ty & loc & _ & _ & ->)]].
    - lia.
    - rewrite count_key_app, Hz. reflexivity. }
  split; [exact Hcount |].
  intros r2 s2 id2 Hsame H2.
  destruct (get_or_create_equipment_returns _ _ _ _ H2)
    as (dev2 & Hdev2 & Hid2 & Hs2 & Hm2 & Hcase2).
  assert (dev2 = dev) by congruence. subst dev2.
  assert (Hi : id2 = id) by (rewrite Hid2, Hid; reflexivity).
  rewrite Hi in Hcase2. split; [exact Hi |].
  destruct Hcase2 as [[_ He] | [Hz _]]; [| rewrite Hcount in Hz; lia].
  destruct (working (db_connection s2)), (working (db_connection s1)).
  simpl in *. congruence.
Qed.

(** What a call of [get_or_create_sensor] that returns has done. *)
Lemma get_or_create_sensor_returns (r : SensorReading) (s s1 : Service) (id : string) :
  get_or_create_sensor r s = (Ok id, s1) ->
  exists dev,
    device_id r = JStr dev
    /\ id = replace "ESP32_" "SENS_" dev
    /\ t_equipamento (working (db_connection s1))
       = t_equipamento (working (db_connection s))
    /\ t_medicao (working (db_connection s1)) = t_medicao (working (db_connection s))
    /\ ((count_key id (t_sensor (working (db_connection s))) <> 0%nat
         /\ t_sensor (working (db_connection s1)) = t_sensor (working (db_connection s)))
        \/ (count_key id (t_sensor (working (db_connection s))) = 0%nat
            /\ t_sensor (working (db_connection s1))
               = t_sensor (working (db_connection s))
                 ++ [(id, "ESP32_Multi", "Mixed")%string])).
Proof.
  unfold get_or_create_sensor, mbind, lift, lift_db, logm, ret,
    select_count_sensor, insert_sensor, db_bind, round_trip,
    with_working, read_working.
  destruct (device_id r) as [| | | dev | |]; simpl; try discriminate.
  set (id0 := replace "ESP32_" "SENS_" dev).
  destruct s as [[cm wk n fs] q st run lg]. simpl.
  destruct fs as [| [|] fs]; simpl; try discriminate;
    (destruct (Nat.eqb (count_key id0 (t_sensor wk)) 0) eqn:Hc;
     [ apply Nat.eqb_eq in Hc | apply Nat.eqb_neq in Hc ]); simpl;
    try (destruct fs as [| [|] fs]; simpl; try discriminate);
    intros H; inversion H; subst; simpl; exists dev;
    repeat (split; [reflexivity |]);
    first [ right; split; [exact Hc | reflexivity]
          | left; split; [exact Hc | reflexivity] ].
Qed.

(** X7.  [get_or_create_sensor] registers a sensor once, under the
    device identifier with [ESP32_] replaced by [SENS_]: after a call
    that returns the sensor is in the table, and a later call for a
    reading of the same device adds no row. *)
Theorem X7_sensor_is_registered_once (r : SensorReading) (s s1 : Service) (id : string) :
  get_or_create_sensor r s = (Ok id, s1) ->
  count_key id (t_sensor (working (db_connection s1)))
  = Nat.max 1 (count_key id (t_sensor (working (db_connection s))))
  /\ forall r2 s2 id2,
       device_id r2 = device_id r ->
       get_or_create_sensor r2 s1 = (Ok id2, s2) ->
       id2 = id /\ working (db_connection s2) = working (db_connection s1).
Proof.
  intros H.
  destruct (get_or_create_sensor_returns _ _ _ _ H)
    as (dev & Hdev & Hid & _ & _ & Hcase).
  assert (Hcount : count_key id (t_sensor (working (db_connection s1)))
                   = Nat.max 1 (count_key id (t_sensor (working (db_connection s))))).
  { destruct Hcase as [[Hn ->] | [Hz ->]].
    - lia.
    - rewrite count_key_app, Hz. reflexivity. }
  split; [exact Hcount |].
  intros r2 s2 id2 Hsame H2.
  destruct (get_or_create_sensor_returns _ _ _ _ H2)
    as (dev2 & Hdev2 & Hid2 & Hs2 & Hm2 & Hcase2).
  assert (dev2 = dev) by congruence. subst dev2.
  assert (Hi : id2 = id) by (rewrite Hid2, Hid; reflexivity).
  rewrite Hi in Hcase2. split; [exact Hi |].
  destruct Hcase2 as [[_ He] | [Hz _]]; [| rewrite Hcount in Hz; lia].
  destruct (working (db_connection s2)), (working (db_connection s1)).
  simpl in *. congruence.
Qed.

End Registering.

(* ================================================================= *)
(** ** The widths of a machine row *)

Section MachineRows.
Context {L : PyLib}.
Import Ingestion.

Lemma str_take_length (n : nat) : forall s, (String.length (str_take n s) <= n)%nat.
Proof.
  unfold str_take.
  induction n as [| n IH]; intros [| c s]; simpl; try lia.
  specialize (IH s). lia.
Qed.

Local Abbreviation fits_kept :=
  (fun s s' : Service =>
     equipment_fits (db_connection s) -> equipment_fits (db_connection s')).

Lemma fits_kept_trans (a b c : Service) : fits_kept a b -> fits_kept b c -> fits_kept a c.
Proof. intros Hab Hbc Ha. exact (Hbc (Hab Ha)). Qed.

Lemma fits_lift_db {A : Type} (m : db A) :
  (forall c, equipment_fits c -> equipment_fits (snd (m c))) ->
  respects fits_kept (lift_db m).
Proof.
  intros Hm s. unfold lift_db. specialize (Hm (db_connection s)).
  destruct (m (db_connection s)) as [r c]. simpl in *. exact Hm.
Qed.

Lemma fits_quiet {A : Type} (m : db A) :
  (forall c, working (snd (m c)) = working c /\ committed (snd (m c)) = committed c) ->
  respects fits_kept (lift_db m).
Proof.
  intros Hm. apply fits_lift_db. intros c [Hw Hc].
  destruct (Hm c) as [Ew Ec]. unfold equipment_fits. rewrite Ew, Ec. split; assumption.
Qed.

Lemma fits_insert_equipamento (id ty loc : string) :
  respects fits_kept
    (lift_db (insert_equipamento (id, str_take 16 ty, str_take 50 loc))).
Proof.
  apply fits_lift_db. intros c [Hw Hc].
  unfold insert_equipamento, db_bind, round_trip, with_working.
  destruct (faults c) as [| [|] fs]; simpl; unfold equipment_fits; simpl;
    (split; [| exact Hc]); try exact Hw;
    (apply Forall_app; split; [exact Hw |]);
    (constructor; [| constructor]);
    split; simpl; apply str_take_length.
Qed.

Lemma fits_insert_sensor (row : string * string * string) :
  respects fits_kept (lift_db (insert_sensor row)).
Proof.
  apply fits_lift_db. intros c [Hw Hc].
  unfold insert_sensor, db_bind, round_trip, with_working.
  destruct (faults c) as [| [|] fs]; simpl; unfold equipment_fits; simpl;
    split; assumption.
Qed.

Lemma fits_callproc (row : Medicao) :
  respects fits_kept (lift_db (callproc_sp_insert_medicao row)).
Proof.
  apply fits_lift_db. intros c [Hw Hc].
  unfold callproc_sp_insert_medicao, db_bind, round_trip, with_working. simpl.
  destruct (faults c) as [| [|] fs]; simpl; unfold equipment_fits; simpl;
    split; assumption.
Qed.

Lemma fits_commit : respects fits_kept (lift_db commit).
Proof.
  apply fits_lift_db. intros c [Hw Hc].
  unfold commit, db_bind, round_trip.
  destruct (faults c) as [| [|] fs]; simpl; unfold equipment_fits; simpl;
    split; assumption.
Qed.

Lemma fits_rollback : respects fits_kept (lift_db rollback).
Proof.
  apply fits_lift_db. intros c [Hw Hc].
  unfold rollback, db_bind, round_trip.
  destruct (faults c) as [| [|] fs]; simpl; unfold equipment_fits; simpl;
    split; assumption.
Qed.

Lemma fits_select_equipamento (k : string) :
  respects fits_kept (lift_db (select_count_equipamento k)).
Proof.
  apply fits_quiet. intros c.
  unfold select_count_equipamento, db_bind, round_trip, read_working.
  destruct (faults c) as [| [|] fs]; simpl; split; reflexivity.
Qed.

Lemma fits_select_sensor (k : string) :
  respects fits_kept (lift_db (select_count_sensor k)).
Proof.
  apply fits_quiet. intros c.
  unfold select_count_sensor, db_bind, round_trip, read_working.
  destruct (faults c) as [| [|] fs]; simpl; split; reflexivity.
Qed.

Ltac fits_steps :=
  repeat first
    [ apply fits_select_equipamento | apply fits_select_sensor
    | apply fits_insert_equipamento | apply fits_insert_sensor
    | apply fits_callproc | apply fits_commit | apply fits_rollback
    | apply respects_bind; [exact fits_kept_trans | | intros ?]
    | match goal with
      | |- respects _ (if ?b then _ else _) => destruct b
      | |- respects _ (lift _) => intros ? ?; assumption
      | |- respects _ (ret _) => intros ? ?; assumption
      | |- respects _ (logm _ _) => intros ? ?; assumption
      | |- respects _ (note_insert _) => intros ? ?; assumption
      | |- respects _ note_failure => intros ? ?; assumption
      end ].

Lemma fits_insert_sensor_data (now : datetime) (r : SensorReading) :
  respects fits_kept (insert_sensor_data now r).
Proof.
  assert (Hbody : respects fits_kept (insert_body now r)).
  { unfold insert_body, prepare_medicao, get_or_create_equipment, get_or_create_sensor.
    fits_steps. }
  intros s. unfold insert_sensor_data.
  specialize (Hbody s).
  destruct (insert_body now r s) as [[b | e] s1]; simpl in Hbody; [exact Hbody |].
  intros Hs. apply Hbody in Hs. revert Hs. generalize s1.
  change (respects fits_kept
            (logm ERROR "Erro ao inserir dados no banco" ;;;
             lift_db rollback ;;; note_failure ;;; ret false)%M).
  fits_steps.
Qed.

Lemma fits_insert_batch (now : datetime) (batch : list SensorReading) :
  forall n, respects fits_kept (insert_batch now batch n).
Proof.
  induction batch as [| r rest IH]; intros n; simpl.
  - intros s Hs. exact Hs.
  - apply respects_bind;
      [exact fits_kept_trans | apply fits_insert_sensor_data | intros ok; apply IH].
Qed.

Lemma fits_processing_iteration (now : datetime) (s : Service) :
  equipment_fits (db_connection s) ->
  equipment_fits (db_connection (processing_iteration now s)).
Proof.
  intros Hs. unfold processing_iteration.
  destruct (collect_batch batch_insert_size [] (data_queue s)) as [batch q].
  destruct batch as [| r rest]; [exact Hs |].
  pose proof (fits_insert_batch now (r :: rest) 0 (set_data_queue q s) Hs) as Hb.
  destruct (insert_batch now (r :: rest) 0 (set_data_queue q s)) as [[n | e] s2];
    exact Hb.
Qed.

Lemma process_sensor_data_store (payload : result json) (s : Service) :
  db_connection (process_sensor_data payload s) = db_connection s
  /\ stats (process_sensor_data payload s) = stats s.
Proof.
  destruct (process_sensor_data_outcome payload s)
    as [(lv & msg & _ & ->) | (data & r & msg & _ & _ & _ & _ & ->)];
    split; reflexivity.
Qed.

(** X8.  Whatever payloads arrive and whenever the batch writer runs,
    the machine rows in the store, pending or committed, keep a type of
    at most 16 characters and a place of at most 50: the only statement
    that writes them cuts both. *)
Theorem X8_machine_rows_keep_their_widths (steps : list ingestion_step) :
  forall s,
    equipment_fits (db_connection s) ->
    equipment_fits (db_connection (ingestion_run steps s)).
Proof.
  induction steps as [| e rest IH]; intros s Hs; simpl; [exact Hs |].
  apply IH. destruct e as [payload | now].
  - rewrite (proj1 (process_sensor_data_store payload s)). exact Hs.
  - apply fits_processing_iteration. exact Hs.
Qed.

End MachineRows.

(* ================================================================= *)
(** ** From a message to a row *)

Section MessageToRow.
Context {L : PyLib}.
Import Ingestion.

Lemma process_sensor_data_log (payload : result json) (lv : level) (msg : string)
  (s : Service) :
  data_queue (process_sensor_data payload (add_log lv msg s))
  = data_queue (process_sensor_data payload s).
Proof.
  unfold process_sensor_data.
  destruct payload as [data | []]; try reflexivity.
  destruct (all_in required_fields data) as [[|] | e]; try reflexivity.
  destruct (build_reading data) as [r | e]; try reflexivity.
  simpl. destruct (full (data_queue s)); reflexivity.
Qed.

(** X9.  A message on a topic that does not contain [sensors/data], and
    a message whose bytes are not UTF-8, change nothing but the log:
    the queue, the counters and the store stay as they are.  A message
    on a sensor-data topic does to the queue what [process_sensor_data]
    does. *)
Theorem X9_only_sensor_topics_reach_the_queue (topic : string)
  (payload : option (result json)) (s : Service) :
  (str_contains "sensors/data" topic = false \/ payload = None ->
   data_queue (on_mqtt_message topic payload s) = data_queue s
   /\ stats (on_mqtt_message topic payload s) = stats s
   /\ db_connection (on_mqtt_message topic payload s) = db_connection s)
  /\ (forall text,
        str_contains "sensors/data" topic = true -> payload = Some text ->
        data_queue (on_mqtt_message topic payload s)
        = data_queue (process_sensor_data text s)).
Proof.
  unfold on_mqtt_message. split.
  - intros [Htopic | ->]; [| repeat split].
    destruct payload as [text |]; [| repeat split].
    rewrite Htopic.
    destruct (str_contains "heartbeat" topic).
    + unfold process_heartbeat. destruct text as [data | e]; [| repeat split].
      destruct (get_method data "device_id" (JStr "Unknown")); repeat split.
    + destruct (str_contains "status" topic); [| repeat split].
      unfold process_status_message. destruct text; repeat split.
  - intros text Htopic ->. rewrite Htopic. apply process_sensor_data_log.
Qed.

(** X10.  A payload with the three required keys whose time stamp is
    neither a string nor a number, or is a string that is not an ISO
    date, is dropped with an error line: the service is otherwise as it
    was. *)
Theorem X10_unreadable_timestamp_is_dropped (kv : list (string * json)) (ts : json)
  (s : Service) :
  dict_in "device_id" kv = true -> dict_in "sensors" kv = true ->
  dict_get "timestamp" kv = Some ts ->
  (is_str ts = false /\ is_number ts = false)
  \/ (exists text, ts = JStr text /\ fromisoformat (replace "Z" "+00:00" text) = None) ->
  process_sensor_data (Ok (JObj kv)) s
  = add_log ERROR "Erro ao processar dados de sensor" s.
Proof.
  intros Hdev Hsens Hts Hbad.
  unfold process_sensor_data. rewrite all_in_object.
  unfold required_fields. cbn [forallb].
  rewrite Hdev, Hsens. unfold dict_in at 1. rewrite Hts. cbn [andb].
  unfold build_reading. cbn [subscript]. rewrite Hts. cbn [bind].
  destruct Hbad as [[Hs Hn] | (text & -> & Hiso)].
  - destruct ts as [| [|] | q | text | l | kv']; simpl in *; try discriminate; reflexivity.
  - simpl. rewrite Hiso. reflexivity.
Qed.

Lemma empty_queue_not_full (q : Queue) : items q = [] -> full q = false.
Proof.
  intros H. unfold full, qsize. rewrite H. simpl.
  destruct (maxsize q); reflexivity.
Qed.

(** X11.  From a message to a row: a payload that passes the field test
    and decodes to a storable reading, arriving at a service with an
    empty queue and a store that does not fail, is stored by the next
    turn of the batch writer.  The queue is empty again, one measurement
    row is committed and counted, no failure is counted. *)
Theorem X11_accepted_payload_is_stored_by_the_next_drain (now : datetime)
  (data : json) (r : SensorReading) (s : Service) :
  all_in required_fields data = Ok true ->
  build_reading data = Ok r ->
  storable r = true ->
  items (data_queue s) = [] ->
  healthy (db_connection s) ->
  exists row,
    items (data_queue (processing_iteration now (process_sensor_data (Ok data) s))) = []
    /\ t_medicao (committed (db_connection
                    (processing_iteration now (process_sensor_data (Ok data) s))))
       = t_medicao (working (db_connection s)) ++ [row]
    /\ total_records (stats (processing_iteration now (process_sensor_data (Ok data) s)))
       = (total_records (stats s) + 1)%Z
    /\ failed_inserts (stats (processing_iteration now (process_sensor_data (Ok data) s)))
       = failed_inserts (stats s).
Proof.
  intros Hall Hr Hst Hq Hh.
  assert (Hs1 : process_sensor_data (Ok data) s
                = add_log DEBUG "Dados adicionados a fila"
                    (set_data_queue {| maxsize := maxsize (data_queue s); items := [r] |} s)).
  { unfold process_sensor_data. rewrite Hall, Hr, (empty_queue_not_full _ Hq).
    unfold put. rewrite Hq. reflexivity. }
  rewrite Hs1. clear Hs1.
  set (s0 := set_data_queue {| maxsize := maxsize (data_queue s); items := [] |}
               (add_log DEBUG "Dados adicionados a fila"
                  (set_data_queue {| maxsize := maxsize (data_queue s); items := [r] |} s))).
  assert (Hit : forall s2 n,
             insert_batch now [r] 0 s0 = (Ok n, s2) ->
             processing_iteration now
               (add_log DEBUG "Dados adicionados a fila"
                  (set_data_queue {| maxsize := maxsize (data_queue s); items := [r] |} s))
             = add_log INFO "Lote processado" s2).
  { intros s2 n Hb. unfold processing_iteration.
    rewrite collect_batch_firstn.
    cbn [data_queue add_log set_data_queue items maxsize app].
    unfold batch_insert_size. cbn [firstn skipn].
    fold s0. rewrite Hb. reflexivity. }
  assert (Hh0 : healthy (db_connection s0)) by exact Hh.
  destruct (insert_sensor_data_healthy now r s0 Hh0 Hst)
    as (row & s' & Hi & _ & _ & Hm & _ & Hs & Hq' & _).
  exists row.
  rewrite (Hit s' 1%nat).
  - cbn [add_log data_queue db_connection stats].
    rewrite Hq', Hm, Hs. repeat split.
  - cbn [insert_batch]. unfold mbind. rewrite Hi. reflexivity.
Qed.

End MessageToRow.

(* ================================================================= *)
(** ** The counter and the table of measurements *)

Section Counting.
Context {L : PyLib}.
Variable records_today_query : Ingestion.Tables -> Z.
Variable active_devices_query : Ingestion.Tables -> Z.
Import Ingestion.

Local Abbreviation medicao_kept :=
  (fun s s' : Service =>
     t_medicao (working (db_connection s')) = t_medicao (working (db_connection s))).

Lemma medicao_kept_trans (a b c : Service) :
  medicao_kept a b -> medicao_kept b c -> medicao_kept a c.
Proof. cbv beta. intros Hab Hbc. rewrite Hbc. exact Hab. Qed.

Lemma medicao_lift_db {A : Type} (m : db A) :
  (forall c, t_medicao (working (snd (m c))) = t_medicao (working c)) ->
  respects medicao_kept (lift_db m).
Proof.
  intros Hm s. unfold lift_db. specialize (Hm (db_connection s)).
  destruct (m (db_connection s)) as [r c]. simpl in *. exact Hm.
Qed.

Ltac medicao_db :=
  apply medicao_lift_db; intros c;
  unfold select_count_equipamento, select_count_sensor, insert_equipamento,
    insert_sensor, db_bind, round_trip, with_working, read_working;
  destruct (faults c) as [| [|] fs]; reflexivity.

Ltac medicao_steps :=
  repeat first
    [ apply respects_bind; [exact medicao_kept_trans | | intros ?]
    | match goal with
      | |- respects _ (if ?b then _ else _) => destruct b
      | |- respects _ (lift _) => intros ?; reflexivity
      | |- respects _ (ret _) => intros ?; reflexivity
      | |- respects _ (logm _ _) => intros ?; reflexivity
      | |- respects _ (lift_db _) => medicao_db
      end ].

Lemma prepare_medicao_keeps_rows (r : SensorReading) :
  respects medicao_kept (prepare_medicao r).
Proof.
  unfold prepare_medicao, get_or_create_equipment, get_or_create_sensor.
  medicao_steps.
Qed.

(** The store after the [try] block of [insert_sensor_data] has gone
    through: everything is committed, with one more measurement. *)
Lemma insert_body_ok_store (now : datetime) (r : SensorReading) (s s1 : Service) (b : bool) :
  insert_body now r s = (Ok b, s1) ->
  committed (db_connection s1) = working (db_connection s1)
  /\ exists row,
       t_medicao (working (db_connection s1))
       = t_medicao (working (db_connection s)) ++ [row].
Proof.
  unfold insert_body, mbind. intros H.
  pose proof (prepare_medicao_keeps_rows r s) as Hk.
  destruct (prepare_medicao r s) as [[row | e0] s0]; cbn [snd] in Hk; [| discriminate].
  revert H.
  unfold lift_db, callproc_sp_insert_medicao, commit, db_bind, round_trip,
    with_working, note_insert, logm, ret.
  simpl.
  destruct (faults (db_connection s0)) as [| [|] [| [|] fs]]; simpl;
    intros H; inversion H; subst; simpl; rewrite Hk;
    (split; [reflexivity | exists row; reflexivity]).
Qed.

Lemma insert_sensor_data_in_step (now : datetime) (r : SensorReading)
  (s s' : Service) (b : bool) :
  in_step s -> insert_sensor_data now r s = (Ok b, s') -> in_step s'.
Proof.
  intros [Hw Ht] H.
  pose proof (insert_sensor_data_stats now r s s' (Ok b) H) as Hst.
  revert H. unfold insert_sensor_data.
  destruct (insert_body now r s) as [[b1 | e] s1] eqn:Hb.
  - intros H. inversion H; subst.
    destruct (insert_body_ok _ _ _ _ _ Hb) as [-> _].
    destruct (insert_body_ok_store _ _ _ _ _ Hb) as [Hc (row & Hrow)].
    unfold in_step. rewrite Hst. cbn [record_insert total_records].
    split; [symmetry; exact Hc |].
    rewrite Hc, Hrow, Hw, length_app, Ht. cbn [List.length]. lia.
  - clear Hst. destruct (insert_body_raise _ _ _ _ _ Hb) as (_ & Hs1 & Hc & _).
    unfold mbind, logm, lift_db, rollback, db_bind, round_trip, note_failure, ret.
    simpl.
    destruct (faults (db_connection s1)) as [| [|] fs]; simpl;
      intros H; inversion H; subst; unfold in_step; simpl;
      rewrite Hs1, Hc; (split; [reflexivity | exact Ht]).
Qed.

Lemma insert_batch_in_step (now : datetime) (batch : list SensorReading) :
  forall k s n s',
    in_step s -> insert_batch now batch k s = (Ok n, s') -> in_step s'.
Proof.
  induction batch as [| r rest IH]; intros k s n s' Hs H; simpl in H.
  - inversion H; subst. exact Hs.
  - unfold mbind in H.
    destruct (insert_sensor_data now r s) as [[ok | e] s1] eqn:Hi; [| discriminate].
    eapply IH; [| exact H]. eapply insert_sensor_data_in_step; eassumption.
Qed.

(** [update_stats] on a state where the counter and the table agree. *)
Lemma update_stats_in_step (s : Service) :
  in_step s ->
  total_records (stats (update_stats records_today_query active_devices_query s))
  = total_records (stats s).
Proof.
  destruct s as [[cm wk n fs] q st run lg]. unfold in_step. simpl.
  intros [-> Ht].
  unfold update_stats, mbind, lift_db, select_count_medicao, db_bind, round_trip,
    read_working, set_total_records, set_records_today, set_active_devices.
  simpl.
  destruct fs as [| [|] [| [|] [| [|] fs]]]; simpl; auto.
Qed.

Lemma update_stats_keeps (s : Service) :
  failed_inserts (stats (update_stats records_today_query active_devices_query s))
  = failed_inserts (stats s)
  /\ last_insert (stats (update_stats records_today_query active_devices_query s))
     = last_insert (stats s)
  /\ data_queue (update_stats records_today_query active_devices_query s)
     = data_queue s
  /\ working (db_connection (update_stats records_today_query active_devices_query s))
     = working (db_connection s)
  /\ committed (db_connection (update_stats records_today_query active_devices_query s))
     = committed (db_connection s).
Proof.
  destruct s as [[cm wk n fs] q st run lg].
  unfold update_stats, mbind, lift_db, select_count_medicao, db_bind, round_trip,
    read_working, set_total_records, set_records_today, set_active_devices.
  simpl.
  destruct fs as [| [|] [| [|] [| [|] fs]]]; simpl; repeat split.
Qed.

(** X12.  Two ways of counting agree.  Start where nothing is pending
    and [total_records] is the number of measurement rows; after a batch
    that was worked through without an exception leaving
    [insert_sensor_data], [total_records] is again the number of
    committed measurement rows, so that [update_stats], which reads the
    count from the store, leaves it as it is.  [update_stats] does not
    touch [failed_inserts] or [last_insert] either. *)
Theorem X12_counter_agrees_with_the_store (now : datetime)
  (batch : list SensorReading) (s s1 : Service) (n : nat) :
  in_step s ->
  insert_batch now batch 0 s = (Ok n, s1) ->
  total_records (stats s1)
  = Z.of_nat (List.length (t_medicao (committed (db_connection s1))))
  /\ total_records (stats (update_stats records_today_query active_devices_query s1))
     = total_records (stats s1)
  /\ failed_inserts (stats (update_stats records_today_query active_devices_query s1))
     = failed_inserts (stats s1)
  /\ last_insert (stats (update_stats records_today_query active_devices_query s1))
     = last_insert (stats s1).
Proof.
  intros Hs Hb.
  pose proof (insert_batch_in_step now batch 0 s n s1 Hs Hb) as H1.
  split; [exact (proj2 H1) |].
  split; [apply update_stats_in_step; exact H1 |].
  destruct (update_stats_keeps s1) as (Hf & Hl & _). split; assumption.
Qed.

End Counting.

(* ================================================================= *)
(** ** The ingestion service on the reference data *)

(** X4, witness: the reference reading on an empty store. *)
Lemma X4_storable_reading_witness :
  exists row s',
    @Ingestion.insert_sensor_data sample_lib 5 sample_reading (service_with 0)
    = (Ok true, s')
    /\ Ingestion.committed (Ingestion.db_connection s')
       = Ingestion.working (Ingestion.db_connection s')
    /\ Ingestion.t_medicao (Ingestion.committed (Ingestion.db_connection s'))
       = Ingestion.t_medicao
           (Ingestion.working (Ingestion.db_connection (service_with 0))) ++ [row]
    /\ Ingestion.p_fonte row = Ingestion.source sample_reading
    /\ Ingestion.p_flag_falha row
       = (if truthy (Ingestion.fault_detected sample_reading) then "S" else "N")%string
    /\ Ingestion.sp_calls (Ingestion.db_connection s')
       = S (Ingestion.sp_calls (Ingestion.db_connection (service_with 0)))
    /\ Ingestion.total_records (Ingestion.stats s')
       = (Ingestion.total_records (Ingestion.stats (service_with 0)) + 1)%Z
    /\ Ingestion.last_insert (Ingestion.stats s') = Some 5%Z
    /\ Ingestion.failed_inserts (Ingestion.stats s')
       = Ingestion.failed_inserts (Ingestion.stats (service_with 0)).
Proof.
  apply (@X4_storable_reading_is_committed sample_lib 5 sample_reading (service_with 0)).
  - reflexivity.
  - reflexivity.
Defined.

(** X5, witness: a reading whose identifier is the number 7. *)
Lemma X5_numbered_reading_witness :
  exists s',
    @Ingestion.insert_sensor_data sample_lib 5 numbered_reading (service_with 0)
    = (Ok false, s')
    /\ Ingestion.sp_calls (Ingestion.db_connection s')
       = Ingestion.sp_calls (Ingestion.db_connection (service_with 0))
    /\ Ingestion.committed (Ingestion.db_connection s')
       = Ingestion.committed (Ingestion.db_connection (service_with 0))
    /\ Ingestion.working (Ingestion.db_connection s')
       = Ingestion.committed (Ingestion.db_connection (service_with 0))
    /\ Ingestion.failed_inserts (Ingestion.stats s')
       = (Ingestion.failed_inserts (Ingestion.stats (service_with 0)) + 1)%Z
    /\ Ingestion.total_records (Ingestion.stats s')
       = Ingestion.total_records (Ingestion.stats (service_with 0)).
Proof.
  apply (@X5_reading_without_text_identifier_is_refused sample_lib 5 numbered_reading
           (service_with 0)).
  - reflexivity.
  - reflexivity.
Defined.

(** X6, witness: the machine of the reference reading. *)
Lemma X6_machine_witness :
  Ingestion.count_key "HERMES001_EQ"
    (Ingestion.t_equipamento
       (Ingestion.working
          (Ingestion.db_connection
             (snd (Ingestion.get_or_create_equipment sample_reading (service_with 0))))))
  = 1%nat.
Proof.
  refine (proj1 (X6_machine_is_registered_once sample_reading (service_with 0)
                   (snd (Ingestion.get_or_create_equipment sample_reading (service_with 0)))
                   "HERMES001_EQ" _)).
  vm_compute. reflexivity.
Defined.

(** X7, witness: the sensor of the reference reading. *)
Lemma X7_sensor_witness :
  Ingestion.count_key "SENS_HERMES_001"
    (Ingestion.t_sensor
       (Ingestion.working
          (Ingestion.db_connection
             (snd (Ingestion.get_or_create_sensor sample_reading (service_with 0))))))
  = 1%nat.
Proof.
  refine (proj1 (X7_sensor_is_registered_once sample_reading (service_with 0)
                   (snd (Ingestion.get_or_create_sensor sample_reading (service_with 0)))
                   "SENS_HERMES_001" _)).
  vm_compute. reflexivity.
Defined.

(** X8, witness: a payload arrives and is written; the one machine row
    fits. *)
Lemma X8_machine_rows_witness :
  equipment_fits
    (Ingestion.db_connection
       (@ingestion_run sample_lib [Arrive (Ok sample_payload); Drain 5] (service_with 0))).
Proof.
  apply (@X8_machine_rows_keep_their_widths sample_lib).
  split; constructor.
Defined.

(** X9, witness: a status message. *)
Lemma X9_status_message_witness :
  Ingestion.data_queue
    (@Ingestion.on_mqtt_message sample_lib "hermes/sensors/status"
       (Some (Ok sample_payload)) (service_with 3))
  = Ingestion.data_queue (service_with 3).
Proof.
  refine (proj1 (proj1 (@X9_only_sensor_topics_reach_the_queue sample_lib
                          "hermes/sensors/status" (Some (Ok sample_payload))
                          (service_with 3)) _)).
  left. reflexivity.
Defined.

(** X10, witness: a payload whose time stamp is [null]. *)
Lemma X10_null_timestamp_witness :
  @Ingestion.process_sensor_data sample_lib (Ok (JObj null_timestamp_fields))
    (service_with 0)
  = Ingestion.add_log ERROR "Erro ao processar dados de sensor" (service_with 0).
Proof.
  apply (@X10_unreadable_timestamp_is_dropped sample_lib null_timestamp_fields JNull).
  - reflexivity.
  - reflexivity.
  - reflexivity.
  - left. split; reflexivity.
Defined.

(** X11, witness: the reference payload at an idle service. *)
Lemma X11_reference_payload_witness :
  exists row,
    Ingestion.items
      (Ingestion.data_queue
         (@Ingestion.processing_iteration sample_lib 5
            (@Ingestion.process_sensor_data sample_lib (Ok sample_payload)
               (service_with 0)))) = []
    /\ Ingestion.t_medicao
         (Ingestion.committed
            (Ingestion.db_connection
               (@Ingestion.processing_iteration sample_lib 5
                  (@Ingestion.process_sensor_data sample_lib (Ok sample_payload)
                     (service_with 0)))))
       = Ingestion.t_medicao
           (Ingestion.working (Ingestion.db_connection (service_with 0))) ++ [row]
    /\ Ingestion.total_records
         (Ingestion.stats
            (@Ingestion.processing_iteration sample_lib 5
               (@Ingestion.process_sensor_data sample_lib (Ok sample_payload)
                  (service_with 0))))
       = (Ingestion.total_records (Ingestion.stats (service_with 0)) + 1)%Z
    /\ Ingestion.failed_inserts
         (Ingestion.stats
            (@Ingestion.processing_iteration sample_lib 5
               (@Ingestion.process_sensor_data sample_lib (Ok sample_payload)
                  (service_with 0))))
       = Ingestion.failed_inserts (Ingestion.stats (service_with 0)).
Proof.
  apply (@X11_accepted_payload_is_stored_by_the_next_drain sample_lib 5
           sample_payload sample_reading (service_with 0)).
  - reflexivity.
  - vm_compute. reflexivity.
  - reflexivity.
  - reflexivity.
  - reflexivity.
Defined.

(** X12, witness: two readings written to an empty store, then the
    statistics are refreshed. *)
Lemma X12_counter_witness :
  Ingestion.total_records
    (Ingestion.stats
       (Ingestion.update_stats (fun _ => 0%Z) (fun _ => 0%Z)
          (snd (@Ingestion.insert_batch sample_lib 5 [sample_reading; sample_reading] 0
                  (service_with 0)))))
  = 2%Z.
Proof.
  refine (eq_trans
            (proj1 (proj2 (@X12_counter_agrees_with_the_store sample_lib
                             (fun _ => 0%Z) (fun _ => 0%Z) 5
                             [sample_reading; sample_reading] (service_with 0)
                             (snd (@Ingestion.insert_batch sample_lib 5
                                     [sample_reading; sample_reading] 0 (service_with 0)))
                             2 _ _))) _).
  - split; reflexivity.
  - vm_compute. reflexivity.
  - vm_compute. reflexivity.
Defined.

(* ================================================================= *)
(** ** More on the quality checks *)

Section QualityChecks.
Context {L : PyLib}.
Import Etl.

Lemma count_if_bounds {A : Type} (f : A -> bool) (xs : list A) :
  (0 <= count_if f xs <= Z.of_nat (List.length xs))%Z.
Proof.
  unfold count_if. pose proof (filter_length_le f xs). lia.
Qed.

Lemma col_nulls_bounds (c : column) : (0 <= col_nulls c <= Z.of_nat (col_len c))%Z.
Proof. destruct c; simpl; apply count_if_bounds. Qed.

Lemma isnull_sum_sum_bounds (df : DataFrame) :
  well_formed df ->
  (0 <= isnull_sum_sum df <= len df * Z.of_nat (List.length (columns df)))%Z.
Proof.
  unfold well_formed, isnull_sum_sum, len.
  induction (columns df) as [| [n c] cols IH]; intros Hwf; simpl.
  - lia.
  - inversion Hwf as [| ? ? Hc Hrest]; subst. simpl in Hc.
    specialize (IH Hrest). pose proof (col_nulls_bounds c). nia.
Qed.

Lemma isnull_sum_sum_nonneg (df : DataFrame) : (0 <= isnull_sum_sum df)%Z.
Proof.
  unfold isnull_sum_sum.
  induction (columns df) as [| [n c] cols IH]; simpl; [lia |].
  pose proof (col_nulls_bounds c). lia.
Qed.

Lemma duplicated_sum_bounds {A : Type} (eqb : A -> A -> bool) (xs : list A) :
  forall seen, (0 <= duplicated_sum eqb seen xs <= Z.of_nat (List.length xs))%Z.
Proof.
  induction xs as [| x rest IH]; intros seen; simpl; [lia |].
  specialize (IH (x :: seen)).
  destruct (existsb (eqb x) seen); lia.
Qed.

Lemma duplicated_sum_zero {A : Type} (eqb : A -> A -> bool) (xs : list A) :
  forall seen,
    duplicated_sum eqb seen xs = 0%Z
    <-> Forall (fun x => existsb (eqb x) seen = false) xs
        /\ ForallOrdPairs (fun a b => eqb b a = false) xs.
Proof.
  induction xs as [| x rest IH]; intros seen; simpl.
  - split; [intros _; split; constructor | reflexivity].
  - pose proof (duplicated_sum_bounds eqb rest (x :: seen)) as Hb.
    destruct (existsb (eqb x) seen) eqn:Hx.
    + split; [lia |]. intros [Hall _]. inversion Hall; congruence.
    + rewrite Z.add_0_l, IH. split.
      * intros [Hall Hpairs]. split.
        -- constructor; [exact Hx |].
           eapply Forall_impl; [| exact Hall]. simpl. intros a Ha.
           apply orb_false_iff in Ha. tauto.
        -- constructor; [| exact Hpairs].
           eapply Forall_impl; [| exact Hall]. simpl. intros a Ha.
           apply orb_false_iff in Ha. tauto.
      * intros [Hall Hpairs].
        inversion Hall as [| ? ? _ Hall']; subst.
        inversion Hpairs as [| ? ? Hx' Hpairs']; subst.
        split; [| exact Hpairs'].
        rewrite Forall_forall in *. intros a Ha. simpl.
        rewrite (Hx' a Ha), (Hall' a Ha). reflexivity.
Qed.

Lemma duplicated_sum_map {A B : Type} (f : A -> B) (eqa : A -> A -> bool)
  (eqb : B -> B -> bool) (xs : list A) :
  (forall a a', eqb (f a) (f a') = eqa a a') ->
  forall seen,
    duplicated_sum eqa seen xs = duplicated_sum eqb (map f seen) (map f xs).
Proof.
  intros Heq. induction xs as [| x rest IH]; intros seen; simpl; [reflexivity |].
  rewrite (IH (x :: seen)). simpl.
  replace (existsb (eqb (f x)) (map f seen)) with (existsb (eqa x) seen);
    [reflexivity |].
  induction seen as [| y seen IHs]; simpl; [reflexivity |].
  rewrite Heq, IHs. reflexivity.
Qed.

(** [duplicated] on a column, told on its cells. *)
Lemma col_duplicated_sum_cells (c : column) :
  col_duplicated_sum c = duplicated_sum cell_same [] (cells c).
Proof.
  destruct c as [xs | xs | xs]; simpl;
    apply (duplicated_sum_map _ _ cell_same xs) with (seen := []);
    intros [a |] [a' |]; unfold cell_same; simpl; rewrite ?orb_false_r; reflexivity.
Qed.

Lemma cell_same_trans (a b c : cell) :
  cell_same a b = true -> cell_same b c = true -> cell_same a c = true.
Proof.
  destruct a as [[x |] | [x |] | [x |]], b as [[y |] | [y |] | [y |]],
    c as [[z |] | [z |] | [z |]];
    unfold cell_same; simpl; rewrite ?orb_false_r;
    try discriminate; try reflexivity.
  - apply Qeq_bool_trans.
  - intros H1 H2. apply String.eqb_eq in H1, H2. apply String.eqb_eq. congruence.
  - intros H1 H2. apply Z.eqb_eq in H1, H2. apply Z.eqb_eq. congruence.
Qed.

Lemma existsb_cell_same (x y : cell) (seen : list cell) :
  cell_same y x = true -> existsb (cell_same x) seen = true ->
  existsb (cell_same y) seen = true.
Proof.
  intros Hyx Hx. apply existsb_exists in Hx. destruct Hx as (z & Hz & Hxz).
  apply existsb_exists. exists z. split; [exact Hz |].
  eapply cell_same_trans; eassumption.
Qed.

(** [duplicated] and [unique] count the same values. *)
Lemma duplicated_and_unique (xs : list cell) :
  forall seen seen',
    (forall y, existsb (cell_same y) seen = existsb (cell_same y) seen') ->
    (duplicated_sum cell_same seen xs + Z.of_nat (List.length (unique_from seen' xs))
     = Z.of_nat (List.length xs))%Z.
Proof.
  induction xs as [| x rest IH]; intros seen seen' Hsame; [reflexivity |].
  cbn [duplicated_sum unique_from List.length].
  rewrite <- (Hsame x).
  destruct (existsb (cell_same x) seen) eqn:Hx; cbn [List.length];
    rewrite ?Nat2Z.inj_succ.
  - assert (H : forall y, existsb (cell_same y) (x :: seen)
                          = existsb (cell_same y) seen').
    { intros y. simpl. rewrite <- Hsame.
      destruct (cell_same y x) eqn:Hyx; [| reflexivity].
      simpl. symmetry. eapply existsb_cell_same; eassumption. }
    specialize (IH _ _ H). lia.
  - assert (H : forall y, existsb (cell_same y) (x :: seen)
                          = existsb (cell_same y) (x :: seen')).
    { intros y. simpl. rewrite Hsame. reflexivity. }
    specialize (IH _ _ H). lia.
Qed.

Lemma cells_length (c : column) : List.length (cells c) = col_len c.
Proof. destruct c; simpl; apply length_map. Qed.

(** X13.  The first check of [perform_data_quality_checks] is always
    the null check.  It counts the null cells of all columns together
    and passes exactly when ten times that count is less than the number
    of rows; so it fails on a window without rows, where there is no
    null cell at all. *)
Theorem X13_null_check_weighs_cells_against_rows (ts now : datetime) (df : DataFrame) :
  exists c rest,
    fst (perform_data_quality_checks ts now df) = c :: rest
    /\ check_name c = "NULL_VALUES"%string
    /\ affected_records c = isnull_sum_sum df
    /\ passed c = (10 * isnull_sum_sum df <? len df)%Z
    /\ (nrows df = 0%nat -> passed c = false).
Proof.
  destruct (quality_checks_head ts now df) as [rest Hrest].
  exists (check_null_values ts df), rest.
  split; [exact Hrest |]. split; [reflexivity |]. split; [reflexivity |].
  assert (Hp : passed (check_null_values ts df) = (10 * isnull_sum_sum df <? len df)%Z).
  { unfold check_null_values. cbn [passed]. apply Qltb_tenth. }
  split; [exact Hp |].
  intros Hn. rewrite Hp. unfold len. rewrite Hn.
  pose proof (isnull_sum_sum_nonneg df). apply Z.ltb_ge. lia.
Qed.

(** X14.  The duplicate check looks at the column [ID_MEDICAO]: it
    passes exactly when no value occurs twice in it, two missing
    identifiers counting as the same value, and the number it reports is
    the number of rows less the number of different values. *)
Theorem X14_duplicate_check_means_distinct_identifiers (ts : datetime)
  (df : DataFrame) (c : column) :
  get_col "ID_MEDICAO" (columns df) = Some c ->
  exists chk,
    check_duplicates ts df = [chk]
    /\ check_name chk = "DUPLICATES"%string
    /\ affected_records chk
       = (Z.of_nat (col_len c) - Z.of_nat (List.length (unique c)))%Z
    /\ (passed chk = true <-> all_distinct c).
Proof.
  intros Hc. unfold check_duplicates. rewrite Hc.
  eexists. split; [reflexivity |]. split; [reflexivity |].
  cbn [affected_records passed]. rewrite col_duplicated_sum_cells. split.
  - pose proof (duplicated_and_unique (cells c) [] [] (fun y => eq_refl)) as H.
    rewrite cells_length in H. unfold unique. lia.
  - rewrite Z.eqb_eq, duplicated_sum_zero. unfold all_distinct. split.
    + intros [_ H]. exact H.
    + intros H. split; [| exact H].
      apply Forall_forall. intros x _. reflexivity.
Qed.

Lemma future_records_bounds (now : datetime) (c : column) :
  (0 <= future_records now c <= Z.of_nat (col_len c))%Z.
Proof.
  destruct c as [xs | xs | xs]; simpl; try lia. apply count_if_bounds.
Qed.

Local Abbreviation in_window :=
  (fun (df : DataFrame) (c : DataQualityCheck) =>
     (0 <= affected_records c)%Z
     /\ (affected_records c
         <= if String.eqb (check_name c) "NULL_VALUES"
            then len df * Z.of_nat (List.length (columns df))
            else len df)%Z).

Lemma col_duplicated_sum_bounds (c : column) :
  (0 <= col_duplicated_sum c <= Z.of_nat (col_len c))%Z.
Proof. destruct c; simpl; apply duplicated_sum_bounds. Qed.

(** X15.  What the checks report stays within the window: every check
    reports a number of affected records that is not negative, and every
    check but the null check reports at most the number of rows.  The
    null check counts cells: at most rows times columns. *)
Theorem X15_affected_records_are_bounded (ts now : datetime) (df : DataFrame) :
  well_formed df ->
  Forall (fun c =>
            (0 <= affected_records c)%Z
            /\ (affected_records c
                <= if String.eqb (check_name c) "NULL_VALUES"
                   then len df * Z.of_nat (List.length (columns df))
                   else len df)%Z)
         (fst (perform_data_quality_checks ts now df)).
Proof.
  intros Hwf.
  assert (Hlen : (0 <= len df)%Z) by (unfold len; lia).
  assert (Hnull : Forall (in_window df) [check_null_values ts df]).
  { constructor; [| constructor]. simpl.
    pose proof (isnull_sum_sum_bounds df Hwf). lia. }
  assert (Herr : Forall (in_window df) [quality_check_error ts]).
  { constructor; [| constructor]. simpl. lia. }
  unfold perform_data_quality_checks.
  destruct (check_temperature_range ts df) as [c2 | e] eqn:H2; cbn [fst].
  - assert (Hc2 : Forall (in_window df) c2).
    { revert H2. unfold check_temperature_range.
      destruct (get_col "VL_TEMPERATURA" (columns df)) as [c |] eqn:Hc.
      - destruct c as [xs | xs | xs]; simpl; try discriminate.
        intros H. inversion H; subst. constructor; [| constructor]. simpl.
        pose proof (count_if_bounds
                      (cell_test (fun v => Qltb v (-50) || Qltb 200 v)) xs).
        pose proof (get_col_len _ _ _ Hwf Hc) as Hl. simpl in Hl.
        unfold len. lia.
      - intros H. inversion H; subst. constructor. }
    assert (Hc3 : Forall (in_window df) (check_duplicates ts df)).
    { unfold check_duplicates.
      destruct (get_col "ID_MEDICAO" (columns df)) as [c |] eqn:Hc; [| constructor].
      constructor; [| constructor]. simpl.
      pose proof (col_duplicated_sum_bounds c).
      pose proof (get_col_len _ _ _ Hwf Hc) as Hl. unfold len. lia. }
    destruct (check_future_timestamps ts now df) as [[c4 df'] | e] eqn:H4; cbn [fst].
    + repeat (apply Forall_app; split); try assumption.
      revert H4. unfold check_future_timestamps.
      destruct (get_col "DATAHORA_MEDICAO" (columns df)) as [c |] eqn:Hc.
      * destruct (to_datetime c) as [c' | e] eqn:Ht; simpl; [| discriminate].
        intros H. inversion H; subst. constructor; [| constructor]. simpl.
        pose proof (future_records_bounds now c').
        destruct (to_datetime_len _ _ Ht) as [Hl _].
        pose proof (get_col_len _ _ _ Hwf Hc) as Hl'. unfold len. lia.
      * intros H. inversion H; subst. constructor.
    + repeat (apply Forall_app; split); assumption.
  - apply Forall_app; split; assumption.
Qed.

End QualityChecks.

Section ChecksThatRaise.
Context {L : PyLib}.
Variable aggregate_data_for_reporting : DataFrame -> list (string * DataFrame) * DataFrame.
Variable prediction_count : DataFrame -> Z.
Import Etl.

Local Abbreviation run_cycle := (run_etl_cycle aggregate_data_for_reporting prediction_count).

Lemma fill_column_name (nc : string * column) : fst (fill_column nc) = fst nc.
Proof.
  unfold fill_column. destruct nc as [n [xs | xs | xs]]; cbn [fst snd];
    try reflexivity.
  destruct (0 <? count_if is_none xs)%Z; [| reflexivity].
  destruct (existsb (String.eqb n) median_columns); reflexivity.
Qed.

Lemma get_col_fill_nulls (name : string) (df : DataFrame) :
  get_col name (columns (fill_nulls df))
  = option_map (fun c => snd (fill_column (name, c))) (get_col name (columns df)).
Proof.
  unfold fill_nulls. cbn [columns].
  induction (columns df) as [| [n c] cols IH]; [reflexivity |].
  cbn [map get_col].
  pose proof (fill_column_name (n, c)) as Hn.
  destruct (fill_column (n, c)) as [n' c'] eqn:Hf. simpl in Hn. subst n'.
  destruct (String.eqb name n) eqn:He.
  - apply String.eqb_eq in He. subst n. simpl. rewrite Hf. reflexivity.
  - exact IH.
Qed.

(** X16.  An exception inside the quality checks is no reason to turn a
    window away.  When the temperature column holds text the range check
    raises: the checks are the null check and [QUALITY_CHECK_ERROR],
    which counts no affected record; unless the window has more null
    cells than a fifth of its rows the cycle goes on, the transform
    raises in turn and hands back the window as it came, and the cycle
    ends well with the rows counted as processed. *)
Theorem X16_checks_that_raise_do_not_reject (i : CycleInput) (p : Pipeline)
  (xs : list (option string)) :
  df_empty (df_raw i) = false ->
  get_col "VL_TEMPERATURA" (columns (df_raw i)) = Some (ColObj xs) ->
  (5 * isnull_sum_sum (df_raw i) <= len (df_raw i))%Z ->
  perform_data_quality_checks (t_checks i) (t_future i) (df_raw i)
  = ([check_null_values (t_checks i) (df_raw i); quality_check_error (t_checks i)],
     df_raw i)
  /\ clean_and_transform_data (df_raw i) = df_raw i
  /\ fst (run_cycle i p) = true
  /\ records_processed (metrics (snd (run_cycle i p)))
     = (records_processed (metrics p) + len (df_raw i))%Z
  /\ errors_count (metrics (snd (run_cycle i p))) = errors_count (metrics p).
Proof.
  intros Hne Hcol Hnulls.
  assert (Hq : perform_data_quality_checks (t_checks i) (t_future i) (df_raw i)
               = ([check_null_values (t_checks i) (df_raw i);
                   quality_check_error (t_checks i)], df_raw i)).
  { unfold perform_data_quality_checks, check_temperature_range.
    rewrite Hcol. reflexivity. }
  split; [exact Hq |]. split.
  - unfold clean_and_transform_data. rewrite Hne.
    unfold transform_steps, clipped_columns. cbn [clip_columns].
    rewrite get_col_fill_nulls, Hcol. reflexivity.
  - pose proof (run_etl_cycle_nonempty aggregate_data_for_reporting prediction_count
                  i p Hne) as H.
    assert (Hw : window_rejected i = false).
    { unfold window_rejected. rewrite Hq. cbn [fst existsb].
      unfold exceeds_fifth. cbn [passed affected_records check_null_values
                                 quality_check_error].
      assert (H1 : (len (df_raw i) <? 5 * isnull_sum_sum (df_raw i))%Z = false)
        by (apply Z.ltb_ge; exact Hnulls).
      assert (H2 : (len (df_raw i) <? 5 * 0)%Z = false)
        by (apply Z.ltb_ge; unfold len; lia).
      rewrite H1, H2, andb_false_r. reflexivity. }
    rewrite Hw in H. destruct H as (Hf & He & _ & Hr & _).
    repeat split; assumption.
Qed.

End ChecksThatRaise.

(** X14, witness: the twenty identifiers of the window with gaps. *)
Lemma X14_duplicate_check_witness :
  exists chk,
    Etl.check_duplicates 0 gappy_window = [chk]
    /\ Etl.check_name chk = "DUPLICATES"%string
    /\ Etl.affected_records chk
       = (Z.of_nat (col_len (ColNum (map (fun n => Some (inject_Z (Z.of_nat n)))
                                         (seq 1 20))))
          - Z.of_nat (List.length
                        (unique (ColNum (map (fun n => Some (inject_Z (Z.of_nat n)))
                                             (seq 1 20))))))%Z
    /\ (Etl.passed chk = true
        <-> all_distinct (ColNum (map (fun n => Some (inject_Z (Z.of_nat n)))
                                      (seq 1 20)))).
Proof.
  apply (X14_duplicate_check_means_distinct_identifiers 0 gappy_window).
  reflexivity.
Defined.

(** X15, witness: the checks of the window with gaps. *)
Lemma X15_affected_records_witness :
  Forall (fun c =>
            (0 <= Etl.affected_records c)%Z
            /\ (Etl.affected_records c
                <= if String.eqb (Etl.check_name c) "NULL_VALUES"
                   then len gappy_window
                        * Z.of_nat (List.length (columns gappy_window))
                   else len gappy_window)%Z)
         (fst (@Etl.perform_data_quality_checks sample_lib 0 0 gappy_window)).
Proof.
  apply (@X15_affected_records_are_bounded sample_lib 0 0 gappy_window).
  repeat constructor.
Defined.

(** X16, witness: two readings whose temperatures are text. *)
Lemma X16_text_temperature_witness :
  @Etl.perform_data_quality_checks sample_lib
    (Etl.t_checks (cycle_on text_temperature_window))
    (Etl.t_future (cycle_on text_temperature_window))
    (Etl.df_raw (cycle_on text_temperature_window))
  = ([Etl.check_null_values (Etl.t_checks (cycle_on text_temperature_window))
        (Etl.df_raw (cycle_on text_temperature_window));
      Etl.quality_check_error (Etl.t_checks (cycle_on text_temperature_window))],
     Etl.df_raw (cycle_on text_temperature_window))
  /\ @Etl.clean_and_transform_data sample_lib
       (Etl.df_raw (cycle_on text_temperature_window))
     = Etl.df_raw (cycle_on text_temperature_window)
  /\ fst (@Etl.run_etl_cycle sample_lib sample_aggregate sample_prediction_count
            (cycle_on text_temperature_window) running_pipeline) = true
  /\ Etl.records_processed
       (Etl.metrics
          (snd (@Etl.run_etl_cycle sample_lib sample_aggregate sample_prediction_count
                  (cycle_on text_temperature_window) running_pipeline)))
     = (Etl.records_processed (Etl.metrics running_pipeline)
        + len (Etl.df_raw (cycle_on text_temperature_window)))%Z
  /\ Etl.errors_count
       (Etl.metrics
          (snd (@Etl.run_etl_cycle sample_lib sample_aggregate sample_prediction_count
                  (cycle_on text_temperature_window) running_pipeline)))
     = Etl.errors_count (Etl.metrics running_pipeline).
Proof.
  apply (@X16_checks_that_raise_do_not_reject sample_lib sample_aggregate
           sample_prediction_count (cycle_on text_temperature_window) running_pipeline
           [Some "hot"%string; Some "cold"%string]).
  - reflexivity.
  - reflexivity.
  - vm_compute. discriminate.
Defined.

(* ================================================================= *)
(** ** What the transform hands on *)

Section TransformOutput.
Context {L : PyLib}.
Import Etl.

(** The five steps of a transform that goes through, the last one told
    as a reordering of the rows. *)
Lemma transform_steps_stages (df out : DataFrame) :
  well_formed df -> transform_steps df = Ok out ->
  exists d2 d3 d4 d5 perm,
    clip_columns clipped_columns (fill_nulls df) = Ok d2
    /\ standardize_timestamps d2 = Ok d3
    /\ add_vibration_magnitude d3 = Ok d4
    /\ add_temp_status d4 = Ok d5
    /\ out = reorder perm d5
    /\ Permutation perm (seq 0 (nrows df))
    /\ same_shape df d3 /\ same_shape df d4 /\ same_shape df d5
    /\ match get_col "DATAHORA_MEDICAO" (columns d5) with
       | Some (ColTime keys) => perm = argsort keys
       | Some _ => False
       | None => perm = seq 0 (nrows df)
       end.
Proof.
  intros Hwf. unfold transform_steps.
  pose proof (fill_nulls_shape df Hwf) as S1.
  destruct (clip_columns clipped_columns (fill_nulls df)) as [d2 |] eqn:H2;
    simpl; [| discriminate].
  pose proof (same_shape_trans _ _ _ S1 (clip_columns_shape _ _ _ (proj2 S1) H2)) as S2.
  destruct (standardize_timestamps d2) as [d3 |] eqn:H3; simpl; [| discriminate].
  pose proof (same_shape_trans _ _ _ S2
                (standardize_timestamps_shape _ _ (proj2 S2) H3)) as S3.
  destruct (add_vibration_magnitude d3) as [d4 |] eqn:H4; simpl; [| discriminate].
  pose proof (same_shape_trans _ _ _ S3
                (add_vibration_magnitude_shape _ _ (proj2 S3) H4)) as S4.
  destruct (add_temp_status d4) as [d5 |] eqn:H5; simpl; [| discriminate].
  pose proof (same_shape_trans _ _ _ S4 (add_temp_status_shape _ _ (proj2 S4) H5)) as S5.
  intros H6. exists d2, d3, d4, d5.
  revert H6. unfold sort_by_timestamp, has_col, sort_values.
  destruct (get_col "DATAHORA_MEDICAO" (columns d5)) as [[xs | xs | keys] |] eqn:Hk;
    try discriminate.
  - intros H. inversion H; subst. exists (argsort keys).
    repeat split; try assumption; try apply S3; try apply S4; try apply S5.
    pose proof (get_col_len _ _ _ (proj2 S5) Hk) as Hl. simpl in Hl.
    rewrite <- (proj1 S5), <- Hl. apply argsort_perm.
  - intros H. inversion H; subst. exists (seq 0 (nrows df)).
    repeat split; try assumption; try apply S3; try apply S4; try apply S5;
      try apply Permutation_refl.
    rewrite <- (proj1 S5). symmetry. apply reorder_seq. exact (proj2 S5).
Qed.

Lemma chronological_sorted (l : list (option datetime * nat)) :
  StronglySorted (le_of key_leb) l -> StronglySorted chronological (map fst l).
Proof.
  induction 1 as [| a l Hs IH Hall]; simpl; constructor; [exact IH |].
  apply Forall_map. eapply Forall_impl; [| exact Hall].
  intros b Hb. unfold le_of, key_leb in Hb. unfold chronological.
  destruct (fst a), (fst b); try discriminate; auto.
  apply Z.leb_le. exact Hb.
Qed.

(** X17.  When the transform goes through on a window with a time-stamp
    column, the rows it hands on are in the order of their time stamps:
    the column holds instants, ascending, the missing ones last. *)
Theorem X17_transform_sorts_by_timestamp (df out : DataFrame) (c : column) :
  well_formed df ->
  transform_steps df = Ok out ->
  get_col "DATAHORA_MEDICAO" (columns out) = Some c ->
  exists keys, c = ColTime keys /\ StronglySorted chronological keys.
Proof.
  intros Hwf Hout Hc.
  destruct (transform_steps_stages df out Hwf Hout)
    as (d2 & d3 & d4 & d5 & perm & _ & _ & _ & _ & -> & _ & _ & _ & _ & Hk).
  rewrite get_col_reorder in Hc.
  destruct (get_col "DATAHORA_MEDICAO" (columns d5)) as [[xs | xs | keys] |];
    try contradiction; try discriminate.
  subst perm. simpl in Hc. inversion Hc; subst.
  exists (take_cells (argsort keys) keys). split; [reflexivity |].
  rewrite take_argsort_keys. apply chronological_sorted.
  apply isort_sorted; [exact key_leb_total | exact key_leb_trans].
Qed.

Lemma standardize_timestamps_keeps (d d' : DataFrame) (name : string) :
  standardize_timestamps d = Ok d' ->
  String.eqb name "DATAHORA_MEDICAO" = false ->
  get_col name (columns d') = get_col name (columns d).
Proof.
  unfold standardize_timestamps. intros H Hn.
  destruct (get_col "DATAHORA_MEDICAO" (columns d)) as [c |].
  - destruct (to_datetime c) as [c' |]; simpl in H; [| discriminate].
    inversion H; subst. simpl. apply get_col_assign_other. exact Hn.
  - inversion H; subst. reflexivity.
Qed.

Lemma add_vibration_magnitude_keeps (d d' : DataFrame) (name : string) :
  add_vibration_magnitude d = Ok d' ->
  String.eqb name "VIBRACAO_MAGNITUDE" = false ->
  get_col name (columns d') = get_col name (columns d).
Proof.
  unfold add_vibration_magnitude. intros H Hn.
  destruct (get_col "VL_VIBR_X" (columns d)) as [[xs | xs | xs] |];
    destruct (get_col "VL_VIBR_Y" (columns d)) as [[ys | ys | ys] |];
    destruct (get_col "VL_VIBR_Z" (columns d)) as [[zs | zs | zs] |];
    try discriminate; inversion H; subst; try reflexivity.
  simpl. apply get_col_assign_other. exact Hn.
Qed.

Lemma add_temp_status_keeps (d d' : DataFrame) (name : string) :
  add_temp_status d = Ok d' ->
  String.eqb name "TEMP_STATUS" = false ->
  get_col name (columns d') = get_col name (columns d).
Proof.
  unfold add_temp_status. intros H Hn.
  destruct (get_col "VL_TEMPERATURA" (columns d)) as [[xs | xs | xs] |];
    try discriminate; inversion H; subst; try reflexivity.
  simpl. apply get_col_assign_other. exact Hn.
Qed.

Lemma not_written (name : string) :
  ~ In name written_columns ->
  String.eqb name "DATAHORA_MEDICAO" = false
  /\ ~ In name clipped_columns
  /\ String.eqb name "VIBRACAO_MAGNITUDE" = false
  /\ String.eqb name "TEMP_STATUS" = false.
Proof.
  unfold written_columns, clipped_columns, derived_columns. simpl. intros H.
  repeat split; try (apply String.eqb_neq; intros ->; apply H; tauto).
  intros Hin. apply H. tauto.
Qed.

(** X18.  The transform drops no row and keeps the rows together: when
    it goes through, its rows are the rows of the window in one new
    order, and every column it does not write to (the time stamp, the
    clipped columns and the two derived columns apart) holds its cells
    in that order, a numeric one with its gaps filled. *)
Theorem X18_transform_only_reorders_the_other_columns (df out : DataFrame) :
  well_formed df ->
  transform_steps df = Ok out ->
  exists perm,
    Permutation perm (seq 0 (nrows df))
    /\ nrows out = nrows df
    /\ forall name c,
         ~ In name written_columns ->
         get_col name (columns df) = Some c ->
         get_col name (columns out)
         = Some (take_rows perm (snd (fill_column (name, c)))).
Proof.
  intros Hwf Hout.
  destruct (transform_steps_stages df out Hwf Hout)
    as (d2 & d3 & d4 & d5 & perm & H2 & H3 & H4 & H5 & -> & Hperm & _ & _ & _ & _).
  exists perm. split; [exact Hperm |]. split.
  - simpl. rewrite (Permutation_length Hperm). apply length_seq.
  - intros name c Hname Hc.
    destruct (not_written name Hname) as (Nt & Nc & Nm & Ns).
    rewrite get_col_reorder.
    rewrite (add_temp_status_keeps _ _ _ H5 Ns).
    rewrite (add_vibration_magnitude_keeps _ _ _ H4 Nm).
    rewrite (standardize_timestamps_keeps _ _ _ H3 Nt).
    rewrite (proj2 (clip_columns_get _ _ _ name clipped_columns_NoDup H2) Nc).
    rewrite get_col_fill_nulls, Hc. reflexivity.
Qed.

Lemma magnitudes_present (xs ys zs : list (option Q)) :
  Forall (fun o => o <> None) xs -> Forall (fun o => o <> None) ys ->
  Forall (fun o => o <> None) zs ->
  Forall (fun o => o <> None) (magnitudes xs ys zs).
Proof.
  intros Hx. revert ys zs.
  induction Hx as [| x xs Hx0 _ IH]; intros ys zs Hy Hz; simpl; [constructor |].
  destruct Hy as [| y ys Hy0 Hy]; [constructor |].
  destruct Hz as [| z zs Hz0 Hz]; [constructor |].
  constructor; [| apply IH; assumption].
  destruct x, y, z; simpl; congruence.
Qed.

Lemma calm_plain (name : string) (xs : list (option Q)) :
  existsb (String.eqb name) median_columns = false ->
  calm (name, ColNum xs) -> Forall (fun o => o <> None) xs.
Proof.
  unfold calm. cbn [fst snd]. intros Hn [H | [H _]]; [exact H | congruence].
Qed.

Lemma add_vibration_magnitude_calm (d d' : DataFrame) :
  Forall calm (columns d) -> add_vibration_magnitude d = Ok d' ->
  Forall calm (columns d').
Proof.
  intros Hcalm. unfold add_vibration_magnitude.
  destruct (get_col "VL_VIBR_X" (columns d)) as [[xs | xs | xs] |] eqn:Hx;
    destruct (get_col "VL_VIBR_Y" (columns d)) as [[ys | ys | ys] |] eqn:Hy;
    destruct (get_col "VL_VIBR_Z" (columns d)) as [[zs | zs | zs] |] eqn:Hz;
    try discriminate; intros H; inversion H; subst; try exact Hcalm.
  simpl. apply assign_Forall_name; [| exact Hcalm].
  left. rewrite Forall_forall in Hcalm.
  apply magnitudes_present.
  - apply (calm_plain "VL_VIBR_X"); [reflexivity |].
    apply Hcalm. apply get_col_In_name. exact Hx.
  - apply (calm_plain "VL_VIBR_Y"); [reflexivity |].
    apply Hcalm. apply get_col_In_name. exact Hy.
  - apply (calm_plain "VL_VIBR_Z"); [reflexivity |].
    apply Hcalm. apply get_col_In_name. exact Hz.
Qed.

Lemma add_temp_status_calm (d d' : DataFrame) :
  Forall calm (columns d) -> add_temp_status d = Ok d' -> Forall calm (columns d').
Proof.
  intros Hcalm. unfold add_temp_status.
  destruct (get_col "VL_TEMPERATURA" (columns d)) as [[xs | xs | xs] |];
    try discriminate; intros H; inversion H; subst; try exact Hcalm.
  simpl. apply assign_Forall; [| exact Hcalm]. intros n. exact I.
Qed.

Lemma reorder_calm (perm : list nat) (d : DataFrame) :
  well_formed d -> Forall (fun i => (i < nrows d)%nat) perm ->
  Forall calm (columns d) -> Forall calm (columns (reorder perm d)).
Proof.
  intros Hwf Hperm Hcalm. unfold reorder. cbn [columns].
  apply Forall_map. unfold well_formed in Hwf.
  rewrite Forall_forall in *. intros [n c] Hin. cbn [fst snd].
  apply calm_take_rows; [| exact (Hcalm _ Hin)].
  pose proof (Hwf _ Hin) as Hl. cbn [snd] in Hl. rewrite Hl.
  apply Forall_forall. exact Hperm.
Qed.

(** X19.  The null filling is complete and nothing after it opens a gap
    again: when the transform goes through, a numeric column of its
    output has no missing cell, unless it is a temperature, pressure or
    humidity column without a single value (whose median is NaN).  The
    derived magnitude is among these columns. *)
Theorem X19_transform_leaves_no_gap_in_numbers (df out : DataFrame)
  (name : string) (xs : list (option Q)) :
  well_formed df ->
  transform_steps df = Ok out ->
  get_col name (columns out) = Some (ColNum xs) ->
  Forall (fun o => o <> None) xs
  \/ (In name median_columns /\ Forall (fun o => o = None) xs).
Proof.
  intros Hwf Hout Hc.
  destruct (transform_steps_stages df out Hwf Hout)
    as (d2 & d3 & d4 & d5 & perm & H2 & H3 & H4 & H5 & -> & Hperm & _ & _ & S5 & _).
  destruct (first_steps_settled df d2 d3 Hwf H2 H3) as (_ & Hcalm & _).
  pose proof (add_vibration_magnitude_calm _ _ Hcalm H4) as Hcalm4.
  pose proof (add_temp_status_calm _ _ Hcalm4 H5) as Hcalm5.
  assert (Hrange : Forall (fun i => (i < nrows d5)%nat) perm).
  { rewrite (proj1 S5). apply perm_in_range. exact Hperm. }
  pose proof (reorder_calm perm d5 (proj2 S5) Hrange Hcalm5) as Hfinal.
  rewrite Forall_forall in Hfinal.
  specialize (Hfinal _ (get_col_In_name _ _ _ Hc)).
  unfold calm in Hfinal. cbn [fst snd] in Hfinal.
  destruct Hfinal as [H | [Hm H]]; [left; exact H | right].
  split; [| exact H].
  apply existsb_exists in Hm. destruct Hm as (n & Hin & Heq).
  apply String.eqb_eq in Heq. subst n. exact Hin.
Qed.

(** X20.  The derived columns belong to the rows they stand in: in the
    output of a transform that goes through, [TEMP_STATUS] is, row by
    row, the class of the temperature in that row (cleaned, and after
    the sort), and [VIBRACAO_MAGNITUDE] is the magnitude of the three
    vibration readings in that row. *)
Theorem X20_derived_columns_follow_their_rows (df out : DataFrame) :
  well_formed df ->
  transform_steps df = Ok out ->
  (forall ts,
      get_col "VL_TEMPERATURA" (columns out) = Some (ColNum ts) ->
      get_col "TEMP_STATUS" (columns out) = Some (ColObj (map temp_status ts)))
  /\ (forall xs ys zs,
         get_col "VL_VIBR_X" (columns out) = Some (ColNum xs) ->
         get_col "VL_VIBR_Y" (columns out) = Some (ColNum ys) ->
         get_col "VL_VIBR_Z" (columns out) = Some (ColNum zs) ->
         get_col "VIBRACAO_MAGNITUDE" (columns out)
         = Some (ColNum (magnitudes xs ys zs))).
Proof.
  intros Hwf Hout.
  destruct (transform_steps_stages df out Hwf Hout)
    as (d2 & d3 & d4 & d5 & perm & H2 & H3 & H4 & H5 & -> & Hperm & S3 & S4 & S5 & _).
  split.
  - intros ts. rewrite !get_col_reorder.
    revert H5. unfold add_temp_status.
    destruct (get_col "VL_TEMPERATURA" (columns d4)) as [[t4 | t4 | t4] |] eqn:Ht;
      try discriminate; intros H; inversion H; subst.
    + cbn [set_col columns].
      rewrite get_col_assign_other by reflexivity. rewrite Ht.
      rewrite get_col_assign_same. simpl. intros E. inversion E; subst.
      rewrite temp_status_take. reflexivity.
    + rewrite Ht. discriminate.
  - intros xs ys zs.
    rewrite !get_col_reorder.
    rewrite !(add_temp_status_keeps _ _ _ H5) by reflexivity.
    revert H4. unfold add_vibration_magnitude.
    destruct (get_col "VL_VIBR_X" (columns d3)) as [[x3 | x3 | x3] |] eqn:Hx;
      destruct (get_col "VL_VIBR_Y" (columns d3)) as [[y3 | y3 | y3] |] eqn:Hy;
      destruct (get_col "VL_VIBR_Z" (columns d3)) as [[z3 | z3 | z3] |] eqn:Hz;
      try discriminate; intros H; inversion H; subst;
      try (rewrite Hx; discriminate); try (rewrite Hy; intros _; discriminate);
      try (rewrite Hz; intros _ _; discriminate).
    cbn [set_col columns].
    rewrite !get_col_assign_other by reflexivity.
    rewrite Hx, Hy, Hz, get_col_assign_same. simpl.
    intros Ex Ey Ez. inversion Ex; inversion Ey; inversion Ez; subst.
    pose proof (get_col_len _ _ _ (proj2 S3) Hx) as Lx.
    pose proof (get_col_len _ _ _ (proj2 S3) Hy) as Ly.
    pose proof (get_col_len _ _ _ (proj2 S3) Hz) as Lz.
    simpl in Lx, Ly, Lz.
    rewrite magnitudes_take by congruence. reflexivity.
Qed.

End TransformOutput.

(** X17, witness: the four readings that came out of time order. *)
Lemma X17_sorted_witness :
  exists keys,
    ColTime [Some 1704067200%Z; Some 1704153600%Z; Some 1704240000%Z;
             Some 1704326400%Z] = ColTime keys
    /\ StronglySorted chronological keys.
Proof.
  apply (@X17_transform_sorts_by_timestamp sample_lib vibrating_window
           (@Etl.clean_and_transform_data sample_lib vibrating_window)).
  - exact vibrating_window_well_formed.
  - vm_compute. reflexivity.
  - vm_compute. reflexivity.
Defined.

(** X18, witness: the same window. *)
Lemma X18_reordered_witness :
  exists perm,
    Permutation perm (seq 0 (nrows vibrating_window))
    /\ nrows (@Etl.clean_and_transform_data sample_lib vibrating_window)
       = nrows vibrating_window
    /\ forall name c,
         ~ In name written_columns ->
         get_col name (columns vibrating_window) = Some c ->
         get_col name (columns (@Etl.clean_and_transform_data sample_lib vibrating_window))
         = Some (take_rows perm (snd (Etl.fill_column (name, c)))).
Proof.
  apply (@X18_transform_only_reorders_the_other_columns sample_lib vibrating_window).
  - exact vibrating_window_well_formed.
  - vm_compute. reflexivity.
Defined.

(** X19, witness: the temperatures of the same window, one of which was
    missing. *)
Lemma X19_no_gap_witness :
  Forall (fun o : option Q => o <> None) [Some 100; Some 90; Some 70; Some 90]
  \/ (In "VL_TEMPERATURA"%string Etl.median_columns
      /\ Forall (fun o : option Q => o = None) [Some 100; Some 90; Some 70; Some 90]).
Proof.
  apply (@X19_transform_leaves_no_gap_in_numbers sample_lib vibrating_window
           (@Etl.clean_and_transform_data sample_lib vibrating_window)).
  - exact vibrating_window_well_formed.
  - vm_compute. reflexivity.
  - vm_compute. reflexivity.
Defined.

(** X20, witness: the classes of the same temperatures. *)
Lemma X20_derived_witness :
  get_col "TEMP_STATUS"
    (columns (@Etl.clean_and_transform_data sample_lib vibrating_window))
  = Some (ColObj (map Etl.temp_status [Some 100; Some 90; Some 70; Some 90])).
Proof.
  refine (proj1 (@X20_derived_columns_follow_their_rows sample_lib vibrating_window
                   (@Etl.clean_and_transform_data sample_lib vibrating_window) _ _)
            [Some 100; Some 90; Some 70; Some 90] _).
  - exact vibrating_window_well_formed.
  - vm_compute. reflexivity.
  - vm_compute. reflexivity.
Defined.

(* ================================================================= *)
(** ** Counting over many cycles *)

Section CycleAccounting.
Context {L : PyLib}.
Variable aggregate_data_for_reporting : DataFrame -> list (string * DataFrame) * DataFrame.
Variable prediction_count : DataFrame -> Z.
Import Etl.

Local Abbreviation run_cycle := (run_etl_cycle aggregate_data_for_reporting prediction_count).
Local Abbreviation run_loop := (processing_loop aggregate_data_for_reporting prediction_count).

Lemma run_etl_cycle_records_failed (i : CycleInput) (p : Pipeline) :
  records_failed (metrics (snd (run_cycle i p))) = records_failed (metrics p).
Proof.
  unfold run_etl_cycle.
  destruct (df_empty (df_raw i)); [reflexivity |].
  destruct (perform_data_quality_checks (t_checks i) (t_future i) (df_raw i))
    as [checks window].
  destruct (filter (is_critical window) checks); [| reflexivity].
  destruct (aggregate_data_for_reporting (clean_and_transform_data window))
    as [aggregations df_clean].
  destruct aggregations; reflexivity.
Qed.

(** One cycle, by the kind of its window. *)
Lemma run_etl_cycle_counts (i : CycleInput) (p : Pipeline) :
  records_processed (metrics (snd (run_cycle i p)))
  = (records_processed (metrics p)
     + (if negb (df_empty (df_raw i)) && negb (window_rejected i)
        then len (df_raw i) else 0))%Z
  /\ errors_count (metrics (snd (run_cycle i p)))
     = (errors_count (metrics p) + (if rejects i then 1 else 0))%Z.
Proof.
  unfold rejects.
  destruct (df_empty (df_raw i)) eqn:He.
  - destruct (run_etl_cycle_empty aggregate_data_for_reporting prediction_count i p He)
      as (_ & -> & _).
    simpl. split; lia.
  - pose proof (run_etl_cycle_nonempty aggregate_data_for_reporting prediction_count
                  i p He) as H.
    destruct (window_rejected i); simpl.
    + destruct H as (_ & -> & _). simpl. split; lia.
    + destruct H as (_ & -> & _ & -> & _). split; lia.
Qed.

Lemma emit_metrics (e : event) (p : Pipeline) : metrics (emit e p) = metrics p.
Proof. reflexivity. Qed.

(** X21.  The counters over a run of cycles: while the pipeline runs,
    [records_processed] grows by the rows of the windows that were taken
    through and by nothing else, [errors_count] by one for each window
    that was turned away, and [records_failed] does not move; an empty
    window counts for neither. *)
Theorem X21_cycles_are_counted (inputs : list CycleInput) :
  forall p,
    is_running p = true ->
    records_processed (metrics (run_loop inputs p))
    = (records_processed (metrics p) + accepted_rows inputs)%Z
    /\ errors_count (metrics (run_loop inputs p))
       = (errors_count (metrics p) + rejected_windows inputs)%Z
    /\ records_failed (metrics (run_loop inputs p)) = records_failed (metrics p).
Proof.
  induction inputs as [| i rest IH]; intros p Hrun.
  - simpl. repeat split; lia.
  - cbn [processing_loop accepted_rows rejected_windows]. rewrite Hrun.
    destruct (run_etl_cycle_counts i p) as [Hr He].
    pose proof (run_etl_cycle_records_failed i p) as Hf.
    destruct (run_etl_cycle_keeps aggregate_data_for_reporting prediction_count i p)
      as (_ & Hk & _).
    destruct (run_cycle i p) as [success p1]. cbn [snd] in *.
    assert (Hrun1 : is_running (if success then p1
                                else emit (Log WARNING
                                             "Ciclo ETL falhado, aguardando proximo ciclo")
                                       p1) = true).
    { destruct success; simpl; congruence. }
    destruct (IH _ Hrun1) as (IHr & IHe & IHf).
    rewrite IHr, IHe, IHf.
    destruct success; rewrite ?emit_metrics, Hr, He, Hf; repeat split; lia.
Qed.

(** X22.  A cycle whose extraction fails looks like a cycle without new
    data: [extract_sensor_data] hands back an empty frame, and the cycle
    returns [True] without a check, a stage or a counter touched. *)
Theorem X22_failed_extraction_passes_for_no_data (e : exn) (i : CycleInput)
  (p : Pipeline) :
  df_raw i = fst (extract_sensor_data (Raise e)) ->
  fst (run_cycle i p) = true
  /\ metrics (snd (run_cycle i p)) = metrics p
  /\ data_quality_checks (snd (run_cycle i p)) = data_quality_checks p
  /\ stages_entered (trace (snd (run_cycle i p))) = stages_entered (trace p).
Proof.
  intros Hraw.
  assert (He : df_empty (df_raw i) = true) by (rewrite Hraw; reflexivity).
  destruct (run_etl_cycle_empty aggregate_data_for_reporting prediction_count i p He)
    as (Hf & Hm & Hs).
  repeat split; try assumption.
  unfold run_etl_cycle. rewrite He. reflexivity.
Qed.

(** X23.  The average the cycles keep is half the old average plus half
    the new cycle time, so it stays within the cycle times it has seen:
    while the pipeline runs cycles that take between [lo] and [hi]
    seconds, an average that is zero or between the two stays zero or
    between the two. *)
Theorem X23_average_time_stays_within_cycle_times (lo hi : Q)
  (inputs : list CycleInput) :
  0 < lo ->
  Forall (fun i => lo <= cycle_time i /\ cycle_time i <= hi) inputs ->
  forall p,
    average_processing_time (metrics p) == 0
    \/ (lo <= average_processing_time (metrics p)
        /\ average_processing_time (metrics p) <= hi) ->
    average_processing_time (metrics (run_loop inputs p)) == 0
    \/ (lo <= average_processing_time (metrics (run_loop inputs p))
        /\ average_processing_time (metrics (run_loop inputs p)) <= hi).
Proof.
  intros Hlo Hall. induction Hall as [| i rest [Hi1 Hi2] _ IH]; intros p Hp.
  - exact Hp.
  - cbn [processing_loop]. destruct (is_running p); [| exact Hp].
    assert (Hstep : average_processing_time (metrics (snd (run_cycle i p))) == 0
                    \/ (lo <= average_processing_time (metrics (snd (run_cycle i p)))
                        /\ average_processing_time (metrics (snd (run_cycle i p)))
                           <= hi)).
    { unfold run_etl_cycle.
      destruct (df_empty (df_raw i)); [exact Hp |].
      destruct (perform_data_quality_checks (t_checks i) (t_future i) (df_raw i))
        as [checks window].
      destruct (filter (is_critical window) checks); [| exact Hp].
      destruct (aggregate_data_for_reporting (clean_and_transform_data window))
        as [aggregations df_clean].
      assert (Hnew : forall m,
                 average_processing_time m == 0
                 \/ (lo <= average_processing_time m
                     /\ average_processing_time m <= hi) ->
                 lo <= average_processing_time
                         (update_metrics (len window) (cycle_time i) (t_end i) m)
                 /\ average_processing_time
                      (update_metrics (len window) (cycle_time i) (t_end i) m) <= hi).
      { intros m Hm. cbn [update_metrics average_processing_time].
        destruct (Qltb 0 (average_processing_time m)) eqn:Hpos.
        - apply Qltb_lt in Hpos.
          destruct Hm as [Hz | [Ha Hb]]; [rewrite Hz in Hpos; lra |].
          split; apply Qle_shift_div_l || apply Qle_shift_div_r; lra.
        - split; assumption. }
      right. destruct aggregations; cbn [snd metrics emit set_metrics];
        apply Hnew; exact Hp. }
    destruct (run_cycle i p) as [success p1]. cbn [snd] in Hstep.
    apply IH. destruct success; exact Hstep.
Qed.

End CycleAccounting.

(** X21, witness: one window turned away, one taken through. *)
Lemma X21_cycles_witness :
  Etl.records_processed
    (Etl.metrics
       (@Etl.processing_loop sample_lib sample_aggregate sample_prediction_count
          [cycle_on overheated_window; cycle_on gappy_window] running_pipeline))
  = (Etl.records_processed (Etl.metrics running_pipeline)
     + @accepted_rows sample_lib [cycle_on overheated_window; cycle_on gappy_window])%Z
  /\ Etl.errors_count
       (Etl.metrics
          (@Etl.processing_loop sample_lib sample_aggregate sample_prediction_count
             [cycle_on overheated_window; cycle_on gappy_window] running_pipeline))
     = (Etl.errors_count (Etl.metrics running_pipeline)
        + @rejected_windows sample_lib [cycle_on overheated_window; cycle_on gappy_window])%Z
  /\ Etl.records_failed
       (Etl.metrics
          (@Etl.processing_loop sample_lib sample_aggregate sample_prediction_count
             [cycle_on overheated_window; cycle_on gappy_window] running_pipeline))
     = Etl.records_failed (Etl.metrics running_pipeline).
Proof.
  apply (@X21_cycles_are_counted sample_lib sample_aggregate sample_prediction_count
           [cycle_on overheated_window; cycle_on gappy_window] running_pipeline).
  reflexivity.
Defined.

(** X22, witness: the query raised. *)
Lemma X22_failed_extraction_witness :
  fst (@Etl.run_etl_cycle sample_lib sample_aggregate sample_prediction_count
         (cycle_on (fst (Etl.extract_sensor_data (Raise DatabaseError))))
         running_pipeline) = true
  /\ Etl.metrics
       (snd (@Etl.run_etl_cycle sample_lib sample_aggregate sample_prediction_count
               (cycle_on (fst (Etl.extract_sensor_data (Raise DatabaseError))))
               running_pipeline))
     = Etl.metrics running_pipeline
  /\ Etl.data_quality_checks
       (snd (@Etl.run_etl_cycle sample_lib sample_aggregate sample_prediction_count
               (cycle_on (fst (Etl.extract_sensor_data (Raise DatabaseError))))
               running_pipeline))
     = Etl.data_quality_checks running_pipeline
  /\ stages_entered
       (Etl.trace
          (snd (@Etl.run_etl_cycle sample_lib sample_aggregate sample_prediction_count
                  (cycle_on (fst (Etl.extract_sensor_data (Raise DatabaseError))))
                  running_pipeline)))
     = stages_entered (Etl.trace running_pipeline).
Proof.
  apply (@X22_failed_extraction_passes_for_no_data sample_lib sample_aggregate
           sample_prediction_count DatabaseError).
  reflexivity.
Defined.

(** X23, witness: a first cycle of half a second. *)
Lemma X23_average_time_witness :
  Etl.average_processing_time
    (Etl.metrics
       (@Etl.processing_loop sample_lib sample_aggregate sample_prediction_count
          [cycle_on gappy_window] running_pipeline)) == 0
  \/ ((1 # 2)
      <= Etl.average_processing_time
           (Etl.metrics
              (@Etl.processing_loop sample_lib sample_aggregate sample_prediction_count
                 [cycle_on gappy_window] running_pipeline))
      /\ Etl.average_processing_time
           (Etl.metrics
              (@Etl.processing_loop sample_lib sample_aggregate sample_prediction_count
                 [cycle_on gappy_window] running_pipeline))
         <= (1 # 2)).
Proof.
  apply (@X23_average_time_stays_within_cycle_times sample_lib sample_aggregate
           sample_prediction_count (1 # 2) (1 # 2) [cycle_on gappy_window]).
  - reflexivity.
  - constructor; [| constructor]. split; discriminate.
  - left. reflexivity.
Defined.

(* ================================================================= *)
(** ** Predictions, retraining and the health report *)

Section Predictions.
Context {L : PyLib}.
Import Etl.

Lemma risk_score_bounds (temperature vibration : option Q) (noise : Q) :
  0 <= risk_score temperature vibration noise
  /\ risk_score temperature vibration noise <= 1.
Proof.
  unfold risk_score. destruct temperature as [t |], vibration as [v |];
    try (split; discriminate).
  split.
  - apply Q.min_glb; [discriminate | apply Q.le_max_l].
  - apply Q.le_min_l.
Qed.

Lemma predict_row_sound (df : DataFrame) (id : cell) (i : nat) (noise : Q)
  (pr : Prediction.t) :
  predict_row df id i noise = Ok pr ->
  sound_prediction pr /\ Prediction.equipment_id pr = id.
Proof.
  unfold predict_row.
  destruct (cell_number (row_get df i "VL_TEMPERATURA")) as [t |]; [| discriminate].
  destruct (cell_number (row_get df i "VL_VIBRACAO")) as [v |]; [| discriminate].
  destruct (row_subscript df i "DATAHORA_MEDICAO") as [ts |]; [| discriminate].
  cbn [bind]. intros H. inversion H; subst. clear H.
  split; [| reflexivity].
  unfold sound_prediction. cbn [Prediction.fault_probability Prediction.predicted_class
                                 Prediction.alert_level].
  destruct (risk_score_bounds t v noise) as [H0 H1].
  set (risk := risk_score t v noise) in *.
  destruct (Qltb (5 # 10) risk) eqn:H5;
    destruct (Qltb (7 # 10) risk) eqn:H7;
    destruct (Qltb (4 # 10) risk) eqn:H4;
    repeat split; auto; try discriminate; try congruence;
    try (apply Qltb_lt in H5); try (apply Qltb_ge in H5);
    try (apply Qltb_lt in H7); try (apply Qltb_ge in H7);
    try (apply Qltb_lt in H4); try (apply Qltb_ge in H4);
    try (exfalso; lra).
Qed.

Lemma last_match_missing (v : cell) (xs : list cell) :
  cell_missing v = true -> forall i, last_match v xs i = None.
Proof.
  intros Hv. induction xs as [| x rest IH]; intros i; simpl; [reflexivity |].
  rewrite IH.
  assert (H : cell_eqb x v = false)
    by (destruct x as [[?|]|[?|]|[?|]], v as [[?|]|[?|]|[?|]];
        simpl in *; try reflexivity; discriminate).
  rewrite H. reflexivity.
Qed.

Lemma cell_eqb_refl (v : cell) : cell_missing v = false -> cell_eqb v v = true.
Proof.
  destruct v as [[q |] | [s |] | [t |]]; simpl; try discriminate; intros _.
  - apply Qeq_bool_refl.
  - apply String.eqb_refl.
  - apply Z.eqb_refl.
Qed.

Lemma last_match_present (v : cell) (xs : list cell) :
  cell_missing v = false -> In v xs -> forall i, last_match v xs i <> None.
Proof.
  intros Hv. induction xs as [| x rest IH]; intros Hin i; simpl; [contradiction |].
  destruct (last_match v rest (S i)) eqn:Hl; [discriminate |].
  destruct Hin as [-> | Hin].
  - rewrite (cell_eqb_refl v Hv). discriminate.
  - exfalso. exact (IH Hin (S i) Hl).
Qed.

Lemma unique_from_In (xs : list cell) :
  forall seen v, In v (unique_from seen xs) -> In v xs.
Proof.
  induction xs as [| x rest IH]; intros seen v; simpl; [auto |].
  destruct (existsb (cell_same x) seen).
  - intros H. right. exact (IH _ _ H).
  - intros [-> | H]; [left; reflexivity | right; exact (IH _ _ H)].
Qed.

Lemma unique_from_length (xs : list cell) :
  forall seen, (List.length (unique_from seen xs) <= List.length xs)%nat.
Proof.
  induction xs as [| x rest IH]; intros seen; simpl; [lia |].
  destruct (existsb (cell_same x) seen).
  - specialize (IH seen). lia.
  - specialize (IH (x :: seen)). simpl. lia.
Qed.

(** The loop over the machines, when no row raises. *)
Lemma predict_each_machines (df : DataFrame) (machines : list cell) (noise : nat -> Q)
  (ids : list cell) :
  (forall v, In v ids -> In v machines) ->
  forall k predictions,
    predict_each df machines ids noise k = Ok predictions ->
    Forall sound_prediction predictions
    /\ map Prediction.equipment_id predictions = filter cell_present ids.
Proof.
  induction ids as [| id rest IH]; intros Hin k predictions; simpl.
  - intros H. inversion H; subst. split; [constructor | reflexivity].
  - assert (Hrest : forall v, In v rest -> In v machines)
      by (intros v Hv; apply Hin; right; exact Hv).
    unfold cell_present at 1.
    destruct (cell_missing id) eqn:Hm; cbn [negb].
    + rewrite (last_match_missing id machines Hm). apply IH. exact Hrest.
    + destruct (last_match id machines 0) as [i |] eqn:Hl.
      * destruct (predict_row df id i (noise k)) as [pr |] eqn:Hp; [| discriminate].
        cbn [bind].
        destruct (predict_each df machines rest noise (S k)) as [prs |] eqn:Hr;
          [| discriminate].
        cbn [bind]. intros H. inversion H; subst.
        destruct (predict_row_sound _ _ _ _ _ Hp) as [Hs Hid].
        destruct (IH Hrest _ _ Hr) as [Hall Hids].
        split; [constructor; assumption |].
        simpl. rewrite Hid, Hids. reflexivity.
      * exfalso. apply (last_match_present id machines Hm (Hin id (or_introl eq_refl)) 0).
        exact Hl.
Qed.

(** X24.  Every prediction [run_ml_predictions] returns is sound
    whatever the noise drawn: the fault probability lies between 0 and
    1, the class is 0 or 1, a prediction of class 1 never carries the
    alert level LOW and one of level HIGH is always of class 1. *)
Theorem X24_predictions_are_probabilities (ml_connected : bool) (noise : nat -> Q)
  (df : DataFrame) (p : Pipeline) :
  Forall sound_prediction (fst (run_ml_predictions ml_connected noise df p)).
Proof.
  unfold run_ml_predictions.
  destruct (df_empty df); [constructor |].
  destruct (predictions_of df noise) as [predictions |] eqn:Hp; cbn [fst];
    [| constructor].
  revert Hp. unfold predictions_of.
  destruct (get_col "ID_MAQUINA" (columns df)) as [c |]; [| discriminate].
  intros Hp.
  apply (predict_each_machines df (cells c) noise (unique c)
           (unique_from_In (cells c) []) 0 predictions Hp).
Qed.

(** X25.  One prediction for each machine: the predictions returned are
    none at all (the window is empty, it lacks the machine column, or a
    row raised), or one for every machine named in the window, in the
    order the machines first appear, a missing name not counting.  In
    both cases [ml_predictions] grows by the number of predictions
    returned, which is at most the number of rows, and the other
    counters stay. *)
Theorem X25_one_prediction_for_each_machine (ml_connected : bool) (noise : nat -> Q)
  (df : DataFrame) (p : Pipeline) :
  well_formed df ->
  (fst (run_ml_predictions ml_connected noise df p) = []
   \/ exists c,
        get_col "ID_MAQUINA" (columns df) = Some c
        /\ map Prediction.equipment_id (fst (run_ml_predictions ml_connected noise df p))
           = filter cell_present (unique c))
  /\ (List.length (fst (run_ml_predictions ml_connected noise df p)) <= nrows df)%nat
  /\ ml_predictions (metrics (snd (run_ml_predictions ml_connected noise df p)))
     = (ml_predictions (metrics p)
        + Z.of_nat (List.length (fst (run_ml_predictions ml_connected noise df p))))%Z
  /\ records_processed (metrics (snd (run_ml_predictions ml_connected noise df p)))
     = records_processed (metrics p)
  /\ records_failed (metrics (snd (run_ml_predictions ml_connected noise df p)))
     = records_failed (metrics p)
  /\ errors_count (metrics (snd (run_ml_predictions ml_connected noise df p)))
     = errors_count (metrics p).
Proof.
  intros Hwf. unfold run_ml_predictions.
  destruct (df_empty df).
  { cbn [fst snd List.length]. rewrite emit_metrics.
    repeat split; try lia. left. reflexivity. }
  destruct (predictions_of df noise) as [predictions |] eqn:Hp; cbn [fst snd].
  - revert Hp. unfold predictions_of.
    destruct (get_col "ID_MAQUINA" (columns df)) as [c |] eqn:Hc; [| discriminate].
    intros Hp.
    destruct (predict_each_machines df (cells c) noise (unique c)
                (unique_from_In (cells c) []) 0 predictions Hp) as [_ Hids].
    split; [right; exists c; split; [reflexivity | exact Hids] |].
    split.
    + rewrite <- (length_map Prediction.equipment_id), Hids.
      pose proof (filter_length_le cell_present (unique c)).
      pose proof (unique_from_length (cells c) []).
      pose proof (get_col_len _ _ _ Hwf Hc).
      rewrite cells_length in *. unfold unique in *. lia.
    + destruct ml_connected; repeat split.
  - split; [left; reflexivity |].
    destruct ml_connected; cbn [List.length]; repeat split; simpl; lia.
Qed.

Lemma run_ml_training_cycle_metrics (read_sql : result DataFrame)
  (run_full_pipeline : result bool) (p : Pipeline) :
  metrics (snd (run_ml_training_cycle read_sql run_full_pipeline p)) = metrics p.
Proof.
  unfold run_ml_training_cycle.
  destruct (extract_historical_data read_sql) as [df line].
  destruct (df_empty df || (len df <? 1000)%Z); [reflexivity |].
  destruct run_full_pipeline as [[|] | e]; reflexivity.
Qed.

(** X26.  Retraining never succeeds on little data: the retraining
    cycle returns [True] only when the historical extraction went
    through with at least a thousand rows and the ML pipeline, which it
    then ran, reported success; an extraction that raised counts as no
    data.  It never touches the counters. *)
Theorem X26_retraining_needs_a_thousand_rows (read_sql : result DataFrame)
  (run_full_pipeline : result bool) (p : Pipeline) :
  (fst (run_ml_training_cycle read_sql run_full_pipeline p) = true
   <-> exists df,
         read_sql = Ok df /\ (1000 <= nrows df)%nat /\ columns df <> []
         /\ run_full_pipeline = Ok true)
  /\ metrics (snd (run_ml_training_cycle read_sql run_full_pipeline p)) = metrics p.
Proof.
  unfold run_ml_training_cycle, extract_historical_data.
  destruct read_sql as [df | e].
  - cbn [fst snd].
    destruct (df_empty df || (len df <? 1000)%Z) eqn:Hguard.
    + split; [| reflexivity]. split; [discriminate |].
      intros (df' & Hdf & Hn & Hc & _). inversion Hdf; subst df'. exfalso.
      apply orb_true_iff in Hguard. destruct Hguard as [He | Hl].
      * unfold df_empty in He. apply orb_true_iff in He. destruct He as [He | He].
        -- apply Nat.eqb_eq in He. lia.
        -- destruct (columns df); [apply Hc; reflexivity | discriminate He].
      * apply Z.ltb_lt in Hl. unfold len in Hl. lia.
    + apply orb_false_iff in Hguard. destruct Hguard as [He Hl].
      apply Z.ltb_ge in Hl. unfold len in Hl.
      unfold df_empty in He. apply orb_false_iff in He. destruct He as [_ He].
      destruct run_full_pipeline as [[|] | e]; cbn [fst snd];
        (split; [| reflexivity]); split; try discriminate.
      * intros _. exists df. split; [reflexivity |]. split; [lia |].
        split; [| reflexivity].
        destruct (columns df); [discriminate He | discriminate].
      * intros _. reflexivity.
      * intros (df' & _ & _ & _ & H). discriminate H.
      * intros (df' & _ & _ & _ & H). discriminate H.
  - cbn [fst snd df_empty nrows Nat.eqb orb]. split; [| reflexivity].
    split; [discriminate |]. intros (df' & H & _). discriminate H.
Qed.

End Predictions.

Section HealthReports.
Context {L : PyLib}.
Variable aggregate_data_for_reporting : DataFrame -> list (string * DataFrame) * DataFrame.
Variable prediction_count : DataFrame -> Z.
Import Etl.

Lemma pipeline_call_records_failed (p : Pipeline) (e : pipeline_step) :
  records_failed
    (metrics (pipeline_call aggregate_data_for_reporting prediction_count p e))
  = records_failed (metrics p).
Proof.
  destruct e as [now connected | | i | payload | ml_connected noise df | read_sql rfp];
    cbn [pipeline_call].
  - unfold start. destruct connected; reflexivity.
  - reflexivity.
  - apply run_etl_cycle_records_failed.
  - reflexivity.
  - unfold run_ml_predictions. destruct (df_empty df); [reflexivity |].
    destruct (predictions_of df noise); destruct ml_connected; reflexivity.
  - rewrite run_ml_training_cycle_metrics. reflexivity.
Qed.

Lemma pipeline_run_records_failed (steps : list pipeline_step) :
  forall p,
    records_failed
      (metrics (pipeline_run aggregate_data_for_reporting prediction_count steps p))
    = records_failed (metrics p).
Proof.
  unfold pipeline_run.
  induction steps as [| e rest IH]; intros p; [reflexivity |].
  cbn [fold_left]. rewrite IH. apply pipeline_call_records_failed.
Qed.

Lemma last_items_length {A : Type} (n : nat) (l : list A) :
  (List.length (last_items n l) <= n)%nat.
Proof. unfold last_items. rewrite length_skipn. lia. Qed.

(** X27.  The health report cannot show a failed record: nothing the
    pipeline does ever adds to [records_failed], so after any sequence
    of starts, stops, cycles (taken through or aborted), ingested
    payloads, predictions and retrainings the report gives zero failed
    records and a success rate of one.  The failed quality checks it
    counts are those of the last twenty checks, so never more than
    twenty. *)
Theorem X27_health_report_never_shows_a_failed_record (steps : list pipeline_step)
  (ingestion : Ingestion.Service) (db_healthy : bool) (now now' : datetime) :
  HealthReport.records_failed_total
    (generate_health_report db_healthy now now'
       (pipeline_run aggregate_data_for_reporting prediction_count steps
          (init ingestion))) = 0%Z
  /\ HealthReport.success_rate
       (generate_health_report db_healthy now now'
          (pipeline_run aggregate_data_for_reporting prediction_count steps
             (init ingestion))) == 1
  /\ (0 <= HealthReport.quality_checks_failed
             (generate_health_report db_healthy now now'
                (pipeline_run aggregate_data_for_reporting prediction_count steps
                   (init ingestion))) <= 20)%Z.
Proof.
  pose proof (pipeline_run_records_failed steps (init ingestion)) as Hf.
  cbn [init metrics records_failed] in Hf.
  set (p := pipeline_run aggregate_data_for_reporting prediction_count steps
              (init ingestion)) in *.
  unfold generate_health_report.
  cbn [HealthReport.records_failed_total HealthReport.success_rate
       HealthReport.quality_checks_failed].
  split; [exact Hf |]. split.
  - rewrite Hf, Z.add_0_r.
    destruct (0 <? records_processed (metrics p))%Z eqn:Hpos; [| reflexivity].
    apply Z.ltb_lt in Hpos.
    unfold Qdiv. apply Qmult_inv_r.
    intros H. unfold Qeq in H. simpl in H. lia.
  - pose proof (filter_length_le (fun c => negb (passed c))
                  (last_items 20 (data_quality_checks p))) as H1.
    pose proof (last_items_length 20 (data_quality_checks p)) as H2.
    lia.
Qed.

End HealthReports.

(** X25, witness: two machines in four rows. *)
Lemma X25_one_prediction_witness :
  (List.length (fst (Etl.run_ml_predictions true no_noise fleet_window running_pipeline))
   <= nrows fleet_window)%nat.
Proof.
  refine (proj1 (proj2 (X25_one_prediction_for_each_machine true no_noise fleet_window
                          running_pipeline _))).
  repeat constructor.
Defined.

Example fleet_window_predictions :
  map (fun pr => (Etl.Prediction.equipment_id pr, Etl.Prediction.predicted_class pr,
                  Etl.Prediction.alert_level pr))
      (fst (Etl.run_ml_predictions true no_noise fleet_window running_pipeline))
  = [(CellObj (Some "PUMP_A"%string), 1%Z, "MEDIUM"%string);
     (CellObj (Some "PUMP_B"%string), 1%Z, "HIGH"%string)].
Proof. vm_compute. reflexivity. Qed.

(* ================================================================= *)
(** ** Load and export *)

Section LoadAndExport.
Import Etl.

Lemma load_tables_attempts (aggregations : list (string * DataFrame)) :
  forall success s lines,
    write_faults (snd (fst (load_tables aggregations success s lines)))
    = skipn (List.length aggregations) (write_faults s)
    /\ fst (fst (load_tables aggregations success s lines))
       = success && negb (existsb (fun b => b)
                            (firstn (List.length aggregations) (write_faults s)))
    /\ files (snd (fst (load_tables aggregations success s lines))) = files s
    /\ List.length (snd (load_tables aggregations success s lines))
       = (List.length lines + List.length aggregations)%nat.
Proof.
  induction aggregations as [| [name df] rest IH]; intros success s lines.
  - simpl. rewrite andb_true_r. repeat split; lia.
  - cbn [load_tables List.length]. unfold to_sql.
    destruct (write_faults s) as [| [|] fs] eqn:Hf.
    + destruct (IH success
                  {| tables := put_frame ("T_AGG_" ++ upper name) df (tables s);
                     files := files s; write_faults := [] |}
                  (lines ++ [Log INFO "Agregacao carregada na tabela"]))
        as (H1 & H2 & H3 & H4).
      rewrite H1, H2, H3, H4, length_app. cbn [write_faults files List.length].
      rewrite skipn_nil, firstn_nil. simpl. repeat split; lia.
    + destruct (IH false
                  {| tables := tables s; files := files s; write_faults := fs |}
                  (lines ++ [Log ERROR "Erro ao carregar agregacao"]))
        as (H1 & H2 & H3 & H4).
      rewrite H1, H2, H3, H4, length_app. cbn [write_faults files List.length].
      simpl. rewrite andb_false_r. repeat split; lia.
    + destruct (IH success
                  {| tables := put_frame ("T_AGG_" ++ upper name) df (tables s);
                     files := files s; write_faults := fs |}
                  (lines ++ [Log INFO "Agregacao carregada na tabela"]))
        as (H1 & H2 & H3 & H4).
      rewrite H1, H2, H3, H4, length_app. cbn [write_faults files List.length].
      simpl. repeat split; lia.
Qed.

(** X28.  [load_aggregated_data] tries every table: a table that cannot
    be written does not keep the later ones from being written, it only
    makes the result [False].  As many writes are made as there are
    aggregations, one line is logged for each, the result is [True]
    exactly when none of the writes failed, and no file is touched. *)
Theorem X28_load_tries_every_table (aggregations : list (string * DataFrame))
  (s : Sink) :
  write_faults (snd (fst (load_aggregated_data aggregations s)))
  = skipn (List.length aggregations) (write_faults s)
  /\ fst (fst (load_aggregated_data aggregations s))
     = negb (existsb (fun b => b)
               (firstn (List.length aggregations) (write_faults s)))
  /\ files (snd (fst (load_aggregated_data aggregations s))) = files s
  /\ List.length (snd (load_aggregated_data aggregations s))
     = List.length aggregations.
Proof.
  unfold load_aggregated_data.
  destruct (load_tables_attempts aggregations true s []) as (H1 & H2 & H3 & H4).
  repeat split; assumption.
Qed.

Lemma export_plan_not_empty (stamp : string) (df : DataFrame)
  (aggregations : list (string * DataFrame)) :
  Forall (fun pf => df_empty (snd pf) = false) (export_plan stamp df aggregations).
Proof.
  unfold export_plan. apply Forall_app. split.
  - destruct (df_empty df) eqn:He; simpl;
      [constructor | constructor; [exact He | constructor]].
  - induction aggregations as [| [n d] rest IH]; simpl; [constructor |].
    apply Forall_app. split; [| exact IH].
    destruct (df_empty d) eqn:He; simpl;
      [constructor | constructor; [exact He | constructor]].
Qed.

Lemma write_files_outcome (plan : list (string * DataFrame)) :
  forall s lines,
    match first_fault (write_faults s) (List.length plan) with
    | None =>
        fst (fst (write_files plan s lines)) = true
        /\ files (snd (fst (write_files plan s lines))) = written plan (files s)
    | Some k =>
        fst (fst (write_files plan s lines)) = false
        /\ files (snd (fst (write_files plan s lines)))
           = written (firstn k plan) (files s)
    end
    /\ tables (snd (fst (write_files plan s lines))) = tables s.
Proof.
  induction plan as [| [path df] rest IH]; intros s lines.
  - simpl. repeat split.
  - cbn [write_files List.length first_fault]. unfold to_csv.
    destruct (write_faults s) as [| [|] fs] eqn:Hf.
    + specialize (IH {| tables := tables s; files := put_frame path df (files s);
                        write_faults := [] |}
                     (lines ++ [Log INFO "Dados exportados"])).
      cbn [write_faults files tables] in IH.
      assert (Hn : first_fault [] (List.length rest) = None)
        by (destruct (List.length rest); reflexivity).
      rewrite Hn in IH. exact IH.
    + simpl. repeat split.
    + specialize (IH {| tables := tables s; files := put_frame path df (files s);
                        write_faults := fs |}
                     (lines ++ [Log INFO "Dados exportados"])).
      cbn [write_faults files tables] in IH.
      destruct (first_fault fs (List.length rest)) as [k |]; simpl; exact IH.
Qed.

(** X29.  [export_data_to_files] writes no empty frame, and the first
    write that fails ends the export: the files before it are written,
    those after it are not even tried, and the result is [False].
    Without a failure every frame of the plan is written and the result
    is [True].  No table is touched. *)
Theorem X29_export_stops_at_the_first_failure (stamp : string) (df : DataFrame)
  (aggregations : list (string * DataFrame)) (s : Sink) :
  Forall (fun pf => df_empty (snd pf) = false) (export_plan stamp df aggregations)
  /\ match first_fault (write_faults s)
             (List.length (export_plan stamp df aggregations)) with
     | None =>
         fst (fst (export_data_to_files stamp df aggregations s)) = true
         /\ files (snd (fst (export_data_to_files stamp df aggregations s)))
            = written (export_plan stamp df aggregations) (files s)
     | Some k =>
         fst (fst (export_data_to_files stamp df aggregations s)) = false
         /\ files (snd (fst (export_data_to_files stamp df aggregations s)))
            = written (firstn k (export_plan stamp df aggregations)) (files s)
     end
  /\ tables (snd (fst (export_data_to_files stamp df aggregations s))) = tables s.
Proof.
  split; [apply export_plan_not_empty |].
  unfold export_data_to_files. apply write_files_outcome.
Qed.

End LoadAndExport.

Example second_table_fails :
  let r := Etl.load_aggregated_data
             [("equipment_summary"%string, gappy_window);
              ("hourly_trends"%string, gappy_window);
              ("location_type_summary"%string, gappy_window)]
             {| Etl.tables := []; Etl.files := []; Etl.write_faults := [false; true] |} in
  fst (fst r) = false
  /\ map fst (Etl.tables (snd (fst r)))
     = ["T_AGG_EQUIPMENT_SUMMARY"%string; "T_AGG_LOCATION_TYPE_SUMMARY"%string].
Proof. vm_compute. split; reflexivity. Qed.

Example second_file_fails :
  let r := Etl.export_data_to_files "20240101_000000" gappy_window
             [("equipment_summary"%string, gappy_window);
              ("hourly_trends"%string, empty_window);
              ("location_type_summary"%string, gappy_window)]
             {| Etl.tables := []; Etl.files := []; Etl.write_faults := [false; true] |} in
  fst (fst r) = false
  /\ map fst (Etl.files (snd (fst r))) = ["sensor_data_20240101_000000.csv"%string].
Proof. vm_compute. split; reflexivity. Qed.

(* ================================================================= *)
(** ** Clipping, stated with its bounds *)

Section ClippingBounds.
Context {L : PyLib}.
Import Etl.

(** A designated column passes from the clipping step to the output
    with its rows reordered and nothing else done to it. *)
Lemma designated_column_of_output (df out : DataFrame) :
  well_formed df -> transform_steps df = Ok out ->
  exists perm,
    Permutation perm (seq 0 (nrows df))
    /\ forall name xs,
         In name clipped_columns ->
         get_col name (columns (fill_nulls df)) = Some (ColNum xs) ->
         get_col name (columns out) = Some (ColNum (take_cells perm (clip_outliers xs))).
Proof.
  intros Hwf Hout.
  destruct (transform_steps_stages df out Hwf Hout)
    as (d2 & d3 & d4 & d5 & perm & H2 & H3 & H4 & H5 & -> & Hperm & _).
  exists perm. split; [exact Hperm |].
  intros name xs Hin Hxs.
  assert (E : String.eqb name "DATAHORA_MEDICAO" = false
              /\ String.eqb name "VIBRACAO_MAGNITUDE" = false
              /\ String.eqb name "TEMP_STATUS" = false).
  { unfold clipped_columns in Hin. simpl in Hin.
    destruct Hin as [<- | [<- | [<- | []]]]; repeat split; reflexivity. }
  destruct E as (Nt & Nm & Ns).
  rewrite get_col_reorder.
  rewrite (add_temp_status_keeps _ _ _ H5 Ns).
  rewrite (add_vibration_magnitude_keeps _ _ _ H4 Nm).
  rewrite (standardize_timestamps_keeps _ _ _ H3 Nt).
  rewrite (proj1 (clip_columns_get _ _ _ name clipped_columns_NoDup H2) Hin xs Hxs).
  reflexivity.
Qed.

(** What the clipping step does to one column, with the quartiles it
    reads from that column. *)
Lemma clip_outliers_quartiles (xs : list (option Q)) :
  match quantile (1 # 4) xs, quantile (3 # 4) xs with
  | Some Q1, Some Q3 =>
      Q1 <= Q3
      /\ Forall2 (clipped_to (Q1 - 3 * (Q3 - Q1)) (Q3 + 3 * (Q3 - Q1)))
           xs (clip_outliers xs)
  | _, _ => clip_outliers xs = xs /\ Forall (fun o => o = None) xs
  end.
Proof.
  destruct (quantile (1 # 4) xs) as [Q1 |] eqn:H1.
  - destruct (quantile (3 # 4) xs) as [Q3 |] eqn:H3.
    + split; [exact (quartiles_ordered xs Q1 Q3 H1 H3) |].
      apply clip_outliers_cells. unfold outlier_bounds. rewrite H1, H3. reflexivity.
    + apply clip_outliers_no_bounds. unfold outlier_bounds. rewrite H1, H3. reflexivity.
  - apply clip_outliers_no_bounds. unfold outlier_bounds. rewrite H1. reflexivity.
Qed.


End ClippingBounds.



(* ================================================================= *)
(** ** The transform run twice, whatever the sorting routine *)

(** *** Sorting what is sorted, without ties *)

Lemma chronological_antisym (a b : option datetime) :
  chronological a b -> chronological b a -> a = b.
Proof.
  destruct a as [x |], b as [y |]; simpl; intros H1 H2; try contradiction;
    [f_equal; lia | reflexivity].
Qed.

(** Two sorted lists of the same keys are the same list. *)
Lemma sorted_perm_eq (l1 : list (option datetime)) :
  forall l2,
    StronglySorted chronological l1 -> StronglySorted chronological l2 ->
    Permutation l1 l2 -> l1 = l2.
Proof.
  induction l1 as [| a l1 IH]; intros l2 S1 S2 P.
  - apply Permutation_nil in P. subst. reflexivity.
  - destruct l2 as [| b l2]; [apply Permutation_sym, Permutation_nil in P; discriminate |].
    inversion S1 as [| ? ? S1' F1]; subst. inversion S2 as [| ? ? S2' F2]; subst.
    assert (Hab : a = b).
    { assert (Ha : In a (b :: l2)) by (apply (Permutation_in _ P); left; reflexivity).
      assert (Hb : In b (a :: l1))
        by (apply (Permutation_in _ (Permutation_sym P)); left; reflexivity).
      destruct Ha as [Ha | Ha]; [symmetry; exact Ha |].
      destruct Hb as [Hb | Hb]; [exact Hb |].
      rewrite Forall_forall in F1, F2.
      apply chronological_antisym; [exact (F1 _ Hb) | exact (F2 _ Ha)]. }
    subst b. f_equal. apply IH; try assumption.
    exact (Permutation_cons_inv P).
Qed.

(** Rows taken in an order that changes no key of a column without
    repeated keys are taken in the order they stand in. *)
Lemma take_cells_fixed (keys : list (option datetime)) (perm : list nat) :
  NoDup keys ->
  Permutation perm (seq 0 (List.length keys)) ->
  take_cells perm keys = keys ->
  perm = seq 0 (List.length keys).
Proof.
  intros Hnd Hperm Htake.
  assert (Hlen : List.length perm = List.length keys).
  { rewrite (Permutation_length Hperm). apply length_seq. }
  apply (nth_ext _ _ O O); [rewrite length_seq; exact Hlen |].
  intros i Hi. rewrite Hlen in Hi. rewrite seq_nth by exact Hi. simpl.
  assert (Hin : (nth i perm O < List.length keys)%nat).
  { pose proof (perm_in_range perm _ Hperm) as Hr. rewrite Forall_forall in Hr.
    apply Hr. apply nth_In. rewrite Hlen. exact Hi. }
  apply (proj1 (NoDup_nth keys None) Hnd); [exact Hin | exact Hi |].
  rewrite <- Htake at 2. unfold take_cells.
  rewrite (nth_indep (map (fun j => nth j keys None) perm) None (nth O keys None))
    by (rewrite length_map, Hlen; exact Hi).
  rewrite (map_nth (fun j => nth j keys None) perm O i). reflexivity.
Qed.

(** A sorting routine leaves a sorted column without ties as it is. *)
Lemma sorting_sorted (order : list (option datetime) -> list nat)
  (keys : list (option datetime)) :
  sorting order -> StronglySorted chronological keys -> NoDup keys ->
  order keys = seq 0 (List.length keys).
Proof.
  intros Hs Hsorted Hnd. destruct (Hs keys) as [Hperm Hord].
  apply take_cells_fixed; [exact Hnd | exact Hperm |].
  apply sorted_perm_eq; [exact Hord | exact Hsorted |].
  apply take_cells_perm. exact Hperm.
Qed.

(** The routine that leaves equal keys as they were is a sorting
    routine. *)
Lemma take_sorted_keys (leb : option datetime * nat -> option datetime * nat -> bool)
  (keys : list (option datetime)) :
  take_cells (map snd (isort leb (combine keys (seq 0 (List.length keys))))) keys
  = map fst (isort leb (combine keys (seq 0 (List.length keys)))).
Proof.
  unfold take_cells. rewrite map_map. apply map_ext_in.
  intros [k i] Hin. simpl.
  apply (Permutation_in _ (isort_perm _ leb _)) in Hin.
  destruct (in_combine_seq keys 0 k i Hin) as [_ Hn].
  rewrite Nat.sub_0_r in Hn. exact Hn.
Qed.

Lemma argsort_sorting : sorting argsort.
Proof.
  intros keys. split; [apply argsort_perm |].
  unfold argsort. rewrite take_sorted_keys. apply chronological_sorted.
  apply isort_sorted; [exact key_leb_total | exact key_leb_trans].
Qed.

(** So is the one that puts the later of two rows with equal keys
    first. *)
Lemma key_leb_later_total (a b : option datetime * nat) :
  key_leb_later a b = false -> key_leb_later b a = true.
Proof.
  unfold key_leb_later. destruct (fst a) as [x |], (fst b) as [y |]; try discriminate;
    try reflexivity.
  intros H. apply orb_false_iff in H. destruct H as [H1 H2].
  apply Z.ltb_ge in H1. apply andb_false_iff in H2.
  apply orb_true_iff.
  destruct (Z.eq_dec x y) as [-> | Hne].
  - right. rewrite Z.eqb_refl. simpl.
    destruct H2 as [H2 | H2]; [rewrite Z.eqb_refl in H2; discriminate |].
    apply Nat.leb_gt in H2. apply Nat.leb_le. lia.
  - left. apply Z.ltb_lt. lia.
Qed.

Lemma key_leb_later_trans (a b c : option datetime * nat) :
  key_leb_later a b = true -> key_leb_later b c = true -> key_leb_later a c = true.
Proof.
  unfold key_leb_later. destruct (fst a) as [x |], (fst b) as [y |], (fst c) as [z |];
    try discriminate; try reflexivity.
  intros H1 H2. apply orb_true_iff in H1, H2. apply orb_true_iff.
  destruct H1 as [H1 | H1], H2 as [H2 | H2].
  - apply Z.ltb_lt in H1, H2. left. apply Z.ltb_lt. lia.
  - apply Z.ltb_lt in H1. apply andb_true_iff in H2. destruct H2 as [H2 _].
    apply Z.eqb_eq in H2. left. apply Z.ltb_lt. lia.
  - apply Z.ltb_lt in H2. apply andb_true_iff in H1. destruct H1 as [H1 _].
    apply Z.eqb_eq in H1. left. apply Z.ltb_lt. lia.
  - apply andb_true_iff in H1, H2. destruct H1 as [H1 H1'], H2 as [H2 H2'].
    apply Z.eqb_eq in H1, H2. apply Nat.leb_le in H1', H2'.
    right. apply andb_true_iff. split; [apply Z.eqb_eq; lia | apply Nat.leb_le; lia].
Qed.

Lemma chronological_sorted_later (l : list (option datetime * nat)) :
  StronglySorted (le_of key_leb_later) l -> StronglySorted chronological (map fst l).
Proof.
  induction 1 as [| a l Hs IH Hall]; simpl; constructor; [exact IH |].
  apply Forall_map. eapply Forall_impl; [| exact Hall].
  intros b Hb. unfold le_of, key_leb_later in Hb. unfold chronological.
  destruct (fst a), (fst b); try discriminate; auto.
  apply orb_true_iff in Hb. destruct Hb as [Hb | Hb].
  - apply Z.ltb_lt in Hb. lia.
  - apply andb_true_iff in Hb. destruct Hb as [Hb _]. apply Z.eqb_eq in Hb. lia.
Qed.

Lemma later_first_sorting : sorting later_first.
Proof.
  intros keys. split.
  - unfold later_first.
    rewrite (isort_perm _ key_leb_later (combine keys (seq 0 (List.length keys)))).
    rewrite map_snd_combine by (rewrite length_seq; reflexivity).
    reflexivity.
  - unfold later_first. rewrite take_sorted_keys. apply chronological_sorted_later.
    apply isort_sorted; [exact key_leb_later_total | exact key_leb_later_trans].
Qed.

Section TwiceWithAnyRoutine.
Context {L : PyLib}.
Variable order : list (option datetime) -> list nat.
Hypothesis order_sorts : sorting order.
Import Etl.

(** With the routine that leaves equal keys as they were, the transform
    is the transform of the other parts. *)
Lemma clean_and_transform_data_by_argsort (df : DataFrame) :
  clean_and_transform_data_by argsort df = clean_and_transform_data df.
Proof. reflexivity. Qed.

(** The sort of a frame that has its rows in the order [perm]: one more
    reordering, which changes nothing when the frame is sorted and no
    two rows carry the same time stamp. *)
Lemma sort_by_timestamp_by_reorder (perm : list nat) (d : DataFrame) :
  Permutation perm (seq 0 (nrows d)) ->
  get_col "DATAHORA_MEDICAO" (columns d) = None
  \/ (exists keys, get_col "DATAHORA_MEDICAO" (columns d) = Some (ColTime keys)) ->
  exists perm2,
    Permutation perm2 (seq 0 (nrows d))
    /\ sort_by_timestamp_by order (reorder perm d) = Ok (reorder perm2 (reorder perm d))
    /\ ((forall ks,
           get_col "DATAHORA_MEDICAO" (columns (reorder perm d)) = Some (ColTime ks) ->
           StronglySorted chronological ks /\ NoDup ks) ->
        perm2 = seq 0 (nrows d)).
Proof.
  intros Hperm Htime.
  assert (Hlp : List.length perm = nrows d).
  { rewrite (Permutation_length Hperm). apply length_seq. }
  unfold sort_by_timestamp_by, has_col, sort_values_by.
  rewrite get_col_reorder.
  destruct Htime as [Hk | [keys Hk]]; rewrite Hk; cbn [option_map take_rows].
  - exists (seq 0 (nrows d)). split; [apply Permutation_refl |]. split; [| reflexivity].
    f_equal. symmetry. rewrite <- Hlp.
    change (List.length perm) with (nrows (reorder perm d)).
    apply reorder_seq, well_formed_reorder.
  - assert (Hlt : List.length (take_cells perm keys) = nrows d).
    { unfold take_cells. rewrite length_map. exact Hlp. }
    exists (order (take_cells perm keys)). split; [| split].
    + rewrite <- Hlt. apply order_sorts.
    + reflexivity.
    + intros Hs. destruct (Hs _ eq_refl) as [Hsorted Hnd].
      rewrite <- Hlt. apply sorting_sorted; assumption.
Qed.

(** The transform on the output of a first run, derived columns
    dropped, rows in the order the first run left them: the first four
    steps change nothing, the sort is run once more. *)
Lemma second_run_by (d3 d4 d5 : DataFrame) (perm : list nat) :
  settled d3 -> underived d3 = true ->
  add_vibration_magnitude d3 = Ok d4 ->
  add_temp_status d4 = Ok d5 ->
  Permutation perm (seq 0 (nrows d3)) ->
  df_empty d3 = false ->
  transform_steps_by order (drop_cols derived_columns (reorder perm d5))
  = sort_by_timestamp_by order (reorder perm d5)
  /\ df_empty (drop_cols derived_columns (reorder perm d5)) = false.
Proof.
  intros Hset Hu H4 H5 Hperm Hne.
  rewrite drop_cols_reorder, (derived_dropped d3 d4 d5 Hu H4 H5).
  split.
  - unfold transform_steps_by.
    rewrite (fill_nulls_reorder perm d3 Hset Hperm).
    rewrite (clip_columns_reorder perm d3 Hset Hperm). cbn [bind].
    rewrite (standardize_timestamps_reorder perm d3 Hset). cbn [bind].
    rewrite (add_vibration_magnitude_reorder perm d3 d4 (proj1 Hset) H4). cbn [bind].
    rewrite (add_temp_status_reorder perm d4 d5 H5). cbn [bind].
    reflexivity.
  - unfold df_empty in *. simpl. apply orb_false_iff in Hne. destruct Hne as [Hn Hc].
    apply orb_false_iff. split.
    + rewrite (Permutation_length Hperm), length_seq. exact Hn.
    + destruct (columns d3); [discriminate | reflexivity].
Qed.

(** The time-stamp column is none of the derived columns' business. *)
Lemma derived_steps_keep_timestamps (d3 d4 d5 : DataFrame) :
  add_vibration_magnitude d3 = Ok d4 ->
  add_temp_status d4 = Ok d5 ->
  get_col "DATAHORA_MEDICAO" (columns d5) = get_col "DATAHORA_MEDICAO" (columns d3).
Proof.
  intros H4 H5.
  rewrite (add_temp_status_keeps _ _ "DATAHORA_MEDICAO" H5 eq_refl).
  exact (add_vibration_magnitude_keeps _ _ "DATAHORA_MEDICAO" H4 eq_refl).
Qed.


End TwiceWithAnyRoutine.

Lemma vibrating_window_no_ties :
  no_tied_timestamps (@Etl.clean_and_transform_data_by sample_lib argsort vibrating_window).
Proof.
  vm_compute.
  repeat (constructor; [simpl; intuition discriminate |]). constructor.
Defined.



(* ================================================================= *)
(** ** A vibration too large for a float *)

(** The square of [1e200] raises [OverflowError]: the reading is not
    storable, and on a store that does not fail it is refused before
    the persistence call, with one failed insert counted. *)
Example violent_reading_is_refused :
  storable violent_reading = false
  /\ fst (@Ingestion.insert_sensor_data sample_lib 5 violent_reading (service_with 0))
     = Ok false
  /\ Ingestion.t_medicao
       (Ingestion.committed
          (Ingestion.db_connection
             (snd (@Ingestion.insert_sensor_data sample_lib 5 violent_reading
                     (service_with 0))))) = []
  /\ Ingestion.sp_calls
       (Ingestion.db_connection
          (snd (@Ingestion.insert_sensor_data sample_lib 5 violent_reading
                  (service_with 0)))) = 0%nat
  /\ Ingestion.failed_inserts
       (Ingestion.stats
          (snd (@Ingestion.insert_sensor_data sample_lib 5 violent_reading
                  (service_with 0)))) = 1%Z.
Proof. vm_compute. repeat split. Qed.
